(** * Star Wars API serverless: mapper and request handlers

    A shallow embedding of the translation utilities (utils/mapper), of the
    DynamoDB service and of the four Lambda handlers, followed by the
    properties of the specification that were checked against them.

    Conventions.  A JavaScript string is the [string] of its UTF-8 bytes, so
    that the literals of the source are written as they stand.  Case
    conversion acts on the ASCII letters (every key of the two translation
    tables and every accepted gender is ASCII).  A number is NaN, an integer
    (what the modelled paths compute with: parseInt results, lengths, status
    codes) or, for the other numbers a request may carry, the text that
    prints it.  An object is the list of its own enumerable entries, their
    names distinct, in the order Object.entries yields them. *)

From Stdlib Require Import String Ascii List ZArith Lia Bool DecimalString DecimalNat.
Import ListNotations.
Open Scope string_scope.
Set Warnings "-register-all".

(** ** The fragment of the JavaScript runtime the sources rely on *)

Module Js.

Inductive JsValue : Type :=
| JUndefined
| JNull
| JBool (b : bool)
| JNaN
| JNum (n : Z)
| JDec (texto : string)          (* a number that is no integer: a fraction or an
                                    infinity, by the text toString gives for it *)
| JStr (s : string)
| JArr (elementos : list JsValue)
| JObj (campos : list (string * JsValue))
| JNative (nombre : string)      (* a built-in function inherited from Object.prototype *)
| JObjectPrototype.              (* Object.prototype itself *)

(** An Error object: the members the handlers and the service read. *)
Record JsError : Type := mkError { code : option string; message : string }.

(** A computation that returns or throws. *)
Inductive Exc (A : Type) : Type :=
| Ok (a : A)
| Throw (e : JsError).
Arguments Ok {A} a.
Arguments Throw {A} e.

Definition comilla : string := String (ascii_of_nat 34) "".

(** ToBoolean. *)
Definition truthy (v : JsValue) : bool :=
  match v with
  | JUndefined | JNull | JNaN => false
  | JBool b => b
  | JNum n => negb (n =? 0)%Z
  | JStr s => negb (s =? "")
  | JDec _ | JArr _ | JObj _ | JNative _ | JObjectPrototype => true
  end.

Definition typeof (v : JsValue) : string :=
  match v with
  | JUndefined => "undefined"
  | JNull => "object"
  | JBool _ => "boolean"
  | JNaN | JNum _ | JDec _ => "number"
  | JStr _ => "string"
  | JArr _ | JObj _ | JObjectPrototype => "object"
  | JNative _ => "function"
  end.

Definition Array_isArray (v : JsValue) : bool :=
  match v with JArr _ => true | _ => false end.

Definition es_undefined (v : JsValue) : bool :=
  match v with JUndefined => true | _ => false end.

(** *** Strings *)

Definition entre (lo hi : nat) (c : ascii) : bool :=
  let n := nat_of_ascii c in (lo <=? n)%nat && (n <=? hi)%nat.

Definition lower_ascii (c : ascii) : ascii :=
  if entre 65 90 c then ascii_of_nat (nat_of_ascii c + 32) else c.

Definition upper_ascii (c : ascii) : ascii :=
  if entre 97 122 c then ascii_of_nat (nat_of_ascii c - 32) else c.

(** String.prototype.toLowerCase on the ASCII letters: exact on a string of
    ASCII characters. *)
Fixpoint toLowerCase (s : string) : string :=
  match s with
  | EmptyString => EmptyString
  | String c r => String (lower_ascii c) (toLowerCase r)
  end.

Fixpoint toUpperCase (s : string) : string :=
  match s with
  | EmptyString => EmptyString
  | String c r => String (upper_ascii c) (toUpperCase r)
  end.

(** String.prototype.includes. *)
Fixpoint includes (s sub : string) : bool :=
  if String.prefix sub s then true
  else match s with
       | EmptyString => false
       | String _ r => includes r sub
       end.

(** Array.prototype.includes on an array of strings. *)
Definition Array_includes (l : list string) (x : string) : bool :=
  existsb (String.eqb x) l.

(** Array.prototype.join on an array of strings. *)
Fixpoint join (sep : string) (l : list string) : string :=
  match l with
  | [] => ""
  | [x] => x
  | x :: r => x ++ sep ++ join sep r
  end.

(** White space and line terminators (StrWhiteSpaceChar), as UTF-8: strips
    one such character from the front of [s]. *)
Definition quitar_espacio (s : string) : option string :=
  match s with
  | String c r =>
      let n := nat_of_ascii c in
      if ((9 <=? n) && (n <=? 13) || (n =? 32))%nat then Some r
      else match r with
      | String c2 r2 =>
          let n2 := nat_of_ascii c2 in
          if ((n =? 194) && (n2 =? 160))%nat then Some r2                    (* U+00A0 *)
          else match r2 with
          | String c3 r3 =>
              let n3 := nat_of_ascii c3 in
              if ((n =? 225) && (n2 =? 154) && (n3 =? 128)                   (* U+1680 *)
                  || (n =? 226) && (n2 =? 128)
                     && ((128 <=? n3) && (n3 <=? 138)                        (* U+2000..U+200A *)
                         || (n3 =? 168) || (n3 =? 169) || (n3 =? 175))       (* U+2028 U+2029 U+202F *)
                  || (n =? 226) && (n2 =? 129) && (n3 =? 159)                (* U+205F *)
                  || (n =? 227) && (n2 =? 128) && (n3 =? 128)                (* U+3000 *)
                  || (n =? 239) && (n2 =? 187) && (n3 =? 191))%nat           (* U+FEFF *)
              then Some r3 else None
          | EmptyString => None
          end
      | EmptyString => None
      end
  | EmptyString => None
  end.

Fixpoint trimStart_aux (fuel : nat) (s : string) : string :=
  match fuel with
  | O => s
  | S f => match quitar_espacio s with
           | Some r => trimStart_aux f r
           | None => s
           end
  end.

Definition trimStart (s : string) : string := trimStart_aux (String.length s) s.

Definition solo_espacios (s : string) : bool := trimStart s =? "".

Fixpoint trimEnd (s : string) : string :=
  match s with
  | EmptyString => EmptyString
  | String c r => if solo_espacios s then EmptyString else String c (trimEnd r)
  end.

Definition trim (s : string) : string := trimEnd (trimStart s).

(** *** Numeric literals: what Number(s), and so isNaN(s), accepts *)

Definition es_digito (c : ascii) : bool := entre 48 57 c.

Fixpoint quitar_digitos (s : string) : string :=
  match s with
  | String c r => if es_digito c then quitar_digitos r else s
  | EmptyString => EmptyString
  end.

Fixpoint tomar_digitos (s : string) : string :=
  match s with
  | String c r => if es_digito c then String c (tomar_digitos r) else EmptyString
  | EmptyString => EmptyString
  end.

Definition empieza_con_digito (s : string) : bool :=
  match s with String c _ => es_digito c | EmptyString => false end.

Definition DecimalDigits (s : string) : bool :=
  empieza_con_digito s && (quitar_digitos s =? "").

Definition quitar_signo (s : string) : string :=
  match s with
  | String c r => if ((c =? "+") || (c =? "-"))%char then r else s
  | EmptyString => s
  end.

(** ExponentPart, optional, up to the end of the literal. *)
Definition ExponentPart_opt (s : string) : bool :=
  match s with
  | EmptyString => true
  | String c r => ((c =? "e") || (c =? "E"))%char && DecimalDigits (quitar_signo r)
  end.

Definition StrUnsignedDecimalLiteral (s : string) : bool :=
  if s =? "Infinity" then true
  else
    let r1 := quitar_digitos s in
    match r1 with
    | String "." r2 =>
        (empieza_con_digito s || empieza_con_digito r2)
        && ExponentPart_opt (quitar_digitos r2)
    | _ => empieza_con_digito s && ExponentPart_opt r1
    end.

Fixpoint todos (p : ascii -> bool) (s : string) : bool :=
  match s with
  | EmptyString => true
  | String c r => p c && todos p r
  end.

Definition es_hex (c : ascii) : bool := es_digito c || entre 65 70 c || entre 97 102 c.

Definition NonDecimalIntegerLiteral (s : string) : bool :=
  match s with
  | String "0" (String p r) =>
      negb (r =? "")
      && (((p =? "x") || (p =? "X"))%char && todos es_hex r
          || ((p =? "o") || (p =? "O"))%char && todos (entre 48 55) r
          || ((p =? "b") || (p =? "B"))%char && todos (entre 48 49) r)
  | _ => false
  end.

Definition StrNumericLiteral (s : string) : bool :=
  StrUnsignedDecimalLiteral (quitar_signo s) || NonDecimalIntegerLiteral s.

(** isNaN(s) for a string [s]: Number(s) is NaN unless the trimmed string is
    empty (the number 0) or a numeric literal. *)
Definition isNaN_string (s : string) : bool :=
  let t := trim s in
  negb ((t =? "") || StrNumericLiteral t).

(** *** parseInt *)

Definition valor_digito (c : ascii) : option Z :=
  let n := Z.of_nat (nat_of_ascii c) in
  if es_digito c then Some (n - 48)%Z
  else if entre 97 122 c then Some (n - 87)%Z
  else if entre 65 90 c then Some (n - 55)%Z
  else None.

(** Reads the longest prefix of digits in radix [R]; [acc] is the value read
    so far, [None] while no digit was seen. *)
Fixpoint leer_digitos (R : Z) (s : string) (acc : option Z) : option Z :=
  match s with
  | String c r =>
      match valor_digito c with
      | Some d =>
          if (d <? R)%Z
          then leer_digitos R r (Some (match acc with Some a => a * R + d | None => d end)%Z)
          else acc
      | None => acc
      end
  | EmptyString => acc
  end.

Definition quitar_0x (s : string) : option string :=
  match s with
  | String "0" (String p r) => if ((p =? "x") || (p =? "X"))%char then Some r else None
  | _ => None
  end.

(** parseInt(s, radix) on a string; [radix = None] is the one-argument call.
    The result is the integer read, [None] for NaN.  The sign of zero is not
    kept, and an integer beyond 2^53 stands for the double nearest to it:
    neither changes a comparison with 0 or 100, the only use made of them. *)
Definition parseInt (s : string) (radix : option Z) : option Z :=
  let S0 := trimStart s in
  let negativo := match S0 with String "-" _ => true | _ => false end in
  let S1 := quitar_signo S0 in
  let R0 := match radix with Some r => r | None => 0%Z end in
  if (negb (R0 =? 0) && ((R0 <? 2) || (36 <? R0)))%Z then None
  else
    let stripPrefix := ((R0 =? 0) || (R0 =? 16))%Z in
    let R1 := if (R0 =? 0)%Z then 10%Z else R0 in
    let '(R, S2) :=
      match (if stripPrefix then quitar_0x S1 else None) with
      | Some r => (16%Z, r)
      | None => (R1, S1)
      end in
    match leer_digitos R S2 None with
    | Some n => Some (if negativo then (- n)%Z else n)
    | None => None
    end.

(** *** Objects *)

Fixpoint own {A : Type} (campos : list (string * A)) (k : string) : option A :=
  match campos with
  | [] => None
  | (k', v) :: r => if k' =? k then Some v else own r k
  end.

(** The function-valued members of Object.prototype. *)
Definition Object_prototype_metodos : list string :=
  [ "constructor"; "__defineGetter__"; "__defineSetter__"; "hasOwnProperty";
    "__lookupGetter__"; "__lookupSetter__"; "isPrototypeOf";
    "propertyIsEnumerable"; "toString"; "valueOf"; "toLocaleString" ].

(** What an ordinary object inherits under the name [k]. *)
Definition heredado (k : string) : JsValue :=
  if k =? "__proto__" then JObjectPrototype
  else if k =? "constructor" then JNative "Object"
  else if Array_includes Object_prototype_metodos k then JNative k
  else JUndefined.

(** [o[k]] on an ordinary object: the own property, else the inherited one. *)
Definition js_get (o : list (string * JsValue)) (k : string) : JsValue :=
  match own o k with
  | Some v => v
  | None => heredado k
  end.

(** [o[k] = v] where [k] names an own property or nothing inherited with a
    setter: the own property is updated in place or added last. *)
Fixpoint js_set (o : list (string * JsValue)) (k : string) (v : JsValue)
  : list (string * JsValue) :=
  match o with
  | [] => [(k, v)]
  | (k', v') :: r => if k' =? k then (k', v) :: r else (k', v') :: js_set r k v
  end.

Definition decimal_nat (n : nat) : string := NilZero.string_of_uint (Nat.to_uint n).

(** The decimal numeral of an integer. *)
Definition decimal (n : Z) : string :=
  if (n <? 0)%Z then "-" ++ decimal_nat (Z.to_nat (- n)) else decimal_nat (Z.to_nat n).

(** ToString.  Exact for integers below 10^21 in absolute value and for
    arrays and objects that do not redefine toString or valueOf. *)
Fixpoint ToString (v : JsValue) : string :=
  match v with
  | JUndefined => "undefined"
  | JNull => "null"
  | JBool true => "true"
  | JBool false => "false"
  | JNaN => "NaN"
  | JNum n => decimal n
  | JDec texto => texto
  | JStr s => s
  | JArr l =>
      join "," (map (fun e => match e with
                              | JUndefined | JNull => ""
                              | _ => ToString e
                              end) l)
  | JObj _ => "[object Object]"
  | JNative n => "function " ++ n ++ "() { [native code] }"
  | JObjectPrototype => "[object Object]"
  end.

Fixpoint indexar (i : nat) (l : list JsValue) : list (string * JsValue) :=
  match l with
  | [] => []
  | x :: r => (decimal (Z.of_nat i), x) :: indexar (S i) r
  end.

(** Object.entries on an object value. *)
Definition Object_entries (v : JsValue) : list (string * JsValue) :=
  match v with
  | JObj campos => campos
  | JArr l => indexar 0 l
  | _ => []
  end.

End Js.
Import Js.

(** ** utils/mapper *)

Module Mapper.

Definition PERSONAJE_FIELD_MAP : list (string * JsValue) :=
  [ ("name", JStr "nombre");
    ("height", JStr "altura");
    ("mass", JStr "masa");
    ("hair_color", JStr "color_de_cabello");
    ("skin_color", JStr "color_de_piel");
    ("eye_color", JStr "color_de_ojos");
    ("birth_year", JStr "año_de_nacimiento");
    ("gender", JStr "genero");
    ("homeworld", JStr "planeta_natal");
    ("films", JStr "peliculas");
    ("species", JStr "especies");
    ("vehicles", JStr "vehiculos");
    ("starships", JStr "naves_espaciales");
    ("created", JStr "creado");
    ("edited", JStr "editado");
    ("url", JStr "url") ].

Definition VALUE_TRANSLATIONS : list (string * JsValue) :=
  [ ("male", JStr "masculino");
    ("female", JStr "femenino");
    ("n/a", JStr "n/a");
    ("none", JStr "ninguno");
    ("hermaphrodite", JStr "hermafrodita");
    ("blue", JStr "azul");
    ("blond", JStr "rubio (testt)");
    ("unknown", JStr "desconocido") ].

(** [PERSONAJE_FIELD_MAP[fieldName] || fieldName], for a string. *)
Definition translateFieldName (fieldName : string) : JsValue :=
  let v := js_get PERSONAJE_FIELD_MAP fieldName in
  if truthy v then v else JStr fieldName.

Definition translateValue (value : JsValue) : JsValue :=
  match value with
  | JStr s =>
      let lowerValue := toLowerCase s in
      let v := js_get VALUE_TRANSLATIONS lowerValue in
      if truthy v then v else value
  | _ => value
  end.

(** One turn of the loop over Object.entries: the assignment
    [personajeEnEspanol[campoEspanol] = ...], the key converted to a
    property name. *)
Definition traducirCampo (personajeEnEspanol : list (string * JsValue))
    (entrada : string * JsValue) : list (string * JsValue) :=
  let '(campoIngles, valor) := entrada in
  let campoEspanol := translateFieldName campoIngles in
  match valor with
  | JArr l => js_set personajeEnEspanol (ToString campoEspanol) (JArr (map translateValue l))
  | _ => js_set personajeEnEspanol (ToString campoEspanol) (translateValue valor)
  end.

Definition mapPersonajeToEspanol (personajeEnIngles : JsValue) : JsValue :=
  if negb (truthy personajeEnIngles) || negb (typeof personajeEnIngles =? "object")
  then JNull
  else JObj (fold_left traducirCampo (Object_entries personajeEnIngles) []).

(** [personajes.map(mapPersonajeToEspanol).filter(Boolean)]. *)
Definition mapPersonajesToEspanol (personajes : JsValue) : JsValue :=
  match personajes with
  | JArr l => JArr (filter truthy (map mapPersonajeToEspanol l))
  | _ => JArr []
  end.

(** The match of [/\/(\d+)\/?$/] starting at the head of [s]: a slash, the
    longest run of digits (giving back digits cannot help, what follows a
    shorter run is a digit), an optional slash, the end.  Returns group 1. *)
Definition coincide_aqui (s : string) : option string :=
  match s with
  | String "/" r =>
      let resto := quitar_digitos r in
      if empieza_con_digito r && ((resto =? "") || (resto =? "/"))
      then Some (tomar_digitos r)
      else None
  | _ => None
  end.

(** [url.match(...)]: the leftmost position where the pattern matches. *)
Fixpoint buscar_coincidencia (s : string) : option string :=
  match coincide_aqui s with
  | Some d => Some d
  | None => match s with
            | String _ r => buscar_coincidencia r
            | EmptyString => None
            end
  end.

Definition extractIdFromUrl (url : JsValue) : JsValue :=
  match url with
  | JStr s =>
      if negb (truthy url) then JNull
      else match buscar_coincidencia s with
           | Some d => JStr d
           | None => JNull
           end
  | _ => JNull
  end.

End Mapper.

(** ** What surrounds a handler: environment, collaborators, outgoing calls *)

Module Entorno.

(** A request that leaves the process. *)
Inductive Llamada : Type :=
| DynamoPut (TableName : string) (Item : JsValue)
| DynamoGet (TableName : string) (id : string)
| DynamoScan (TableName : string) (Limit : Z)
| SwapiGetPersonajeById (id : string).

(** Everything a handler does not decide by itself.  No field is assumed to
    behave in any particular way: a property proved of a handler holds for
    every such environment. *)
Record Mundo : Type := {
  (* process.env *)
  PERSONAJES_TABLE : option string;
  NODE_ENV : option string;
  (* uuid.v4() and new Date().toISOString() of this invocation *)
  uuidv4 : string;
  ahora : string;
  (* JSON.parse: [None] when it throws a SyntaxError *)
  JSON_parse : string -> option JsValue;
  (* isNaN on an array or an object, which runs their ToPrimitive *)
  isNaN_objeto : JsValue -> Exc bool;
  (* Array.prototype.sort with the comparator on the creation dates *)
  sort_por_creado : list JsValue -> Exc (list JsValue);
  (* the DocumentClient: the error thrown, or the Item (undefined when there
     is none) and the Items of the result *)
  dynamo_put : string -> JsValue -> Exc unit;
  dynamo_get : string -> string -> Exc JsValue;
  dynamo_scan : string -> Z -> Exc (list JsValue);
  (* services/swapiService: what getPersonajeById returns or throws; the
     HTTP request it makes is behind this boundary *)
  swapi_getPersonajeById : string -> Exc JsValue
}.

(** An asynchronous computation: the calls it made, in order, and how it
    ended. *)
Definition M (A : Type) : Type := (list Llamada * Exc A)%type.

Definition ret {A} (a : A) : M A := ([], Ok a).

Definition throw {A} (e : JsError) : M A := ([], Throw e).

Definition bind {A B} (m : M A) (k : A -> M B) : M B :=
  match m with
  | (t, Ok a) => let '(t', r) := k a in ((t ++ t')%list, r)
  | (t, Throw e) => (t, Throw e)
  end.

(** [try { m } catch (error) { h error }]. *)
Definition try_catch {A} (m : M A) (h : JsError -> M A) : M A :=
  match m with
  | (t, Ok a) => (t, Ok a)
  | (t, Throw e) => let '(t', r) := h e in ((t ++ t')%list, r)
  end.

(** A call to a collaborator, recorded. *)
Definition llamar {A} (c : Llamada) (r : Exc A) : M A := ([c], r).

Definition lift {A} (r : Exc A) : M A := ([], r).

(** [new Error(message)]. *)
Definition Error (mensaje : string) : JsError := mkError None mensaje.

(** The response object handed to API Gateway; [body] is the value given to
    JSON.stringify. *)
Record Respuesta : Type := {
  statusCode : Z;
  headers : list (string * JsValue);
  body : JsValue
}.

Definition buildResponse (statusCode : Z) (body : JsValue) : Respuesta :=
  {| statusCode := statusCode;
     headers := [ ("Content-Type", JStr "application/json");
                  ("Access-Control-Allow-Origin", JStr "*");
                  ("Access-Control-Allow-Credentials", JBool true) ];
     body := body |}.

(** The API Gateway event: the members the handlers read.  Path and query
    parameters are maps of strings, or null.  The Lambda context is only
    logged from, and logging is left out. *)
Record Evento : Type := {
  pathParameters : option (list (string * string));
  queryStringParameters : option (list (string * string));
  cuerpo : option string     (* event.body *)
}.

(** [(m || {}).k] for a map of strings. *)
Definition parametro (m : option (list (string * string))) (k : string) : option string :=
  match m with
  | Some campos => own campos k
  | None => None
  end.

(** [process.env.NODE_ENV === 'development' ? error.message : otro]. *)
Definition detalles_de (w : Mundo) (error : JsError) (otro : string) : JsValue :=
  match NODE_ENV w with
  | Some e => if e =? "development" then JStr (message error) else JStr otro
  | None => JStr otro
  end.

(** [o[k]] where [o] is an ordinary object (or Object.prototype, which has
    the inherited members for its own).  The read of a property of undefined
    or of null, which throws, is outside it. *)
Definition propiedad (o : JsValue) (k : string) : JsValue :=
  match o with
  | JObj campos => js_get campos k
  | _ => heredado k
  end.

End Entorno.
Import Entorno.

Declare Scope m_scope.
Notation "x <- m ;; k" := (bind m (fun x => k))
  (at level 61, m at next level, right associativity) : m_scope.

(** ** services/dynamoDBService *)

Module DynamoDBService.
Section Servicio.
Context (w : Mundo).
Local Open Scope m_scope.

Definition TABLA_PERSONAJES : option string := PERSONAJES_TABLE w.

(** [!TABLA_PERSONAJES] fails: the table name, when set and not empty. *)
Definition tabla_configurada : M string :=
  match TABLA_PERSONAJES with
  | Some t => if t =? "" then throw (Error "La variable de entorno PERSONAJES_TABLE no está configurada")
              else ret t
  | None => throw (Error "La variable de entorno PERSONAJES_TABLE no está configurada")
  end.

Definition guardarPersonaje (personaje : JsValue) : M JsValue :=
  try_catch
    (t <- tabla_configurada ;;
     _ <- llamar (DynamoPut t personaje) (dynamo_put w t personaje) ;;
     ret personaje)
    (fun error =>
       match code error with
       | Some c =>
           if c =? "ConditionalCheckFailedException"
           then throw (Error ("Ya existe un personaje con el ID " ++ ToString (propiedad personaje "id")))
           else throw (Error ("Error al guardar en DynamoDB: " ++ message error))
       | None => throw (Error ("Error al guardar en DynamoDB: " ++ message error))
       end).

(** The log line of an item found prints [resultado.Item.nombre]; the
    printing is taken to go through (an error there would be rethrown by the
    catch clause, as any error of the lookup). *)
Definition obtenerPersonajePorId (id : string) : M JsValue :=
  try_catch
    (t <- tabla_configurada ;;
     item <- llamar (DynamoGet t id) (dynamo_get w t id) ;;
     if negb (truthy item) then ret JNull else ret item)
    (fun error => throw (Error ("Error al consultar DynamoDB: " ++ message error))).

Definition listarPersonajes (limite : Z) : M (list JsValue) :=
  try_catch
    (t <- tabla_configurada ;;
     items <- llamar (DynamoScan t limite) (dynamo_scan w t limite) ;;
     ret items)
    (fun error => throw (Error ("Error al consultar DynamoDB: " ++ message error))).

End Servicio.
End DynamoDBService.

(** ** handlers/crearEntidad: POST /personajes *)

Module CrearEntidad.

Inductive ValidacionCuerpo : Type :=
| CuerpoValido (datos : JsValue)           (* { valido: true, datos } *)
| CuerpoInvalido (error : string).         (* { valido: false, error } *)

Inductive ValidacionObligatorios : Type :=
| Completo                                                  (* { valido: true } *)
| Faltan (error : string) (camposFaltantes : list string).  (* { valido: false, ... } *)

Inductive ValidacionTipos : Type :=
| TiposValidos                             (* { valido: true } *)
| TiposInvalidos (errores : list string).  (* { valido: false, errores } *)

Definition exc_bind {A B} (e : Exc A) (k : A -> Exc B) : Exc B :=
  match e with
  | Ok a => k a
  | Throw err => Throw err
  end.

Notation "x <-- e ;; k" := (exc_bind e (fun x => k))
  (at level 61, e at next level, right associativity).

(** The TypeError of calling a member that is not a function. *)
Definition TypeError_no_funcion (expresion : string) : JsError :=
  mkError None (expresion ++ " is not a function").

Section Handler.
Context (w : Mundo).

Definition validarCuerpoRequest (body : option string) : ValidacionCuerpo :=
  match body with
  | None => CuerpoInvalido "El cuerpo de la petición está vacío"
  | Some texto =>
      if texto =? "" then CuerpoInvalido "El cuerpo de la petición está vacío"
      else match JSON_parse w texto with
           | Some datos =>
               if negb (truthy datos) || negb (typeof datos =? "object") || Array_isArray datos
               then CuerpoInvalido "El cuerpo debe ser un objeto JSON válido"
               else CuerpoValido datos
           | None => CuerpoInvalido "El cuerpo de la petición no es un JSON válido"
           end
  end.

Definition camposObligatorios : list string := ["nombre"].

(** The test of the loop: missing, not a string, or blank. *)
Definition falta (personaje : JsValue) (campo : string) : bool :=
  let v := propiedad personaje campo in
  negb (truthy v)
  || negb (typeof v =? "string")
  || match v with JStr s => trim s =? "" | _ => false end.

(** [personaje] is an object and not null, as the handler passes it. *)
Definition validarCamposObligatorios (personaje : JsValue) : ValidacionObligatorios :=
  let camposFaltantes := filter (falta personaje) camposObligatorios in
  if (0 <? List.length camposFaltantes)%nat
  then Faltan "Faltan campos obligatorios o están vacíos" camposFaltantes
  else Completo.

Definition camposString : list string :=
  [ "nombre"; "altura"; "masa"; "color_de_cabello";
    "color_de_piel"; "color_de_ojos"; "año_de_nacimiento";
    "genero"; "planeta_natal" ].

Definition camposArray : list string :=
  [ "peliculas"; "especies"; "vehiculos"; "naves_espaciales" ].

Definition generosValidos : list string :=
  [ "masculino"; "femenino"; "hermafrodita"; "n/a"; "desconocido" ].

Definition mensaje_string (campo : string) : string :=
  "El campo " ++ comilla ++ campo ++ comilla ++ " debe ser una cadena de texto".

Definition mensaje_array (campo : string) : string :=
  "El campo " ++ comilla ++ campo ++ comilla ++ " debe ser un array".

Definition mensaje_numerico (campo : string) : string :=
  "El campo " ++ comilla ++ campo ++ comilla ++ " debe contener un valor numérico".

Definition mensaje_genero : string :=
  "El campo " ++ comilla ++ "genero" ++ comilla ++ " debe ser uno de: "
  ++ join ", " generosValidos.

(** isNaN(v). *)
Definition isNaN (v : JsValue) : Exc bool :=
  match v with
  | JUndefined | JNaN => Ok true
  | JNull | JBool _ | JNum _ | JDec _ => Ok false
  | JStr s => Ok (isNaN_string s)
  | JArr _ | JObj _ => isNaN_objeto w v
  | JNative _ | JObjectPrototype => Ok true
  end.

(** [v && isNaN(v)], as a condition. *)
Definition presente_y_no_numerico (v : JsValue) : Exc bool :=
  if truthy v then isNaN v else Ok false.

(** [v.toLowerCase()]: only a string has the method. *)
Definition llamar_toLowerCase (expresion : string) (v : JsValue) : Exc string :=
  match v with
  | JStr s => Ok (toLowerCase s)
  | _ => Throw (TypeError_no_funcion (expresion ++ ".toLowerCase"))
  end.

(** [personaje] is an object and not null, as the handler passes it. *)
Definition validarTiposDeDatos (personaje : JsValue) : Exc ValidacionTipos :=
  let errores1 :=
    map mensaje_string
        (filter (fun campo =>
                   negb (es_undefined (propiedad personaje campo))
                   && negb (typeof (propiedad personaje campo) =? "string"))
                camposString) in
  let errores2 :=
    map mensaje_array
        (filter (fun campo =>
                   negb (es_undefined (propiedad personaje campo))
                   && negb (Array_isArray (propiedad personaje campo)))
                camposArray) in
  altura_mal <-- presente_y_no_numerico (propiedad personaje "altura") ;;
  let errores3 := if altura_mal then [mensaje_numerico "altura"] else [] in
  masa_mal <-- presente_y_no_numerico (propiedad personaje "masa") ;;
  let errores4 := if masa_mal then [mensaje_numerico "masa"] else [] in
  errores5 <--
    (if truthy (propiedad personaje "genero")
     then
       g <-- llamar_toLowerCase "personaje.genero" (propiedad personaje "genero") ;;
       Ok (if negb (Array_includes generosValidos g) then [mensaje_genero] else [])
     else Ok []) ;;
  let erroresValidacion := (errores1 ++ errores2 ++ errores3 ++ errores4 ++ errores5)%list in
  Ok (if (0 <? List.length erroresValidacion)%nat
      then TiposInvalidos erroresValidacion
      else TiposValidos).

(** The loop that trims: one turn, on an entry of the copy. *)
Definition recortar (personajeSanitizado : list (string * JsValue))
    (entrada : string * JsValue) : list (string * JsValue) :=
  match snd entrada with
  | JStr s => js_set personajeSanitizado (fst entrada) (JStr (trim s))
  | _ => personajeSanitizado
  end.

(** The loop over the array fields: one turn. *)
Definition asegurarArray (personajeSanitizado : list (string * JsValue))
    (campo : string) : list (string * JsValue) :=
  if negb (truthy (js_get personajeSanitizado campo))
  then js_set personajeSanitizado campo (JArr [])
  else personajeSanitizado.

(** Returns the own fields of the sanitized object. *)
Definition sanitizarPersonaje (personaje : JsValue) : Exc (list (string * JsValue)) :=
  let copia := Object_entries personaje in
  let recortado := fold_left recortar copia copia in
  normalizado <--
    (if truthy (js_get recortado "genero")
     then
       g <-- llamar_toLowerCase "personajeSanitizado.genero" (js_get recortado "genero") ;;
       Ok (js_set recortado "genero" (JStr g))
     else Ok recortado) ;;
  Ok (fold_left asegurarArray camposArray normalizado).

Definition ejemplo : JsValue :=
  JObj [ ("nombre", JStr "Obi-Wan Kenobi");
         ("altura", JStr "182");
         ("masa", JStr "77");
         ("color_de_cabello", JStr "castaño");
         ("color_de_ojos", JStr "azul");
         ("genero", JStr "masculino") ].

Local Open Scope m_scope.

Definition handler (event : Evento) : M Respuesta :=
  try_catch
    (match validarCuerpoRequest (cuerpo event) with
     | CuerpoInvalido error =>
         ret (buildResponse 400 (JObj [ ("error", JStr "Bad Request");
                                        ("mensaje", JStr error) ]))
     | CuerpoValido datosPersonaje =>
         match validarCamposObligatorios datosPersonaje with
         | Faltan error camposFaltantes =>
             ret (buildResponse 400 (JObj [ ("error", JStr "Bad Request");
                                            ("mensaje", JStr error);
                                            ("camposFaltantes", JArr (map JStr camposFaltantes));
                                            ("ejemplo", ejemplo) ]))
         | Completo =>
             validacionTipos <- lift (validarTiposDeDatos datosPersonaje) ;;
             match validacionTipos with
             | TiposInvalidos errores =>
                 ret (buildResponse 400
                        (JObj [ ("error", JStr "Bad Request");
                                ("mensaje", JStr "Errores de validación en los datos proporcionados");
                                ("errores", JArr (map JStr errores)) ]))
             | TiposValidos =>
                 sanitizado <- lift (sanitizarPersonaje datosPersonaje) ;;
                 let idUnico := uuidv4 w in
                 let con_id := js_set sanitizado "id" (JStr idUnico) in
                 let timestamp := ahora w in
                 let con_creado := js_set con_id "creado" (JStr timestamp) in
                 let personajeSanitizado := js_set con_creado "actualizado" (JStr timestamp) in
                 personajeGuardado <- DynamoDBService.guardarPersonaje w (JObj personajeSanitizado) ;;
                 ret (buildResponse 201 (JObj [ ("exito", JBool true);
                                                ("mensaje", JStr "Personaje creado exitosamente");
                                                ("datos", personajeGuardado) ]))
             end
         end
     end)
    (fun error =>
       if negb (message error =? "") && includes (message error) "Ya existe"
       then ret (buildResponse 409 (JObj [ ("error", JStr "Conflict");
                                           ("mensaje", JStr (message error)) ]))
       else ret (buildResponse 500
                   (JObj [ ("error", JStr "Internal Server Error");
                           ("mensaje", JStr "Ocurrió un error al crear el personaje");
                           ("detalles", detalles_de w error "Error interno del servidor") ]))).

End Handler.
End CrearEntidad.

(** ** The catch clause shared by the two read handlers of the store *)

Module ErroresDynamo.

Definition responder_error (w : Mundo) (error : JsError) : Respuesta :=
  if negb (message error =? "") && includes (message error) "DynamoDB"
  then buildResponse 503 (JObj [ ("error", JStr "Service Unavailable");
                                 ("mensaje", JStr "No se pudo acceder a la base de datos");
                                 ("detalles", JStr "Error al consultar DynamoDB") ])
  else if negb (message error =? "") && includes (message error) "variable de entorno"
  then buildResponse 500 (JObj [ ("error", JStr "Internal Server Error");
                                 ("mensaje", JStr "Error de configuración del servidor");
                                 ("detalles", detalles_de w error "Configuración incompleta") ])
  else buildResponse 500 (JObj [ ("error", JStr "Internal Server Error");
                                 ("mensaje", JStr "Ocurrió un error al procesar la solicitud");
                                 ("detalles", detalles_de w error "Error interno del servidor") ]).

End ErroresDynamo.

(** ** handlers/obtenerPersonaje: GET /personajes/{id} *)

Module ObtenerPersonaje.
Section Handler.
Context (w : Mundo).
Local Open Scope m_scope.

(** The answer to [!id]: the parameter is missing or empty. *)
Definition id_requerido : Respuesta :=
  buildResponse 400
    (JObj [ ("error", JStr "Bad Request");
            ("mensaje", JStr "El ID del personaje es requerido");
            ("detalles", JStr "Debe proporcionar un ID válido en la ruta: /personajes/{id}") ]).

Definition handler (event : Evento) : M Respuesta :=
  try_catch
    (match parametro (pathParameters event) "id" with
     | None => ret id_requerido
     | Some id =>
         if id =? "" then ret id_requerido
         else if trim id =? ""
         then ret (buildResponse 400
                (JObj [ ("error", JStr "Bad Request");
                        ("mensaje", JStr "El ID del personaje debe ser una cadena válida");
                        ("idRecibido", JStr id) ]))
         else
           personaje <- DynamoDBService.obtenerPersonajePorId w id ;;
           if negb (truthy personaje)
           then ret (buildResponse 404
                  (JObj [ ("error", JStr "Not Found");
                          ("mensaje", JStr ("No se encontró el personaje con ID " ++ id));
                          ("idBuscado", JStr id);
                          ("sugerencia", JStr "Verifique que el ID sea correcto o cree un nuevo personaje usando POST /personajes") ]))
           else ret (buildResponse 200
                  (JObj [ ("exito", JBool true);
                          ("mensaje", JStr "Personaje obtenido exitosamente");
                          ("datos", personaje) ]))
     end)
    (fun error => ret (ErroresDynamo.responder_error w error)).

End Handler.
End ObtenerPersonaje.

(** ** handlers/listarPersonajes: GET /personajes *)

Module ListarPersonajes.
Section Handler.
Context (w : Mundo).
Local Open Scope m_scope.

(** [a || b] where [a] is a string or undefined. *)
Definition o_bien (a : option string) (b : string) : string :=
  match a with
  | Some s => if s =? "" then b else s
  | None => b
  end.

(** The page size the handler resolves before it calls the store. *)
Definition limite_resuelto (event : Evento) : Z :=
  let queryParams := queryStringParameters event in
  let limite :=
    parseInt (o_bien (parametro queryParams "limite")
                     (o_bien (parametro queryParams "limit") "50"))
             (Some 10%Z) in
  let limite :=
    match limite with
    | None => 50%Z                                  (* isNaN(limite) *)
    | Some n => if (n <=? 0)%Z then 50%Z else n
    end in
  if (100 <? limite)%Z then 100%Z else limite.

Definition handler (event : Evento) : M Respuesta :=
  try_catch
    (let limite := limite_resuelto event in
     personajes <- DynamoDBService.listarPersonajes w limite ;;
     if (List.length personajes =? 0)%nat
     then ret (buildResponse 200
            (JObj [ ("exito", JBool true);
                    ("mensaje", JStr "No hay personajes almacenados");
                    ("total", JNum 0);
                    ("datos", JArr []) ]))
     else
       personajesOrdenados <- lift (sort_por_creado w personajes) ;;
       ret (buildResponse 200
              (JObj [ ("exito", JBool true);
                      ("mensaje", JStr "Personajes obtenidos exitosamente");
                      ("total", JNum (Z.of_nat (List.length personajesOrdenados)));
                      ("limite", JNum limite);
                      ("datos", JArr personajesOrdenados) ])))
    (fun error => ret (ErroresDynamo.responder_error w error)).

End Handler.
End ListarPersonajes.

(** ** handlers/getPersonaje: GET /personajes/swapi/{id} *)

Module GetPersonaje.
Section Handler.
Context (w : Mundo).
Local Open Scope m_scope.

(** [isNaN(id) || parseInt(id) <= 0] for a string. *)
Definition id_invalido (id : string) : bool :=
  isNaN_string id
  || match parseInt id None with
     | Some n => (n <=? 0)%Z
     | None => false                      (* NaN <= 0 *)
     end.

(** The answer to [!id]: the parameter is missing or empty. *)
Definition id_requerido : Respuesta :=
  buildResponse 400
    (JObj [ ("error", JStr "Bad Request");
            ("mensaje", JStr "El ID del personaje es requerido");
            ("detalles", JStr "Debe proporcionar un ID válido en la ruta: /personajes/swapi/{id}") ]).

Definition handler (event : Evento) : M Respuesta :=
  try_catch
    (match parametro (pathParameters event) "id" with
     | None => ret id_requerido
     | Some id =>
         if id =? "" then ret id_requerido
         else if id_invalido id
         then ret (buildResponse 400
                (JObj [ ("error", JStr "Bad Request");
                        ("mensaje", JStr "El ID del personaje debe ser un número positivo");
                        ("idRecibido", JStr id) ]))
         else
           personaje <- llamar (SwapiGetPersonajeById id) (swapi_getPersonajeById w id) ;;
           if negb (truthy personaje)
           then ret (buildResponse 404
                  (JObj [ ("error", JStr "Not Found");
                          ("mensaje", JStr ("No se encontró el personaje con ID " ++ id ++ " en SWAPI"));
                          ("idBuscado", JStr id) ]))
           else ret (buildResponse 200
                  (JObj [ ("exito", JBool true);
                          ("mensaje", JStr "Personaje obtenido exitosamente desde SWAPI");
                          ("datos", personaje) ]))
     end)
    (fun error =>
       if negb (message error =? "") && includes (message error) "no encontrado"
       then ret (buildResponse 404
              (JObj [ ("error", JStr "Not Found");
                      ("mensaje", JStr (message error));
                      ("idBuscado",
                       match parametro (pathParameters event) "id" with
                       | Some id => JStr id
                       | None => JUndefined
                       end) ]))
       else if negb (message error =? "") && includes (message error) "conectar"
       then ret (buildResponse 503
              (JObj [ ("error", JStr "Service Unavailable");
                      ("mensaje", JStr "No se pudo conectar con el servicio de Star Wars");
                      ("detalles", JStr (message error)) ]))
       else ret (buildResponse 500
              (JObj [ ("error", JStr "Internal Server Error");
                      ("mensaje", JStr "Ocurrió un error al procesar la solicitud");
                      ("detalles", detalles_de w error "Error interno del servidor") ]))).

End Handler.
End GetPersonaje.

(** ** Notions used to state the properties *)

Module Enunciados.
Import Mapper.

(** The entry [mapPersonajeToEspanol] writes for an input entry: the key
    translated and turned into a property name, the value retranslated
    (element by element for an array). *)
Definition entradaTraducida (entrada : string * JsValue) : string * JsValue :=
  ( ToString (translateFieldName (fst entrada)),
    match snd entrada with
    | JArr l => JArr (map translateValue l)
    | v => translateValue v
    end ).

(** A value that is an object and not null. *)
Definition objeto_no_nulo (v : JsValue) : Prop :=
  truthy v = true /\ typeof v = "object".

(** A run of decimal digits, not empty. *)
Definition digitos (d : string) : Prop :=
  d <> "" /\ todos es_digito d = true.

(** A world for the examples: the table is set, the store accepts every
    write and holds [items], the body parses to [datos]. *)
Definition mundo_ejemplo (datos : JsValue) (items : list JsValue) : Mundo :=
  {| PERSONAJES_TABLE := Some "personajes-dev";
     NODE_ENV := Some "production";
     uuidv4 := "3f1c9a52-7d1e-4c0b-9a61-2b8e5d0c4f77";
     ahora := "2026-01-08T12:00:00.000Z";
     JSON_parse := fun _ => Some datos;
     isNaN_objeto := fun _ => Ok true;
     sort_por_creado := fun l => Ok l;
     dynamo_put := fun _ _ => Ok tt;
     dynamo_get := fun _ _ => Ok JUndefined;
     dynamo_scan := fun _ _ => Ok items;
     swapi_getPersonajeById := fun _ => Ok JNull |}.

(** The same world with PERSONAJES_TABLE left unset. *)
Definition mundo_sin_tabla : Mundo :=
  {| PERSONAJES_TABLE := None;
     NODE_ENV := Some "production";
     uuidv4 := "3f1c9a52-7d1e-4c0b-9a61-2b8e5d0c4f77";
     ahora := "2026-01-08T12:00:00.000Z";
     JSON_parse := fun _ => None;
     isNaN_objeto := fun _ => Ok true;
     sort_por_creado := fun l => Ok l;
     dynamo_put := fun _ _ => Ok tt;
     dynamo_get := fun _ _ => Ok JUndefined;
     dynamo_scan := fun _ _ => Ok [];
     swapi_getPersonajeById := fun _ => Ok JNull |}.

(** The text the list handler parses: [limite || limit || '50']. *)
Definition texto_limite (event : Evento) : string :=
  ListarPersonajes.o_bien (parametro (queryStringParameters event) "limite")
    (ListarPersonajes.o_bien (parametro (queryStringParameters event) "limit") "50").

(** A parameter that is absent or empty. *)
Definition sin_valor (p : option string) : Prop := p = None \/ p = Some "".

(** Nothing or a single slash: what may follow the digits at the end. *)
Definition barra_final (fin : string) : Prop := fin = "" \/ fin = "/".

Definition entre_comillas (s : string) : string := comilla ++ s ++ comilla.

(** The JSON text of an object whose values are already JSON texts. *)
Definition texto_json (campos : list (string * string)) : string :=
  "{" ++ join "," (map (fun c => entre_comillas (fst c) ++ ":" ++ snd c) campos) ++ "}".

Definition texto_genero_numerico : string :=
  texto_json [("nombre", entre_comillas "Test"); ("genero", "123")].

Definition texto_genero_ninguno : string :=
  texto_json [("nombre", entre_comillas "Yoda"); ("genero", entre_comillas "ninguno")].

Definition texto_con_id_del_cliente : string :=
  texto_json [ ("nombre", entre_comillas " Yoda ");
               ("id", entre_comillas "elegido-por-el-cliente");
               ("creado", entre_comillas "1999-01-01T00:00:00.000Z");
               ("actualizado", "7") ].

(** The body {nombre: 'Test', genero: 123}, parsed. *)
Definition cuerpo_genero_numerico : JsValue :=
  JObj [("nombre", JStr "Test"); ("genero", JNum 123)].

(** A body, parsed, in which the client supplies id and both timestamps. *)
Definition cuerpo_con_id_del_cliente : JsValue :=
  JObj [ ("nombre", JStr " Yoda ");
         ("id", JStr "elegido-por-el-cliente");
         ("creado", JStr "1999-01-01T00:00:00.000Z");
         ("actualizado", JNum 7) ].

Definition evento_con_id (id : string) : Evento :=
  {| pathParameters := Some [("id", id)];
     queryStringParameters := None;
     cuerpo := None |}.

Definition evento_con_limite (limite : string) : Evento :=
  {| pathParameters := None;
     queryStringParameters := Some [("limite", limite)];
     cuerpo := None |}.

Definition evento_con_cuerpo (texto : string) : Evento :=
  {| pathParameters := None;
     queryStringParameters := None;
     cuerpo := Some texto |}.

End Enunciados.
Import Enunciados.

(** ** services/swapiService: getPersonajeById *)

Module SwapiService.

Definition SWAPI_BASE_URL : string := "https://swapi.py4e.com/api".

(** The response axios resolves with: the members read. *)
Record AxiosResponse : Type := {
  status : Z;
  data : JsValue
}.

(** What the catch clause reads of the error it caught: the status and
    statusText of [error.response] when there is one, whether there is an
    [error.request], and [error.message].  An Error thrown by the function
    itself, or a TypeError, has neither response nor request. *)
Record ErrorCapturado : Type := {
  response : option (Z * string);
  request : bool;
  message : string
}.

Definition error_propio (mensaje : string) : ErrorCapturado :=
  {| response := None; request := false; message := mensaje |}.

Section Servicio.
(* axios.get(url, ...): the response it resolves with, or the error it
   rejects with *)
Variable axios_get : string -> AxiosResponse + ErrorCapturado.
(* the message of the TypeError of reading a property of undefined or of
   null, which is the engine's *)
Variable TypeError_de_lectura : JsValue -> string -> string.

(** The try block, for an id that is a string: the URLs requested, and the
    value returned or the error thrown.  The log line reads
    [personajeEnIngles.name], which throws on undefined and null, and prints
    it: the printing is taken to go through, which the properties that
    depend on it state as a hypothesis. *)
Definition intento (id : string) : list string * (JsValue + ErrorCapturado) :=
  if (id =? "") || isNaN_string id
  then ([], inr (error_propio "El ID del personaje debe ser un número válido"))
  else
    let url := SWAPI_BASE_URL ++ "/people/" ++ id ++ "/" in
    match axios_get url with
    | inl respuesta =>
        if negb (status respuesta =? 200)%Z
        then ([url], inr (error_propio ("Error al obtener personaje: HTTP "
                                        ++ decimal (status respuesta))))
        else
          let personajeEnIngles := data respuesta in
          match personajeEnIngles with
          | JUndefined | JNull =>
              (* personajeEnIngles.name, read for the log *)
              ([url], inr (error_propio (TypeError_de_lectura personajeEnIngles "name")))
          | _ => ([url], inl (Mapper.mapPersonajeToEspanol personajeEnIngles))
          end
    | inr error => ([url], inr error)
    end.

(** The catch clause: the message of the Error thrown instead. *)
Definition mensaje_relanzado (id : string) (error : ErrorCapturado) : string :=
  match response error with
  | Some (estado, statusText) =>
      if (estado =? 404)%Z
      then "Personaje con ID " ++ id ++ " no encontrado en SWAPI"
      else "Error de SWAPI: " ++ decimal estado ++ " - " ++ statusText
  | None =>
      if request error
      then "No se pudo conectar con SWAPI. Verifica tu conexión a internet"
      else "Error al procesar la petición: " ++ message error
  end.

Definition getPersonajeById (id : string) : list string * Exc JsValue :=
  match intento id with
  | (pedidos, inl personajeEnEspanol) => (pedidos, Ok personajeEnEspanol)
  | (pedidos, inr error) => (pedidos, Throw (Error (mensaje_relanzado id error)))
  end.

End Servicio.
End SwapiService.

(** ** services/dynamoDBService: actualizarPersonaje *)

Module ActualizarPersonaje.

(** The parameters of DocumentClient.update. *)
Record UpdateParams : Type := {
  TableName : string;
  Key : string;                                         (* { id } *)
  UpdateExpression : string;
  ExpressionAttributeNames : list (string * JsValue);
  ExpressionAttributeValues : list (string * JsValue);
  ReturnValues : string
}.

(** The three accumulators of the forEach loop. *)
Record Acumulado : Type := {
  updateExpressions : list string;
  expressionAttributeNames : list (string * JsValue);
  expressionAttributeValues : list (string * JsValue)
}.

(** The keys with the index forEach passes along, from [index] on. *)
Fixpoint enumerar (keys : list string) (index : nat) : list (string * nat) :=
  match keys with
  | [] => []
  | key :: r => (key, index) :: enumerar r (S index)
  end.

Section Servicio.
Context (w : Mundo).
(* DocumentClient.update: the Attributes of the result, or the error *)
Variable dynamo_update : UpdateParams -> Exc JsValue.

(** One call of the callback of forEach. *)
Definition paso (datosActualizados : list (string * JsValue)) (acc : Acumulado)
    (entrada : string * nat) : Acumulado :=
  let key := fst entrada in
  let index := snd entrada in
  if negb (key =? "id")
  then
    let attributeName := "#attr" ++ decimal (Z.of_nat index) in
    let attributeValue := ":val" ++ decimal (Z.of_nat index) in
    {| updateExpressions :=
         (updateExpressions acc ++ [(attributeName ++ " = " ++ attributeValue)%string])%list;
       expressionAttributeNames :=
         js_set (expressionAttributeNames acc) attributeName (JStr key);
       expressionAttributeValues :=
         js_set (expressionAttributeValues acc) attributeValue
                (js_get datosActualizados key) |}
  else acc.

Definition construir (datosActualizados : list (string * JsValue)) : Acumulado :=
  fold_left (paso datosActualizados) (enumerar (map fst datosActualizados) 0)
    {| updateExpressions := [];
       expressionAttributeNames := [];
       expressionAttributeValues := [] |}.

(** [id] is a string and [datosActualizados] an ordinary object, given by
    its own entries.  The result: the requests made of the store, and the
    value returned or the error thrown. *)
Definition actualizarPersonaje (id : string) (datosActualizados : list (string * JsValue))
  : list UpdateParams * Exc JsValue :=
  let relanzar (error : JsError) : Exc JsValue :=
    Throw (Error ("Error al actualizar en DynamoDB: " ++ Js.message error)) in
  match snd (DynamoDBService.tabla_configurada w) with
  | Throw error => ([], relanzar error)
  | Ok tabla =>
      let acc := construir datosActualizados in
      let params :=
        {| TableName := tabla;
           Key := id;
           UpdateExpression := "SET " ++ join ", " (updateExpressions acc);
           ExpressionAttributeNames := expressionAttributeNames acc;
           ExpressionAttributeValues := expressionAttributeValues acc;
           ReturnValues := "ALL_NEW" |} in
      match dynamo_update params with
      | Ok atributos => ([params], Ok atributos)
      | Throw error => ([params], relanzar error)
      end
  end.

End Servicio.
End ActualizarPersonaje.

(** ** Further notions, for the properties beyond the specification's *)

Module Nociones.

(** [v] is an object and not null, as a test. *)
Definition es_objeto (v : JsValue) : bool :=
  truthy v && (typeof v =? "object").

(** No upper-case ASCII letter occurs in [s]. *)
Definition sin_mayusculas (s : string) : bool :=
  todos (fun c => negb (entre 65 90 c)) s.

(** A string field as the sanitation leaves it. *)
Definition recortado (v : JsValue) : JsValue :=
  match v with
  | JStr s => JStr (trim s)
  | _ => v
  end.

(** A field as the create handler stores it, from the value [v] the body
    holds under the name [k], when [k] is none of the array fields: a string
    is trimmed, and the gender lower-cased as well. *)
Definition saneado (k : string) (v : JsValue) : JsValue :=
  match v with
  | JStr s => if k =? "genero" then JStr (toLowerCase (trim s)) else JStr (trim s)
  | _ => v
  end.

(** An array field as the create handler stores it: the array of the body,
    or the empty array. *)
Definition array_o_vacio (v : JsValue) : JsValue :=
  match v with
  | JArr l => JArr l
  | _ => JArr []
  end.

(** The names the create handler assigns itself. *)
Definition camposDelServidor : list string := ["id"; "creado"; "actualizado"].

(** The record the create handler hands to the store, from the sanitized
    fields: the three assignments that follow the sanitation. *)
Definition registro_final (w : Mundo) (sanitizado : list (string * JsValue))
  : list (string * JsValue) :=
  js_set (js_set (js_set sanitizado "id" (JStr (uuidv4 w)))
            "creado" (JStr (ahora w)))
    "actualizado" (JStr (ahora w)).

(** An ASCII character that is no white space. *)
Definition sin_espacio_ascii (c : ascii) : bool :=
  (nat_of_ascii c <? 194)%nat
  && negb ((9 <=? nat_of_ascii c) && (nat_of_ascii c <=? 13) || (nat_of_ascii c =? 32))%nat.

(** What validarTiposDeDatos requires of a record, field by field. *)
Definition tipos_correctos (personaje : JsValue) : Prop :=
  (forall campo, In campo CrearEntidad.camposString ->
     propiedad personaje campo = JUndefined
     \/ exists s, propiedad personaje campo = JStr s)
  /\ (forall campo, In campo CrearEntidad.camposArray ->
     propiedad personaje campo = JUndefined
     \/ exists l, propiedad personaje campo = JArr l)
  /\ (forall s, propiedad personaje "altura" = JStr s -> s = "" \/ isNaN_string s = false)
  /\ (forall s, propiedad personaje "masa" = JStr s -> s = "" \/ isNaN_string s = false)
  /\ (forall s, propiedad personaje "genero" = JStr s ->
     s = "" \/ In (toLowerCase s) CrearEntidad.generosValidos).

(** Every character of [s] is ASCII: on such a string the lower-casing of
    the model is String.prototype.toLowerCase. *)
Definition es_ascii (s : string) : bool :=
  todos (fun c => (nat_of_ascii c <? 128)%nat) s.

(** The conversion of [v] to a string, as a template literal makes it, goes
    through: [v] is no object with a toString of its own (which, being data,
    is not callable), nor an array that holds one. *)
Fixpoint se_imprime (v : JsValue) : bool :=
  match v with
  | JObj campos => match own campos "toString" with
                   | None => true
                   | Some _ => false
                   end
  | JArr l => forallb se_imprime l
  | _ => true
  end.

(** Every character of [s] is the digit 0. *)
Definition solo_ceros (s : string) : bool :=
  todos (fun c => (c =? "0")%char) s.

(** [error.code === c]. *)
Definition codigo_es (error : JsError) (c : string) : bool :=
  match code error with
  | Some c' => c' =? c
  | None => false
  end.

(** The world of the examples with a store that fails every request with
    [error]. *)
Definition mundo_almacen_caido (error : JsError) (datos : JsValue) : Mundo :=
  {| PERSONAJES_TABLE := Some "personajes-dev";
     NODE_ENV := Some "production";
     uuidv4 := "3f1c9a52-7d1e-4c0b-9a61-2b8e5d0c4f77";
     ahora := "2026-01-08T12:00:00.000Z";
     JSON_parse := fun _ => Some datos;
     isNaN_objeto := fun _ => Ok true;
     sort_por_creado := fun l => Ok l;
     dynamo_put := fun _ _ => Throw error;
     dynamo_get := fun _ _ => Throw error;
     dynamo_scan := fun _ _ => Throw error;
     swapi_getPersonajeById := fun _ => Throw error |}.

(** The world of the examples with a store that holds [item] under every
    id. *)
Definition mundo_con_item (item : JsValue) : Mundo :=
  {| PERSONAJES_TABLE := Some "personajes-dev";
     NODE_ENV := Some "production";
     uuidv4 := "3f1c9a52-7d1e-4c0b-9a61-2b8e5d0c4f77";
     ahora := "2026-01-08T12:00:00.000Z";
     JSON_parse := fun _ => None;
     isNaN_objeto := fun _ => Ok true;
     sort_por_creado := fun l => Ok l;
     dynamo_put := fun _ _ => Ok tt;
     dynamo_get := fun _ _ => Ok item;
     dynamo_scan := fun _ _ => Ok [item];
     swapi_getPersonajeById := fun _ => Ok JNull |}.

(** The world of the examples without PERSONAJES_TABLE, the body parsing to
    [datos]. *)
Definition mundo_sin_tabla_con (datos : JsValue) : Mundo :=
  {| PERSONAJES_TABLE := None;
     NODE_ENV := Some "production";
     uuidv4 := "3f1c9a52-7d1e-4c0b-9a61-2b8e5d0c4f77";
     ahora := "2026-01-08T12:00:00.000Z";
     JSON_parse := fun _ => Some datos;
     isNaN_objeto := fun _ => Ok true;
     sort_por_creado := fun l => Ok l;
     dynamo_put := fun _ _ => Ok tt;
     dynamo_get := fun _ _ => Ok JUndefined;
     dynamo_scan := fun _ _ => Ok [];
     swapi_getPersonajeById := fun _ => Ok JNull |}.

(** A body for the examples, parsed and as text. *)
Definition cuerpo_leia : JsValue :=
  JObj [ ("nombre", JStr "  Leia Organa ");
         ("genero", JStr "FEMENINO");
         ("peliculas", JArr [JStr "A New Hope"]);
         ("apodo", JStr " princesa ");
         ("edad", JNum 19) ].

Definition texto_leia : string :=
  texto_json [ ("nombre", entre_comillas "  Leia Organa ");
               ("genero", entre_comillas "FEMENINO");
               ("peliculas", "[" ++ entre_comillas "A New Hope" ++ "]");
               ("apodo", entre_comillas " princesa ");
               ("edad", "19") ].

(** A world whose getPersonajeById is the service's, over the HTTP client
    [axios_get]. *)
Definition mundo_con_swapi (axios_get : string -> SwapiService.AxiosResponse + SwapiService.ErrorCapturado)
    (TypeError_de_lectura : JsValue -> string -> string) : Mundo :=
  {| PERSONAJES_TABLE := Some "personajes-dev";
     NODE_ENV := Some "production";
     uuidv4 := "3f1c9a52-7d1e-4c0b-9a61-2b8e5d0c4f77";
     ahora := "2026-01-08T12:00:00.000Z";
     JSON_parse := fun _ => None;
     isNaN_objeto := fun _ => Ok true;
     sort_por_creado := fun l => Ok l;
     dynamo_put := fun _ _ => Ok tt;
     dynamo_get := fun _ _ => Ok JUndefined;
     dynamo_scan := fun _ _ => Ok [];
     swapi_getPersonajeById :=
       fun id => snd (SwapiService.getPersonajeById axios_get TypeError_de_lectura id) |}.

(** The message of V8 for a property read of undefined or null. *)
Definition TypeError_V8 (v : JsValue) (k : string) : string :=
  "Cannot read properties of " ++ ToString v ++ " (reading '" ++ k ++ "')".

(** An HTTP client for the examples: SWAPI knows the person 1 and no other. *)
Definition axios_de_ejemplo (url : string) : SwapiService.AxiosResponse + SwapiService.ErrorCapturado :=
  if url =? "https://swapi.py4e.com/api/people/1/"
  then inl {| SwapiService.status := 200;
              SwapiService.data := JObj [ ("name", JStr "Luke Skywalker");
                                          ("gender", JStr "male");
                                          ("films", JArr [JStr "https://swapi.py4e.com/api/films/1/"]) ] |}
  else inr {| SwapiService.response := Some (404%Z, "NOT FOUND");
              SwapiService.request := true;
              SwapiService.message := "Request failed with status code 404" |}.

(** An HTTP client that never gets an answer. *)
Definition axios_sin_red (url : string) : SwapiService.AxiosResponse + SwapiService.ErrorCapturado :=
  inr {| SwapiService.response := None;
         SwapiService.request := true;
         SwapiService.message := "timeout of 10000ms exceeded" |}.

(** The keys of an update that are written, with their indices: all but
    id. *)
Definition campos_actualizables (datos : list (string * JsValue)) : list (string * nat) :=
  filter (fun entrada => negb (fst entrada =? "id"))
         (ActualizarPersonaje.enumerar (map fst datos) 0).

(** The placeholders of the field of index [i]. *)
Definition marcador_nombre (i : nat) : string := "#attr" ++ decimal (Z.of_nat i).
Definition marcador_valor (i : nat) : string := ":val" ++ decimal (Z.of_nat i).

(** A store for the examples, which answers every update with the values it
    was given. *)
Definition update_de_ejemplo (params : ActualizarPersonaje.UpdateParams) : Exc JsValue :=
  Ok (JObj (ActualizarPersonaje.ExpressionAttributeValues params)).

End Nociones.
Import Nociones.

(** * Properties *)

(** Evaluates the value of the digit at the head of the string read. *)
Ltac leer_un_digito :=
  match goal with
  | |- context [valor_digito ?c] =>
      let v := eval vm_compute in (valor_digito c) in
      change (valor_digito c) with v; cbv iota beta
  end;
  match goal with
  | |- context [(?d <? 10)%Z] =>
      let b := eval vm_compute in (d <? 10)%Z in
      change (d <? 10)%Z with b; cbv iota beta
  end.

(** ** Objects as entry lists *)

Section Objetos.

Lemma own_js_set_same (o : list (string * JsValue)) k v :
  own (js_set o k v) k = Some v.
Proof.
  induction o as [|[k' v'] o IH]; simpl.
  - now rewrite String.eqb_refl.
  - destruct (k' =? k) eqn:E; simpl; rewrite E; auto.
Qed.

Lemma own_js_set_other (o : list (string * JsValue)) k v k' :
  k' <> k -> own (js_set o k v) k' = own o k'.
Proof.
  intros Hne. induction o as [|[k0 v0] o IH]; simpl.
  - destruct (k =? k') eqn:E; auto.
    apply String.eqb_eq in E. congruence.
  - destruct (k0 =? k) eqn:E; simpl.
    + apply String.eqb_eq in E. subst k0.
      destruct (k =? k') eqn:E'; auto.
      apply String.eqb_eq in E'. congruence.
    + now rewrite IH.
Qed.

Lemma js_set_fresh (o : list (string * JsValue)) k v :
  own o k = None -> js_set o k v = (o ++ [(k, v)])%list.
Proof.
  induction o as [|[k' v'] o IH]; simpl; auto.
  destruct (k' =? k); [discriminate|].
  intros H. now rewrite IH.
Qed.


Lemma own_app_none {A} (o1 o2 : list (string * A)) k :
  own o1 k = None -> own (o1 ++ o2)%list k = own o2 k.
Proof.
  induction o1 as [|[k' v'] o1 IH]; simpl; auto.
  destruct (k' =? k); [discriminate|auto].
Qed.

Lemma in_claves_js_set (o : list (string * JsValue)) k v k' :
  In k' (map fst (js_set o k v)) -> k' = k \/ In k' (map fst o).
Proof.
  induction o as [|[k0 v0] o IH]; simpl.
  - intros [<-|[]]. now left.
  - destruct (k0 =? k); simpl; intros [<-|H]; auto.
    destruct (IH H); auto.
Qed.

(** Writing a property keeps the names of an object distinct. *)
Lemma NoDup_js_set (o : list (string * JsValue)) k v :
  NoDup (map fst o) -> NoDup (map fst (js_set o k v)).
Proof.
  induction o as [|[k0 v0] o IH]; simpl; intros Hnd.
  - repeat constructor. simpl. tauto.
  - inversion Hnd as [|? ? Hnotin Hnd']; subst.
    destruct (k0 =? k) eqn:E; simpl.
    + now constructor.
    + constructor; [|now apply IH].
      intros Hin. apply in_claves_js_set in Hin as [->|Hin]; [|tauto].
      now rewrite String.eqb_refl in E.
Qed.

Lemma own_in_NoDup {A} (o : list (string * A)) k v :
  NoDup (map fst o) -> In (k, v) o -> own o k = Some v.
Proof.
  induction o as [|[k0 v0] o IH]; simpl; [tauto|].
  intros Hnd. inversion Hnd as [|? ? Hnotin Hnd']; subst.
  intros [H|H].
  - inversion H; subst. now rewrite String.eqb_refl.
  - destruct (k0 =? k) eqn:E; [|now apply IH].
    apply String.eqb_eq in E. subst k0. exfalso. apply Hnotin.
    now apply (in_map fst) in H.
Qed.

End Objetos.

(** ** mapPersonajeToEspanol and the number of fields *)

Section TraducirRegistro.
Import Mapper.

Lemma traducirCampo_js_set acc entrada :
  traducirCampo acc entrada =
  js_set acc (fst (entradaTraducida entrada)) (snd (entradaTraducida entrada)).
Proof.
  destruct entrada as [k v]. unfold traducirCampo, entradaTraducida. simpl.
  destruct v; reflexivity.
Qed.

(** While the translated names stay apart, the loop only appends. *)
Lemma fold_traducirCampo_distintos entradas : forall acc,
  NoDup (map (fun e => fst (entradaTraducida e)) entradas) ->
  (forall e, In e entradas -> own acc (fst (entradaTraducida e)) = None) ->
  fold_left traducirCampo entradas acc = (acc ++ map entradaTraducida entradas)%list.
Proof.
  induction entradas as [|e es IH]; intros acc Hnd Hacc; simpl.
  - now rewrite app_nil_r.
  - inversion Hnd as [|? ? Hnotin Hnd']; subst.
    rewrite traducirCampo_js_set.
    rewrite js_set_fresh by (apply Hacc; now left).
    rewrite IH; auto.
    + rewrite <- app_assoc. reflexivity.
    + intros e' He'.
      rewrite own_app_none by (apply Hacc; now right).
      cbn [own].
      destruct (fst (entradaTraducida e) =? fst (entradaTraducida e')) eqn:E; auto.
      apply String.eqb_eq in E. exfalso. apply Hnotin.
      change (In (fst (entradaTraducida e))
                 (map (fun e0 => fst (entradaTraducida e0)) es)).
      rewrite E. now apply (in_map (fun e0 => fst (entradaTraducida e0))).
Qed.


Lemma mapPersonaje_objeto v :
  objeto_no_nulo v ->
  mapPersonajeToEspanol v = JObj (fold_left traducirCampo (Object_entries v) []).
Proof.
  intros [Ht Ho]. unfold mapPersonajeToEspanol. rewrite Ht, Ho. reflexivity.
Qed.

(** The property name a translated key becomes is never the one with a
    setter on Object.prototype, so each assignment of the loop writes an own
    property. *)
Lemma campoEspanol_no_es_proto k :
  ToString (translateFieldName k) <> "__proto__".
Proof.
  unfold translateFieldName, js_get.
  destruct (own PERSONAJE_FIELD_MAP k) as [v|] eqn:Hown.
  - simpl in Hown.
    repeat match type of Hown with
    | (if ?c then _ else _) = _ => destruct c; [inversion Hown; subst; simpl; discriminate|]
    end. discriminate.
  - unfold heredado.
    destruct (k =? "__proto__") eqn:E1; [simpl; discriminate|].
    destruct (k =? "constructor"); [simpl; discriminate|].
    destruct (Array_includes Object_prototype_metodos k); simpl; [discriminate|].
    apply String.eqb_neq in E1. exact E1.
Qed.

End TraducirRegistro.




(** ** translateValue *)

Section TraducirValor.
Import Mapper.

Lemma lower_upper_ascii c : lower_ascii (upper_ascii c) = lower_ascii c.
Proof.
  destruct c as [[] [] [] [] [] [] [] []]; reflexivity.
Qed.

Lemma toLowerCase_toUpperCase s : toLowerCase (toUpperCase s) = toLowerCase s.
Proof.
  induction s as [|c s IH]; simpl; [reflexivity|].
  now rewrite lower_upper_ascii, IH.
Qed.

(** A known key, in any case, gives the canonical replacement, and so does
    its upper-cased form. *)
Lemma translateValue_clave_conocida s t :
  own VALUE_TRANSLATIONS (toLowerCase s) = Some t ->
  translateValue (JStr s) = t
  /\ translateValue (JStr (toUpperCase s)) = t.
Proof.
  intros Hown. unfold translateValue, js_get.
  rewrite toLowerCase_toUpperCase, Hown.
  simpl in Hown.
  repeat match type of Hown with
  | (if ?c then _ else _) = _ =>
      destruct c; [inversion Hown; subst; split; reflexivity|]
  end.
  discriminate.
Qed.

Lemma translateValue_no_string v :
  (forall s, v <> JStr s) -> translateValue v = v.
Proof.
  intros H. destruct v; try reflexivity. now destruct (H s).
Qed.

(** A string that names nothing on the table, own or inherited, is returned
    as it came. *)
Lemma translateValue_desconocido s :
  own VALUE_TRANSLATIONS (toLowerCase s) = None ->
  heredado (toLowerCase s) = JUndefined ->
  translateValue (JStr s) = JStr s.
Proof.
  intros Hown Hher. unfold translateValue, js_get. now rewrite Hown, Hher.
Qed.

End TraducirValor.

(** C2 at the input 'constructor': its lower-cased form is no key of
    VALUE_TRANSLATIONS, the claim has translateValue return the string
    itself, and the code returns the built-in function Object, which the
    table object inherits under that name.  The same happens in any case of
    the letters, and '__proto__' comes back as Object.prototype. *)
Theorem translateValue_constructor :
  own Mapper.VALUE_TRANSLATIONS (toLowerCase "constructor") = None
  /\ Mapper.translateValue (JStr "constructor") = JNative "Object"
  /\ Mapper.translateValue (JStr "constructor") <> JStr "constructor"
  /\ Mapper.translateValue (JStr "Constructor") = JNative "Object"
  /\ Mapper.translateValue (JStr "__proto__") = JObjectPrototype.
Proof.
  repeat split; try reflexivity. discriminate.
Qed.

(** ** extractIdFromUrl *)

Section ExtraerId.
Import Mapper.

Lemma append_assoc (a b c : string) : (a ++ b) ++ c = a ++ (b ++ c).
Proof. induction a as [|x a IH]; simpl; [reflexivity|now rewrite IH]. Qed.

Lemma append_nil_r (a : string) : a ++ "" = a.
Proof. induction a as [|x a IH]; simpl; [reflexivity|now rewrite IH]. Qed.

Lemma tomar_quitar s : s = tomar_digitos s ++ quitar_digitos s.
Proof.
  induction s as [|c s IH]; simpl; [reflexivity|].
  destruct (es_digito c); simpl; [now rewrite <- IH|reflexivity].
Qed.

Lemma todos_tomar_digitos s : todos es_digito (tomar_digitos s) = true.
Proof.
  induction s as [|c s IH]; simpl; [reflexivity|].
  destruct (es_digito c) eqn:E; simpl; [now rewrite E|reflexivity].
Qed.

Lemma tomar_no_vacio s : empieza_con_digito s = true -> tomar_digitos s <> "".
Proof.
  destruct s as [|c s]; simpl; [discriminate|].
  intros ->. discriminate.
Qed.

(** A run of digits followed by something that is not a digit is read back
    whole. *)
Lemma tomar_quitar_append d fin :
  todos es_digito d = true -> empieza_con_digito fin = false ->
  tomar_digitos (d ++ fin) = d /\ quitar_digitos (d ++ fin) = fin.
Proof.
  intros Hd Hfin. induction d as [|c d IH]; simpl in *.
  - destruct fin as [|x fin]; simpl in *; [auto|]. rewrite Hfin. auto.
  - apply andb_prop in Hd as [Hc Hd]. rewrite Hc.
    destruct (IH Hd) as [-> ->]. auto.
Qed.

Lemma coincide_aqui_spec u d :
  coincide_aqui u = Some d <->
  digitos d /\ exists fin, barra_final fin /\ u = "/" ++ d ++ fin.
Proof.
  split.
  - destruct u as [|c r]; simpl; [discriminate|].
    destruct c as [[] [] [] [] [] [] [] []]; try discriminate.
    destruct (empieza_con_digito r) eqn:He; simpl; [|discriminate].
    destruct ((quitar_digitos r =? "") || (quitar_digitos r =? "/")) eqn:Hfin; [|discriminate].
    intros H. inversion H. subst d. split.
    + split; [now apply tomar_no_vacio|apply todos_tomar_digitos].
    + exists (quitar_digitos r). split.
      * apply orb_prop in Hfin as [Hf|Hf]; apply String.eqb_eq in Hf; [now left|now right].
      * now rewrite <- tomar_quitar.
  - intros [[Hne Hd] [fin [Hfin ->]]]. simpl.
    assert (Hno : empieza_con_digito fin = false)
      by (destruct Hfin as [-> | ->]; reflexivity).
    destruct (tomar_quitar_append d fin Hd Hno) as [Ht Hq].
    rewrite Ht, Hq.
    assert (He : empieza_con_digito (d ++ fin) = true).
    { destruct d as [|c d]; [congruence|]. simpl in *.
      now apply andb_prop in Hd as [-> _]. }
    rewrite He. destruct Hfin as [-> | ->]; reflexivity.
Qed.

(** Digits closed by at most one slash hold no slash followed by a digit:
    the pattern cannot match before the last slash that digits follow. *)
Lemma sin_barra_interna d' : forall p fin' d fin,
  todos es_digito d' = true -> barra_final fin' -> digitos d ->
  d' ++ fin' <> p ++ "/" ++ d ++ fin.
Proof.
  induction d' as [|c d' IH]; intros p fin' d fin Hd' Hfin' [Hne Hd] Heq; simpl in *.
  - destruct d as [|x d]; [congruence|].
    destruct Hfin' as [-> | ->]; destruct p as [|y p]; simpl in Heq; try discriminate.
    inversion Heq. destruct p; discriminate.
  - apply andb_prop in Hd' as [Hc Hd'].
    destruct p as [|y p]; simpl in Heq; inversion Heq; subst.
    + discriminate.
    + eapply IH; eauto. split; assumption.
Qed.

Lemma buscar_coincidencia_spec s d :
  buscar_coincidencia s = Some d <->
  digitos d /\ exists p fin, barra_final fin /\ s = p ++ "/" ++ d ++ fin.
Proof.
  split.
  - induction s as [|c r IH].
    + simpl. discriminate.
    + cbn [buscar_coincidencia].
      destruct (coincide_aqui (String c r)) as [d'|] eqn:Hc.
      * intros H. inversion H. subst d'.
        apply coincide_aqui_spec in Hc as [Hd [fin [Hfin Hu]]].
        split; [assumption|]. exists "", fin. auto.
      * intros H. destruct (IH H) as [Hd [p [fin [Hfin ->]]]].
        split; [assumption|]. exists (String c p), fin. auto.
  - intros [Hd [p [fin [Hfin ->]]]].
    induction p as [|c p IH].
    + assert (Hc : coincide_aqui ("" ++ "/" ++ d ++ fin) = Some d)
        by (apply coincide_aqui_spec; split; [assumption|exists fin; auto]).
      simpl in Hc |- *. now rewrite Hc.
    + change (String c p ++ "/" ++ d ++ fin) with (String c (p ++ "/" ++ d ++ fin)).
      cbn [buscar_coincidencia].
      destruct (coincide_aqui (String c (p ++ "/" ++ d ++ fin))) as [d'|] eqn:Hc.
      * exfalso. apply coincide_aqui_spec in Hc as [[_ Hd'] [fin' [Hfin' Hu]]].
        simpl in Hu. inversion Hu as [[Hc' Hr]].
        symmetry in Hr. revert Hr. now apply sin_barra_interna.
      * exact IH.
Qed.

End ExtraerId.

(** C7: extractIdFromUrl returns the trailing digits, as a string, exactly
    when its input is a string that ends in a slash, digits and at most one
    more slash, and null for every other input: a value that is not a
    string, the empty string, a string with no numeral at its end.  The
    four examples of the specification are the last conjuncts. *)
Theorem extractIdFromUrl_spec :
  (forall s d,
      Mapper.extractIdFromUrl (JStr s) = JStr d <->
      digitos d /\ exists p, s = p ++ "/" ++ d \/ s = p ++ "/" ++ d ++ "/")
  /\ (forall v, (forall d, Mapper.extractIdFromUrl v <> JStr d) ->
                Mapper.extractIdFromUrl v = JNull)
  /\ (forall v, (forall s, v <> JStr s) -> Mapper.extractIdFromUrl v = JNull)
  /\ Mapper.extractIdFromUrl (JStr "") = JNull
  /\ Mapper.extractIdFromUrl (JStr "https://host/api/people/42/") = JStr "42"
  /\ Mapper.extractIdFromUrl (JStr "https://host/api/people/42") = JStr "42"
  /\ Mapper.extractIdFromUrl (JStr "https://host/api/people/") = JNull
  /\ Mapper.extractIdFromUrl (JStr "not-a-url") = JNull.
Proof.
  split; [|split; [|split; [|repeat split; reflexivity]]].
  - intros s d. unfold Mapper.extractIdFromUrl.
    split.
    + destruct (negb (truthy (JStr s))) eqn:Ht; [discriminate|].
      destruct (Mapper.buscar_coincidencia s) as [d'|] eqn:Hb; [|discriminate].
      intros H. inversion H. subst d'.
      apply buscar_coincidencia_spec in Hb as [Hd [p [fin [Hfin ->]]]].
      split; [assumption|]. exists p.
      destruct Hfin as [-> | ->]; [left; now rewrite append_nil_r|now right].
    + intros [Hd [p Hs]].
      assert (Hb : Mapper.buscar_coincidencia s = Some d).
      { apply buscar_coincidencia_spec. split; [assumption|].
        destruct Hs as [-> | ->].
        - exists p, "". split; [now left|now rewrite append_nil_r].
        - exists p, "/". split; [now right|reflexivity]. }
      rewrite Hb.
      destruct s as [|c s]; [|reflexivity].
      destruct Hs as [Hs|Hs]; destruct p; discriminate.
  - intros v H. unfold Mapper.extractIdFromUrl in *.
    destruct v; try reflexivity.
    destruct (negb (truthy (JStr s))); [reflexivity|].
    destruct (Mapper.buscar_coincidencia s) as [d|]; [|reflexivity].
    now destruct (H d).
  - intros v H. destruct v; try reflexivity. now destruct (H s).
Qed.

(** ** The create handler: type validation *)

Section ValidarTipos.
Import CrearEntidad.

(** A gender that is truthy and not a string makes validarTiposDeDatos
    throw instead of returning its list of messages. *)
Lemma validarTiposDeDatos_genero_no_string w personaje :
  truthy (propiedad personaje "genero") = true ->
  (forall s, propiedad personaje "genero" <> JStr s) ->
  exists e, validarTiposDeDatos w personaje = Throw e.
Proof.
  intros Ht Hns. unfold validarTiposDeDatos.
  destruct (presente_y_no_numerico w (propiedad personaje "altura")) as [a|e]; simpl;
    [|eauto].
  destruct (presente_y_no_numerico w (propiedad personaje "masa")) as [m|e]; simpl;
    [|eauto].
  rewrite Ht.
  destruct (propiedad personaje "genero") eqn:Hg; simpl; eauto.
  now destruct (Hns s).
Qed.

End ValidarTipos.

(** C3 at the body {nombre: 'Test', genero: 123}: the required-field check
    passes, the claim has the type validation answer 400 with the message
    for genero, and the code throws a TypeError on genero.toLowerCase, which
    the handler turns into a 500 with no list of messages. *)
Theorem crear_genero_numerico_responde_500 (w : Mundo) (texto : string) :
  texto <> "" ->
  JSON_parse w texto = Some cuerpo_genero_numerico ->
  CrearEntidad.validarCamposObligatorios cuerpo_genero_numerico = CrearEntidad.Completo
  /\ CrearEntidad.validarTiposDeDatos w cuerpo_genero_numerico
     = Throw (CrearEntidad.TypeError_no_funcion "personaje.genero.toLowerCase")
  /\ CrearEntidad.handler w (evento_con_cuerpo texto)
     = ([], Ok (buildResponse 500
                  (JObj [ ("error", JStr "Internal Server Error");
                          ("mensaje", JStr "Ocurrió un error al crear el personaje");
                          ("detalles",
                           detalles_de w
                             (CrearEntidad.TypeError_no_funcion "personaje.genero.toLowerCase")
                             "Error interno del servidor") ]))).
Proof.
  intros Hne Hparse. split; [reflexivity|]. split; [reflexivity|].
  unfold CrearEntidad.handler, CrearEntidad.validarCuerpoRequest. simpl.
  apply String.eqb_neq in Hne. rewrite Hne, Hparse. reflexivity.
Qed.

Lemma crear_genero_numerico_responde_500_witness :
  statusCode
    (match snd (CrearEntidad.handler (mundo_ejemplo cuerpo_genero_numerico [])
                  (evento_con_cuerpo texto_genero_numerico)) with
     | Ok r => r
     | Throw _ => buildResponse 0 JNull
     end) = 500%Z.
Proof.
  rewrite (proj2 (proj2 (crear_genero_numerico_responde_500
                           (mundo_ejemplo cuerpo_genero_numerico [])
                           texto_genero_numerico
                           ltac:(vm_compute; discriminate) eq_refl))).
  reflexivity.
Defined.

(** ** The read handler of the store: classification of a failed lookup *)

Section ObtenerErrores.

Lemma includes_error_consultar m :
  includes ("Error al consultar DynamoDB: " ++ m) "DynamoDB" = true.
Proof. reflexivity. Qed.

(** Whatever makes the lookup fail, the service rethrows it under a message
    that names DynamoDB. *)
Lemma obtenerPersonajePorId_error w id t e :
  DynamoDBService.obtenerPersonajePorId w id = (t, Throw e) ->
  exists m, message e = "Error al consultar DynamoDB: " ++ m.
Proof.
  unfold DynamoDBService.obtenerPersonajePorId, DynamoDBService.tabla_configurada,
    DynamoDBService.TABLA_PERSONAJES.
  destruct (PERSONAJES_TABLE w) as [tb|]; simpl.
  - destruct (tb =? ""); simpl.
    + intros H. inversion H. simpl. eauto.
    + destruct (dynamo_get w tb id) as [item|err]; simpl.
      * destruct (negb (truthy item)); simpl; discriminate.
      * intros H. inversion H. simpl. eauto.
  - intros H. inversion H. simpl. eauto.
Qed.

(** So a lookup that fails is always answered 503: behind the service the
    two 500 answers of the handler are out of reach. *)
Lemma obtener_error_responde_503 w event id t e :
  parametro (pathParameters event) "id" = Some id ->
  trim id <> "" ->
  DynamoDBService.obtenerPersonajePorId w id = (t, Throw e) ->
  ObtenerPersonaje.handler w event
  = (t, Ok (buildResponse 503
              (JObj [ ("error", JStr "Service Unavailable");
                      ("mensaje", JStr "No se pudo acceder a la base de datos");
                      ("detalles", JStr "Error al consultar DynamoDB") ]))).
Proof.
  intros Hid Htrim Herr.
  assert (Hne : id <> "") by (intros ->; now apply Htrim).
  apply String.eqb_neq in Hne, Htrim.
  destruct (obtenerPersonajePorId_error w id t e Herr) as [m Hm].
  unfold ObtenerPersonaje.handler. rewrite Hid, Hne, Htrim, Herr.
  cbn [bind try_catch]. unfold ErroresDynamo.responder_error.
  rewrite Hm, includes_error_consultar. cbn. now rewrite app_nil_r.
Qed.

End ObtenerErrores.

(** C4 with PERSONAJES_TABLE unset (or empty): the claim has the handler
    answer 500 Internal Server Error; the service wraps its own
    configuration error in a message that names DynamoDB, the handler tests
    for that name first, and the answer is 503 Service Unavailable. *)
Theorem obtener_sin_tabla_responde_503 (w : Mundo) (event : Evento) (id : string) :
  parametro (pathParameters event) "id" = Some id ->
  trim id <> "" ->
  PERSONAJES_TABLE w = None \/ PERSONAJES_TABLE w = Some "" ->
  ObtenerPersonaje.handler w event
  = ([], Ok (buildResponse 503
               (JObj [ ("error", JStr "Service Unavailable");
                       ("mensaje", JStr "No se pudo acceder a la base de datos");
                       ("detalles", JStr "Error al consultar DynamoDB") ]))).
Proof.
  intros Hid Htrim Htabla.
  assert (Hne : id <> "") by (intros ->; now apply Htrim).
  apply String.eqb_neq in Hne, Htrim.
  unfold ObtenerPersonaje.handler. rewrite Hid, Hne, Htrim.
  unfold DynamoDBService.obtenerPersonajePorId, DynamoDBService.tabla_configurada,
    DynamoDBService.TABLA_PERSONAJES.
  destruct Htabla as [-> | ->]; reflexivity.
Qed.

Lemma obtener_sin_tabla_responde_503_witness :
  statusCode
    (match snd (ObtenerPersonaje.handler mundo_sin_tabla (evento_con_id "abc-123")) with
     | Ok r => r
     | Throw _ => buildResponse 0 JNull
     end) = 503%Z.
Proof.
  rewrite (obtener_sin_tabla_responde_503 mundo_sin_tabla (evento_con_id "abc-123") "abc-123"
             eq_refl ltac:(discriminate) (or_introl eq_refl)).
  reflexivity.
Defined.

(** ** The SWAPI handler: validation of the identifier *)

(** C8 at the identifier '-.5' (and at a blank one): it is a number, -0.5,
    and not strictly positive, the claim has the handler answer 400 without
    calling getPersonajeById; isNaN accepts it, parseInt reads NaN from it,
    NaN <= 0 is false, and the handler calls getPersonajeById with it. *)
Theorem getPersonaje_id_negativo_llama_a_swapi (w : Mundo) (event : Evento) (id : string) :
  parametro (pathParameters event) "id" = Some id ->
  id = "-.5" \/ id = " " ->
  isNaN_string id = false
  /\ parseInt id None = None
  /\ GetPersonaje.id_invalido id = false
  /\ fst (GetPersonaje.handler w event) = [SwapiGetPersonajeById id].
Proof.
  intros Hid Hcaso.
  assert (H : isNaN_string id = false /\ parseInt id None = None
              /\ GetPersonaje.id_invalido id = false /\ (id =? "") = false)
    by (destruct Hcaso as [-> | ->]; repeat split; reflexivity).
  destruct H as [H1 [H2 [H3 H4]]]. repeat split; try assumption.
  unfold GetPersonaje.handler. rewrite Hid, H4, H3.
  unfold llamar, try_catch, bind.
  destruct (swapi_getPersonajeById w id) as [personaje|error]; simpl.
  - destruct (negb (truthy personaje)); reflexivity.
  - destruct (negb (message error =? "") && includes (message error) "no encontrado");
      [reflexivity|].
    destruct (negb (message error =? "") && includes (message error) "conectar");
      reflexivity.
Qed.

Lemma getPersonaje_id_negativo_llama_a_swapi_witness :
  fst (GetPersonaje.handler (mundo_ejemplo JNull []) (evento_con_id "-.5"))
  = [SwapiGetPersonajeById "-.5"].
Proof.
  exact (proj2 (proj2 (proj2
           (getPersonaje_id_negativo_llama_a_swapi (mundo_ejemplo JNull [])
              (evento_con_id "-.5") "-.5" eq_refl (or_introl eq_refl))))).
Defined.

(** ** The list handler: shape of a successful response *)

Section ListarForma.
Import ListarPersonajes.

Lemma responder_error_no_es_200 w e :
  statusCode (ErroresDynamo.responder_error w e) <> 200%Z.
Proof.
  unfold ErroresDynamo.responder_error.
  destruct (negb (message e =? "") && includes (message e) "DynamoDB"); [discriminate|].
  destruct (negb (message e =? "") && includes (message e) "variable de entorno");
    discriminate.
Qed.

(** The handler always answers: its catch clause lets nothing escape. *)
Lemma listar_handler_total w event :
  exists t r, handler w event = (t, Ok r).
Proof.
  unfold handler.
  destruct (DynamoDBService.listarPersonajes w (limite_resuelto event)) as [t [ps|e]];
    simpl; [|eauto].
  destruct ps as [|p ps]; simpl; [eauto|].
  destruct (sort_por_creado w (p :: ps)); simpl; eauto.
Qed.

End ListarForma.

(** C5, as stated, fails: with an empty store the handler answers 200 and
    the body has no [limite]. *)
Lemma listar_vacio_sin_limite :
  ListarPersonajes.handler (mundo_ejemplo JNull []) (evento_con_limite "20")
  = ( [DynamoScan "personajes-dev" 20],
      Ok (buildResponse 200
            (JObj [ ("exito", JBool true);
                    ("mensaje", JStr "No hay personajes almacenados");
                    ("total", JNum 0);
                    ("datos", JArr []) ])) )
  /\ own [ ("exito", JBool true);
           ("mensaje", JStr "No hay personajes almacenados");
           ("total", JNum 0);
           ("datos", JArr []) ] "limite" = None.
Proof. split; reflexivity. Qed.

(** C5, amended: whenever the service returns the records of the store, the
    list handler answers 200.  When the store returned none, the response is
    still a success, with the message 'No hay personajes almacenados', total
    0 and datos empty, and its body has no limite; when it returned at least
    one record (and the sorting went through) the body has exito, mensaje,
    total, limite, the resolved limit, and datos, and total is the length of
    datos.  Conversely every 200 response of the handler is one of these
    two: its body has exito, mensaje, total and datos, and limite exactly
    when the store returned at least one record. *)
Theorem listar_forma_del_200 (w : Mundo) (event : Evento) (t : list Llamada) :
  (DynamoDBService.listarPersonajes w (ListarPersonajes.limite_resuelto event) = (t, Ok []) ->
   ListarPersonajes.handler w event
   = (t, Ok (buildResponse 200
               (JObj [ ("exito", JBool true);
                       ("mensaje", JStr "No hay personajes almacenados");
                       ("total", JNum 0);
                       ("datos", JArr []) ]))))
  /\ (forall personajes datos,
        personajes <> [] ->
        DynamoDBService.listarPersonajes w (ListarPersonajes.limite_resuelto event)
          = (t, Ok personajes) ->
        sort_por_creado w personajes = Ok datos ->
        ListarPersonajes.handler w event
        = (t, Ok (buildResponse 200
                    (JObj [ ("exito", JBool true);
                            ("mensaje", JStr "Personajes obtenidos exitosamente");
                            ("total", JNum (Z.of_nat (List.length datos)));
                            ("limite", JNum (ListarPersonajes.limite_resuelto event));
                            ("datos", JArr datos) ]))))
  /\ (forall r,
        ListarPersonajes.handler w event = (t, Ok r) ->
        statusCode r = 200%Z ->
        exists personajes campos,
          DynamoDBService.listarPersonajes w (ListarPersonajes.limite_resuelto event)
            = (t, Ok personajes)
          /\ body r = JObj campos
          /\ own campos "exito" = Some (JBool true)
          /\ (exists m, own campos "mensaje" = Some (JStr m))
          /\ (exists n, own campos "total" = Some (JNum n))
          /\ (exists datos, own campos "datos" = Some (JArr datos))
          /\ (personajes <> [] ->
              own campos "limite" = Some (JNum (ListarPersonajes.limite_resuelto event))
              /\ exists datos, sort_por_creado w personajes = Ok datos
                               /\ own campos "datos" = Some (JArr datos)
                               /\ own campos "total" = Some (JNum (Z.of_nat (List.length datos))))
          /\ (personajes = [] ->
              own campos "limite" = None
              /\ own campos "mensaje" = Some (JStr "No hay personajes almacenados")
              /\ own campos "total" = Some (JNum 0)
              /\ own campos "datos" = Some (JArr []))).
Proof.
  split; [|split].
  - intros Hl. unfold ListarPersonajes.handler. cbv zeta. rewrite Hl.
    simpl. now rewrite app_nil_r.
  - intros personajes datos Hne Hl Hs. unfold ListarPersonajes.handler. cbv zeta.
    rewrite Hl. destruct personajes as [|p ps]; [now elim Hne|].
    simpl. rewrite Hs. simpl. now rewrite !app_nil_r.
  - intros r. unfold ListarPersonajes.handler.
    destruct (DynamoDBService.listarPersonajes w (ListarPersonajes.limite_resuelto event))
      as [t0 [ps|e]] eqn:Hl; simpl.
    + destruct ps as [|p ps]; simpl.
      * intros H _. inversion H; subst. rewrite app_nil_r.
        exists [], [ ("exito", JBool true); ("mensaje", JStr "No hay personajes almacenados");
                     ("total", JNum 0); ("datos", JArr []) ].
        simpl. do 3 (split; [reflexivity|]). do 3 (split; [eexists; reflexivity|]). split.
        -- intros Hne. now destruct Hne.
        -- intros _. repeat split.
      * destruct (sort_por_creado w (p :: ps)) as [ord|e] eqn:Hs; simpl.
        -- intros H _. inversion H; subst. rewrite !app_nil_r.
           eexists (p :: ps), _. simpl.
           do 3 (split; [reflexivity|]). do 3 (split; [eexists; reflexivity|]). split.
           ++ intros _. split; [reflexivity|]. exists ord.
              split; [assumption|split; reflexivity].
           ++ discriminate.
        -- intros H Hst. inversion H; subst.
           now apply responder_error_no_es_200 in Hst.
    + intros H Hst. inversion H; subst.
      now apply responder_error_no_es_200 in Hst.
Qed.

Lemma listar_forma_del_200_witness :
  ListarPersonajes.handler (mundo_ejemplo JNull []) (evento_con_limite "20")
  = ( [DynamoScan "personajes-dev" 20],
      Ok (buildResponse 200
            (JObj [ ("exito", JBool true);
                    ("mensaje", JStr "No hay personajes almacenados");
                    ("total", JNum 0);
                    ("datos", JArr []) ])) )
  /\ ListarPersonajes.handler
       (mundo_ejemplo JNull [JObj [("id", JStr "uuid-1"); ("nombre", JStr "Test")]])
       (evento_con_limite "20")
     = ( [DynamoScan "personajes-dev" 20],
         Ok (buildResponse 200
               (JObj [ ("exito", JBool true);
                       ("mensaje", JStr "Personajes obtenidos exitosamente");
                       ("total", JNum 1);
                       ("limite", JNum 20);
                       ("datos", JArr [JObj [("id", JStr "uuid-1"); ("nombre", JStr "Test")]]) ])) ).
Proof.
  split.
  - apply (proj1 (listar_forma_del_200 (mundo_ejemplo JNull []) (evento_con_limite "20")
                    [DynamoScan "personajes-dev" 20])).
    reflexivity.
  - apply (proj1 (proj2 (listar_forma_del_200
                           (mundo_ejemplo JNull [JObj [("id", JStr "uuid-1"); ("nombre", JStr "Test")]])
                           (evento_con_limite "20")
                           [DynamoScan "personajes-dev" 20]))
             [JObj [("id", JStr "uuid-1"); ("nombre", JStr "Test")]]
             [JObj [("id", JStr "uuid-1"); ("nombre", JStr "Test")]]).
    + discriminate.
    + reflexivity.
    + reflexivity.
Defined.

(** ** parseInt on decimal numerals *)

Section Numerales.

Lemma quitar_espacio_no_espacio c r :
  ((9 <=? nat_of_ascii c) && (nat_of_ascii c <=? 13) || (nat_of_ascii c =? 32))%nat = false ->
  (nat_of_ascii c <? 194)%nat = true ->
  quitar_espacio (String c r) = None.
Proof.
  intros Hws Hlt. unfold quitar_espacio. rewrite Hws.
  apply Nat.ltb_lt in Hlt.
  assert (E1 : (nat_of_ascii c =? 194)%nat = false) by (apply Nat.eqb_neq; lia).
  assert (E2 : (nat_of_ascii c =? 225)%nat = false) by (apply Nat.eqb_neq; lia).
  assert (E3 : (nat_of_ascii c =? 226)%nat = false) by (apply Nat.eqb_neq; lia).
  assert (E4 : (nat_of_ascii c =? 227)%nat = false) by (apply Nat.eqb_neq; lia).
  assert (E5 : (nat_of_ascii c =? 239)%nat = false) by (apply Nat.eqb_neq; lia).
  destruct r as [|c2 r2]; [reflexivity|].
  rewrite E1. cbn [andb].
  destruct r2 as [|c3 r3]; [reflexivity|].
  rewrite E2, E3, E4, E5. reflexivity.
Qed.

Lemma trimStart_no_espacio c r :
  ((9 <=? nat_of_ascii c) && (nat_of_ascii c <=? 13) || (nat_of_ascii c =? 32))%nat = false ->
  (nat_of_ascii c <? 194)%nat = true ->
  trimStart (String c r) = String c r.
Proof.
  intros Hws Hlt. unfold trimStart. cbn [String.length trimStart_aux].
  now rewrite quitar_espacio_no_espacio.
Qed.

(** On a string that begins with a digit, parseInt in radix 10 reads the
    leading digits. *)
Lemma parseInt_10_digito s :
  empieza_con_digito s = true ->
  parseInt s (Some 10%Z) = leer_digitos 10 s None.
Proof.
  destruct s as [|c r]; [discriminate|].
  intros Hd. unfold parseInt.
  rewrite trimStart_no_espacio.
  - destruct c as [[] [] [] [] [] [] [] []]; try discriminate Hd;
      cbn;
      match goal with
      | |- match ?X with Some _ => _ | None => _ end = _ => destruct X; reflexivity
      end.
  - destruct c as [[] [] [] [] [] [] [] []]; try discriminate Hd; reflexivity.
  - destruct c as [[] [] [] [] [] [] [] []]; try discriminate Hd; reflexivity.
Qed.

Lemma parseInt_10_menos_digito s :
  empieza_con_digito s = true ->
  parseInt ("-" ++ s) (Some 10%Z) = option_map Z.opp (leer_digitos 10 s None).
Proof.
  intros Hd. unfold parseInt.
  change ("-" ++ s) with (String "-" s).
  rewrite trimStart_no_espacio by reflexivity.
  cbn.
  match goal with
  | |- match ?X with Some _ => _ | None => _ end = _ => destruct X; reflexivity
  end.
Qed.

Lemma leer_digitos_uint d : forall a : nat,
  leer_digitos 10 (NilEmpty.string_of_uint d) (Some (Z.of_nat a))
  = Some (Z.of_nat (Nat.of_uint_acc d a)).
Proof.
  induction d; intros a; cbn [NilEmpty.string_of_uint Nat.of_uint_acc];
    try reflexivity;
    cbn [leer_digitos]; leer_un_digito;
    rewrite Nat.tail_mul_spec;
    match goal with
    | |- leer_digitos _ _ (Some ?x) = Some (Z.of_nat (Nat.of_uint_acc _ ?y)) =>
        replace x with (Z.of_nat y) by lia
    end; apply IHd.
Qed.

Lemma leer_digitos_uint_inicio d :
  d <> Decimal.Nil ->
  leer_digitos 10 (NilEmpty.string_of_uint d) None = Some (Z.of_nat (Nat.of_uint d)).
Proof.
  intros Hd. unfold Nat.of_uint.
  destruct d; [congruence| ..];
    cbn [NilEmpty.string_of_uint Nat.of_uint_acc];
    cbn [leer_digitos]; leer_un_digito;
    rewrite Nat.tail_mul_spec;
    match goal with
    | |- leer_digitos _ _ (Some ?x) = Some (Z.of_nat (Nat.of_uint_acc _ ?y)) =>
        replace x with (Z.of_nat y) by lia
    end; apply leer_digitos_uint.
Qed.

Lemma empieza_con_digito_uint d :
  empieza_con_digito (NilZero.string_of_uint d) = true.
Proof. destruct d; reflexivity. Qed.

Lemma leer_digitos_numeral d :
  leer_digitos 10 (NilZero.string_of_uint d) None = Some (Z.of_nat (Nat.of_uint d)).
Proof.
  destruct d; [reflexivity | ..];
    apply (leer_digitos_uint_inicio); discriminate.
Qed.

Lemma leer_digitos_decimal_nat n :
  leer_digitos 10 (decimal_nat n) None = Some (Z.of_nat n).
Proof.
  unfold decimal_nat.
  now rewrite leer_digitos_numeral, DecimalNat.Unsigned.of_to.
Qed.

(** parseInt reads back the decimal numeral of any integer. *)
Lemma parseInt_decimal (n : Z) : parseInt (decimal n) (Some 10%Z) = Some n.
Proof.
  unfold decimal. destruct (n <? 0)%Z eqn:E.
  - rewrite parseInt_10_menos_digito by apply empieza_con_digito_uint.
    rewrite leer_digitos_decimal_nat. simpl. f_equal. apply Z.ltb_lt in E. lia.
  - rewrite parseInt_10_digito by apply empieza_con_digito_uint.
    rewrite leer_digitos_decimal_nat. f_equal. apply Z.ltb_ge in E. lia.
Qed.

End Numerales.

(** ** The list handler: the page size *)

Section Limite.
Import ListarPersonajes.

Lemma leer_digitos_Some R s a : exists n, leer_digitos R s (Some a) = Some n.
Proof.
  revert a. induction s as [|c r IH]; intros a; simpl; [eauto|].
  destruct (valor_digito c) as [d|]; [|eauto].
  destruct (d <? R)%Z; eauto.
Qed.

(** In radix 10 the reader finds no number exactly when the text does not
    begin with a digit. *)
Lemma leer_digitos_None s :
  leer_digitos 10 s None = None <-> empieza_con_digito s = false.
Proof.
  destruct s as [|c r]; [simpl; tauto|].
  cbn [leer_digitos empieza_con_digito].
  destruct c as [[] [] [] [] [] [] [] []];
    match goal with
    | |- context [valor_digito ?c] =>
        let v := eval vm_compute in (valor_digito c) in
        change (valor_digito c) with v; cbv iota beta
    end;
    match goal with
    | |- context [es_digito ?c] =>
        let v := eval vm_compute in (es_digito c) in
        change (es_digito c) with v
    end;
    try match goal with
    | |- context [(?d <? 10)%Z] =>
        let b := eval vm_compute in (d <? 10)%Z in
        change (d <? 10)%Z with b; cbv iota beta
    end;
    try tauto;
    match goal with
    | |- context [leer_digitos ?R ?x (Some ?a)] =>
        destruct (leer_digitos_Some R x a) as [n ->]
    end; split; discriminate.
Qed.

Lemma parseInt_10_None s :
  parseInt s (Some 10%Z) = None <->
  empieza_con_digito (quitar_signo (trimStart s)) = false.
Proof.
  unfold parseInt. cbn.
  rewrite <- leer_digitos_None.
  destruct (leer_digitos 10 (quitar_signo (trimStart s)) None); split;
    congruence.
Qed.

Lemma decimal_no_vacio n : (decimal n =? "") = false.
Proof.
  unfold decimal, decimal_nat. destruct (n <? 0)%Z; [reflexivity|].
  pose proof (empieza_con_digito_uint (Nat.to_uint (Z.to_nat n))) as H.
  destruct (NilZero.string_of_uint (Nat.to_uint (Z.to_nat n))); [discriminate|reflexivity].
Qed.

(** The parameter limite given as a decimal numeral is the text parsed, and
    is read as the number it denotes. *)
Lemma parseInt_texto_limite_decimal event n :
  parametro (queryStringParameters event) "limite" = Some (decimal n) ->
  parseInt (texto_limite event) (Some 10%Z) = Some n.
Proof.
  intros H. unfold texto_limite, o_bien. rewrite H, decimal_no_vacio.
  apply parseInt_decimal.
Qed.

Lemma limite_resuelto_rango event :
  (1 <= limite_resuelto event <= 100)%Z.
Proof.
  unfold limite_resuelto.
  destruct (parseInt _ _) as [n|]; cbn.
  - destruct (n <=? 0)%Z eqn:E1; cbn; [lia|].
    apply Z.leb_gt in E1.
    destruct (100 <? n)%Z eqn:E2; [lia|]. apply Z.ltb_ge in E2. lia.
  - lia.
Qed.

Lemma listar_traza w limite :
  fst (DynamoDBService.listarPersonajes w limite) = []
  \/ exists t, PERSONAJES_TABLE w = Some t /\ t <> ""
               /\ fst (DynamoDBService.listarPersonajes w limite) = [DynamoScan t limite].
Proof.
  unfold DynamoDBService.listarPersonajes, DynamoDBService.tabla_configurada,
    DynamoDBService.TABLA_PERSONAJES.
  destruct (PERSONAJES_TABLE w) as [t|]; [|now left].
  destruct (t =? "") eqn:E; [now left|].
  right. exists t. apply String.eqb_neq in E. repeat split; auto.
  cbn. destruct (dynamo_scan w t limite); reflexivity.
Qed.

(** The handler makes the calls of the service and no other. *)
Lemma listar_handler_traza w event :
  fst (handler w event)
  = fst (DynamoDBService.listarPersonajes w (limite_resuelto event)).
Proof.
  unfold handler.
  destruct (DynamoDBService.listarPersonajes w (limite_resuelto event)) as [t [ps|e]];
    cbn.
  - destruct ps as [|p ps]; cbn; [now rewrite app_nil_r|].
    destruct (sort_por_creado w (p :: ps)); cbn; now rewrite ?app_nil_r.
  - now rewrite app_nil_r.
Qed.

End Limite.

(** C6, as stated, fails: 'limite=12abc' is not numeric (Number of it is
    NaN), the claim has the store queried with 50, and the handler queries
    with 12; 'limite=7.9' is numeric and between 1 and 100, the claim has
    the given value passed on, and the handler queries with 7. *)
Lemma listar_limite_12abc :
  isNaN_string "12abc" = true
  /\ ListarPersonajes.limite_resuelto (evento_con_limite "12abc") = 12%Z
  /\ fst (ListarPersonajes.handler (mundo_ejemplo JNull []) (evento_con_limite "12abc"))
     = [DynamoScan "personajes-dev" 12]
  /\ isNaN_string "7.9" = false
  /\ ListarPersonajes.limite_resuelto (evento_con_limite "7.9") = 7%Z.
Proof. repeat split; reflexivity. Qed.

(** C6, amended: the handler parses in base 10 the first non-empty of the
    parameters limite and limit, '50' when neither is given.  The page size
    is 50 when that text has no leading integer (it does not begin, after
    white space and an optional sign, with a digit) or when the integer is
    zero or negative; it is the leading integer when that is between 1 and
    100, and 100 when it exceeds 100, so it always lies between 1 and 100.
    A limite written as a decimal numeral is read as the number it denotes;
    text after the leading integer is ignored.  The store is queried with
    that page size and nothing else: limite=200 queries with 100, and
    limite=abc, limite=0 and limite=-5 with 50. *)
Theorem listar_limite_resuelto :
  (forall event,
      (parseInt (texto_limite event) (Some 10%Z) = None ->
       ListarPersonajes.limite_resuelto event = 50%Z)
      /\ (forall n, parseInt (texto_limite event) (Some 10%Z) = Some n ->
            ((n <= 0)%Z -> ListarPersonajes.limite_resuelto event = 50%Z)
            /\ ((1 <= n <= 100)%Z -> ListarPersonajes.limite_resuelto event = n)
            /\ ((100 < n)%Z -> ListarPersonajes.limite_resuelto event = 100%Z)))
  /\ (forall event,
        sin_valor (parametro (queryStringParameters event) "limite") ->
        sin_valor (parametro (queryStringParameters event) "limit") ->
        ListarPersonajes.limite_resuelto event = 50%Z)
  /\ (forall event, (1 <= ListarPersonajes.limite_resuelto event <= 100)%Z)
  /\ (forall event n,
        parametro (queryStringParameters event) "limite" = Some (decimal n) ->
        ((n <= 0)%Z -> ListarPersonajes.limite_resuelto event = 50%Z)
        /\ ((1 <= n <= 100)%Z -> ListarPersonajes.limite_resuelto event = n)
        /\ ((100 < n)%Z -> ListarPersonajes.limite_resuelto event = 100%Z))
  /\ (forall s, parseInt s (Some 10%Z) = None <->
                empieza_con_digito (quitar_signo (trimStart s)) = false)
  /\ (forall n, parseInt (decimal n) (Some 10%Z) = Some n)
  /\ (forall w event c,
        In c (fst (ListarPersonajes.handler w event)) ->
        exists t, c = DynamoScan t (ListarPersonajes.limite_resuelto event))
  /\ (forall w event t,
        PERSONAJES_TABLE w = Some t -> t <> "" ->
        fst (ListarPersonajes.handler w event)
        = [DynamoScan t (ListarPersonajes.limite_resuelto event)])
  /\ ListarPersonajes.limite_resuelto (evento_con_limite "200") = 100%Z
  /\ ListarPersonajes.limite_resuelto (evento_con_limite "abc") = 50%Z
  /\ ListarPersonajes.limite_resuelto (evento_con_limite "0") = 50%Z
  /\ ListarPersonajes.limite_resuelto (evento_con_limite "-5") = 50%Z.
Proof.
  assert (Hn : forall event n,
             parseInt (texto_limite event) (Some 10%Z) = Some n ->
             ((n <= 0)%Z -> ListarPersonajes.limite_resuelto event = 50%Z)
             /\ ((1 <= n <= 100)%Z -> ListarPersonajes.limite_resuelto event = n)
             /\ ((100 < n)%Z -> ListarPersonajes.limite_resuelto event = 100%Z)).
  { intros event n. unfold ListarPersonajes.limite_resuelto, texto_limite.
    intros ->. repeat split; intros H.
    - assert (E : (n <=? 0)%Z = true) by (apply Z.leb_le; lia). now rewrite E.
    - assert (E : (n <=? 0)%Z = false) by (apply Z.leb_gt; lia).
      assert (E' : (100 <? n)%Z = false) by (apply Z.ltb_ge; lia).
      now rewrite E, E'.
    - assert (E : (n <=? 0)%Z = false) by (apply Z.leb_gt; lia).
      assert (E' : (100 <? n)%Z = true) by (apply Z.ltb_lt; lia).
      now rewrite E, E'. }
  split; [|split; [|split; [|split; [|split; [|split; [|split; [|split;
    [|repeat split; reflexivity]]]]]]]].
  - intros event. split; [|apply Hn].
    unfold ListarPersonajes.limite_resuelto, texto_limite. intros ->. reflexivity.
  - intros event H1 H2. unfold ListarPersonajes.limite_resuelto.
    destruct H1 as [-> | ->], H2 as [-> | ->]; reflexivity.
  - apply limite_resuelto_rango.
  - intros event n H. apply Hn. now apply parseInt_texto_limite_decimal.
  - apply parseInt_10_None.
  - apply parseInt_decimal.
  - intros w event c. rewrite listar_handler_traza.
    destruct (listar_traza w (ListarPersonajes.limite_resuelto event)) as [-> | [t [_ [_ ->]]]].
    + intros [].
    + intros [<- | []]. eauto.
  - intros w event t Ht Hne. rewrite listar_handler_traza.
    destruct (listar_traza w (ListarPersonajes.limite_resuelto event))
      as [H | [t' [Ht' [_ ->]]]].
    + exfalso. revert H.
      unfold DynamoDBService.listarPersonajes, DynamoDBService.tabla_configurada,
        DynamoDBService.TABLA_PERSONAJES.
      rewrite Ht. apply String.eqb_neq in Hne. rewrite Hne. cbn.
      destruct (dynamo_scan w t _); discriminate.
    + congruence.
Qed.

Lemma listar_limite_resuelto_witness :
  ListarPersonajes.limite_resuelto (evento_con_limite "37") = 37%Z
  /\ fst (ListarPersonajes.handler (mundo_ejemplo JNull []) (evento_con_limite "37"))
     = [DynamoScan "personajes-dev" 37].
Proof.
  split.
  - apply (proj1 (proj2 (proj2 (proj2 listar_limite_resuelto)))
             (evento_con_limite "37") 37%Z eq_refl).
    lia.
  - exact (proj1 (proj2 (proj2 (proj2 (proj2 (proj2 (proj2 (proj2 listar_limite_resuelto)))))))
             (mundo_ejemplo JNull []) (evento_con_limite "37") "personajes-dev"
             eq_refl ltac:(discriminate)).
Defined.

(** ** The create handler: identity and timestamps of the stored record *)

Section CrearIdentidad.
Import CrearEntidad.

Lemma filter_nil_forall {A} (f : A -> bool) l x :
  filter f l = [] -> In x l -> f x = false.
Proof.
  induction l as [|y l IH]; simpl; [tauto|].
  destruct (f y) eqn:E; [discriminate|].
  intros H [<-|Hin]; auto.
Qed.

(** Once the type validation passes, genero is absent or a string. *)
Lemma tipos_validos_genero w personaje :
  validarTiposDeDatos w personaje = Ok TiposValidos ->
  propiedad personaje "genero" = JUndefined
  \/ exists s, propiedad personaje "genero" = JStr s.
Proof.
  unfold validarTiposDeDatos.
  set (F1 := filter _ camposString). set (F2 := filter _ camposArray).
  destruct (presente_y_no_numerico w (propiedad personaje "altura"));
    cbn [exc_bind]; [|discriminate].
  destruct (presente_y_no_numerico w (propiedad personaje "masa"));
    cbn [exc_bind]; [|discriminate].
  match goal with
  | |- exc_bind ?E _ = _ -> _ => destruct E as [e5|]; cbn [exc_bind]; [|discriminate]
  end.
  match goal with
  | |- Ok (if (0 <? List.length (?E1 ++ ?R))%nat then _ else _) = _ -> _ =>
      destruct (E1 ++ R)%list eqn:Happ; [|discriminate]
  end.
  intros _. apply app_eq_nil in Happ as [H1 _].
  apply map_eq_nil in H1. subst F1.
  apply (filter_nil_forall _ _ "genero") in H1; [|simpl; tauto].
  cbv beta in H1.
  destruct (propiedad personaje "genero"); simpl in H1; try discriminate; eauto.
Qed.

(** The trimming loop leaves a property as it was or makes it a string. *)
Lemma own_fold_recortar entradas : forall acc k,
  own (fold_left recortar entradas acc) k = own acc k
  \/ exists s, own (fold_left recortar entradas acc) k = Some (JStr s).
Proof.
  induction entradas as [|[k' v'] es IH]; intros acc k; simpl; [now left|].
  destruct (IH (recortar acc (k', v')) k) as [H|H]; [|now right].
  rewrite H. unfold recortar. simpl.
  destruct v'; try now left.
  destruct (String.eqb_spec k k') as [->|Hne].
  - right. rewrite own_js_set_same. eauto.
  - left. now apply own_js_set_other.
Qed.

Lemma propiedad_entries datos k :
  truthy datos = true -> typeof datos = "object" -> Array_isArray datos = false ->
  propiedad datos k = js_get (Object_entries datos) k.
Proof.
  destruct datos; simpl; try discriminate; reflexivity.
Qed.

Lemma cuerpo_valido_objeto w body datos :
  validarCuerpoRequest w body = CuerpoValido datos ->
  truthy datos = true /\ typeof datos = "object" /\ Array_isArray datos = false.
Proof.
  unfold validarCuerpoRequest.
  destruct body as [texto|]; [|discriminate].
  destruct (texto =? ""); [discriminate|].
  destruct (JSON_parse w texto) as [d|]; [|discriminate].
  destruct (truthy d) eqn:Ht; simpl; [|discriminate].
  destruct (typeof d =? "object") eqn:Ho; simpl; [|discriminate].
  destruct (Array_isArray d) eqn:Ha; simpl; [discriminate|].
  intros H. inversion H. subst d. apply String.eqb_eq in Ho. auto.
Qed.

(** After a passed validation the sanitation does not throw. *)
Lemma sanitizar_no_lanza w datos :
  truthy datos = true -> typeof datos = "object" -> Array_isArray datos = false ->
  validarTiposDeDatos w datos = Ok TiposValidos ->
  exists sanitizado, sanitizarPersonaje datos = Ok sanitizado.
Proof.
  intros Ht Ho Ha Hv. unfold sanitizarPersonaje.
  assert (Hg : js_get (fold_left recortar (Object_entries datos) (Object_entries datos)) "genero"
               = JUndefined
               \/ exists s, js_get (fold_left recortar (Object_entries datos)
                                      (Object_entries datos)) "genero" = JStr s).
  { apply tipos_validos_genero in Hv.
    rewrite (propiedad_entries datos "genero" Ht Ho Ha) in Hv.
    unfold js_get in *.
    destruct (own_fold_recortar (Object_entries datos) (Object_entries datos) "genero")
      as [-> | [s ->]]; [exact Hv|eauto]. }
  destruct Hg as [-> | [s ->]]; simpl; [eauto|].
  destruct (negb (s =? "")); simpl; eauto.
Qed.

Lemma NoDup_fold_recortar entradas : forall acc,
  NoDup (map fst acc) -> NoDup (map fst (fold_left recortar entradas acc)).
Proof.
  induction entradas as [|[k v] es IH]; intros acc Hnd; simpl; [assumption|].
  apply IH. unfold recortar. simpl.
  destruct v; try assumption. now apply NoDup_js_set.
Qed.

Lemma NoDup_fold_asegurarArray campos : forall acc,
  NoDup (map fst acc) -> NoDup (map fst (fold_left asegurarArray campos acc)).
Proof.
  induction campos as [|c cs IH]; intros acc Hnd; simpl; [assumption|].
  apply IH. unfold asegurarArray.
  destruct (negb (truthy (js_get acc c))); [now apply NoDup_js_set|assumption].
Qed.

(** The sanitation keeps the names of the record distinct. *)
Lemma NoDup_sanitizarPersonaje datos sanitizado :
  sanitizarPersonaje datos = Ok sanitizado ->
  NoDup (map fst (Object_entries datos)) ->
  NoDup (map fst sanitizado).
Proof.
  unfold sanitizarPersonaje. intros H Hnd.
  pose proof (NoDup_fold_recortar (Object_entries datos) (Object_entries datos) Hnd) as Hr.
  destruct (truthy (js_get (fold_left recortar (Object_entries datos) (Object_entries datos))
                      "genero")).
  - destruct (llamar_toLowerCase _ _) as [g|]; cbn [exc_bind] in H; [|discriminate].
    injection H as <-.
    apply (NoDup_fold_asegurarArray camposArray (js_set _ "genero" (JStr g))).
    now apply NoDup_js_set.
  - cbn [exc_bind] in H. injection H as <-.
    now apply (NoDup_fold_asegurarArray camposArray
                 (fold_left recortar (Object_entries datos) (Object_entries datos))).
Qed.

End CrearIdentidad.

(** C9: whenever the body passes the three validations of the create
    handler, the record handed to the store has the freshly minted UUID for
    id and the freshly stamped time for creado and actualizado, whatever the
    body held under these three names, and holds no other value under them;
    the handler makes no other call, and when the write succeeds the
    response is 201 with that record. *)
Theorem crear_asigna_id_y_fechas (w : Mundo) (event : Evento) (datos : JsValue) :
  CrearEntidad.validarCuerpoRequest w (cuerpo event) = CrearEntidad.CuerpoValido datos ->
  CrearEntidad.validarCamposObligatorios datos = CrearEntidad.Completo ->
  CrearEntidad.validarTiposDeDatos w datos = Ok CrearEntidad.TiposValidos ->
  exists registro,
    own registro "id" = Some (JStr (uuidv4 w))
    /\ own registro "creado" = Some (JStr (ahora w))
    /\ own registro "actualizado" = Some (JStr (ahora w))
    /\ (NoDup (map fst (Object_entries datos)) ->
        forall v,
          (In ("id", v) registro -> v = JStr (uuidv4 w))
          /\ (In ("creado", v) registro -> v = JStr (ahora w))
          /\ (In ("actualizado", v) registro -> v = JStr (ahora w)))
    /\ (forall c, In c (fst (CrearEntidad.handler w event)) ->
                  exists t, c = DynamoPut t (JObj registro))
    /\ (forall t, PERSONAJES_TABLE w = Some t -> t <> "" ->
          fst (CrearEntidad.handler w event) = [DynamoPut t (JObj registro)]
          /\ (dynamo_put w t (JObj registro) = Ok tt ->
              snd (CrearEntidad.handler w event)
              = Ok (buildResponse 201
                      (JObj [ ("exito", JBool true);
                              ("mensaje", JStr "Personaje creado exitosamente");
                              ("datos", JObj registro) ])))).
Proof.
  intros Hc Ho Hv.
  destruct (cuerpo_valido_objeto w _ _ Hc) as [Ht [Hty Ha]].
  destruct (sanitizar_no_lanza w datos Ht Hty Ha Hv) as [sanitizado Hs].
  exists (js_set (js_set (js_set sanitizado "id" (JStr (uuidv4 w)))
                    "creado" (JStr (ahora w)))
            "actualizado" (JStr (ahora w))).
  assert (Hid : own (js_set (js_set (js_set sanitizado "id" (JStr (uuidv4 w)))
                               "creado" (JStr (ahora w)))
                       "actualizado" (JStr (ahora w))) "id" = Some (JStr (uuidv4 w)))
    by (rewrite !own_js_set_other by discriminate; apply own_js_set_same).
  assert (Hcr : own (js_set (js_set (js_set sanitizado "id" (JStr (uuidv4 w)))
                               "creado" (JStr (ahora w)))
                       "actualizado" (JStr (ahora w))) "creado" = Some (JStr (ahora w)))
    by (rewrite own_js_set_other by discriminate; apply own_js_set_same).
  assert (Hac : own (js_set (js_set (js_set sanitizado "id" (JStr (uuidv4 w)))
                               "creado" (JStr (ahora w)))
                       "actualizado" (JStr (ahora w))) "actualizado" = Some (JStr (ahora w)))
    by apply own_js_set_same.
  split; [exact Hid|split; [exact Hcr|split; [exact Hac|split]]].
  - intros Hnd v.
    assert (Hnd' : NoDup (map fst (js_set (js_set (js_set sanitizado "id" (JStr (uuidv4 w)))
                                             "creado" (JStr (ahora w)))
                                     "actualizado" (JStr (ahora w)))))
      by (do 3 apply NoDup_js_set;
          now apply (NoDup_sanitizarPersonaje datos)).
    repeat split; intros Hin; apply (own_in_NoDup _ _ _ Hnd') in Hin; congruence.
  - unfold CrearEntidad.handler. rewrite Hc, Ho, Hv. cbn [lift bind].
    rewrite Hs. cbn [app].
    unfold DynamoDBService.guardarPersonaje, DynamoDBService.tabla_configurada,
      DynamoDBService.TABLA_PERSONAJES.
    split.
    + intros c.
      destruct (PERSONAJES_TABLE w) as [t|]; cbn; [|tauto].
      destruct (t =? ""); cbn; [tauto|].
      destruct (dynamo_put w t _) as [u|e]; cbn.
      * intros [<-|[]]. eauto.
      * destruct (code e) as [cd|]; cbn;
          [destruct (cd =? "ConditionalCheckFailedException"); cbn|];
          repeat match goal with
                 | |- context [if ?b then _ else _] => destruct b
                 end; cbn; intros [<-|[]]; eauto.
    + intros t -> Hne. apply String.eqb_neq in Hne. rewrite Hne. cbn.
      split.
      * destruct (dynamo_put w t _) as [u|e]; cbn; [reflexivity|].
        destruct (code e) as [cd|]; cbn;
          [destruct (cd =? "ConditionalCheckFailedException"); cbn|];
          repeat match goal with
                 | |- context [if ?b then _ else _] => destruct b
                 end; reflexivity.
      * intros ->. reflexivity.
Qed.

Lemma crear_asigna_id_y_fechas_witness :
  exists registro,
    own registro "id" = Some (JStr "3f1c9a52-7d1e-4c0b-9a61-2b8e5d0c4f77")
    /\ own registro "creado" = Some (JStr "2026-01-08T12:00:00.000Z")
    /\ own registro "actualizado" = Some (JStr "2026-01-08T12:00:00.000Z")
    /\ fst (CrearEntidad.handler (mundo_ejemplo cuerpo_con_id_del_cliente [])
              (evento_con_cuerpo texto_con_id_del_cliente))
       = [DynamoPut "personajes-dev" (JObj registro)].
Proof.
  destruct (crear_asigna_id_y_fechas
              (mundo_ejemplo cuerpo_con_id_del_cliente [])
              (evento_con_cuerpo texto_con_id_del_cliente)
              cuerpo_con_id_del_cliente eq_refl eq_refl eq_refl)
    as [registro [H1 [H2 [H3 [_ [_ H5]]]]]].
  exists registro. repeat split; try assumption.
  exact (proj1 (H5 "personajes-dev" eq_refl ltac:(discriminate))).
Defined.

(** ** Genders: what the translator writes and what the create handler takes *)

(** C10: translateValue turns 'none' into 'ninguno'; 'ninguno' is not one of
    the five genders validarTiposDeDatos accepts; so a record with a valid
    nombre and genero 'ninguno' is rejected by validarTiposDeDatos with the
    message for genero, and the create handler answers 400 without calling
    the store. *)
Theorem ninguno_no_es_genero_valido :
  Mapper.translateValue (JStr "none") = JStr "ninguno"
  /\ CrearEntidad.generosValidos
     = ["masculino"; "femenino"; "hermafrodita"; "n/a"; "desconocido"]
  /\ ~ In "ninguno" CrearEntidad.generosValidos
  /\ (forall w nombre,
        CrearEntidad.validarTiposDeDatos w
          (JObj [("nombre", JStr nombre); ("genero", JStr "ninguno")])
        = Ok (CrearEntidad.TiposInvalidos [CrearEntidad.mensaje_genero]))
  /\ (forall w texto nombre,
        texto <> "" ->
        trim nombre <> "" ->
        JSON_parse w texto = Some (JObj [("nombre", JStr nombre); ("genero", JStr "ninguno")]) ->
        CrearEntidad.validarCamposObligatorios
          (JObj [("nombre", JStr nombre); ("genero", JStr "ninguno")])
        = CrearEntidad.Completo
        /\ CrearEntidad.handler w (evento_con_cuerpo texto)
           = ([], Ok (buildResponse 400
                        (JObj [ ("error", JStr "Bad Request");
                                ("mensaje", JStr "Errores de validación en los datos proporcionados");
                                ("errores", JArr [JStr CrearEntidad.mensaje_genero]) ])))).
Proof.
  split; [reflexivity|]. split; [reflexivity|]. split; [|split].
  - simpl. intuition discriminate.
  - intros w nombre. reflexivity.
  - intros w texto nombre Htexto Htrim Hparse.
    assert (Hne : nombre <> "") by (intros ->; now apply Htrim).
    apply String.eqb_neq in Htexto, Htrim, Hne.
    assert (Hob : CrearEntidad.validarCamposObligatorios
                    (JObj [("nombre", JStr nombre); ("genero", JStr "ninguno")])
                  = CrearEntidad.Completo).
    { unfold CrearEntidad.validarCamposObligatorios, CrearEntidad.falta. cbn.
      rewrite Hne, Htrim. reflexivity. }
    split; [exact Hob|].
    assert (Hcu : CrearEntidad.validarCuerpoRequest w (Some texto)
                  = CrearEntidad.CuerpoValido
                      (JObj [("nombre", JStr nombre); ("genero", JStr "ninguno")])).
    { unfold CrearEntidad.validarCuerpoRequest. rewrite Htexto, Hparse. reflexivity. }
    unfold CrearEntidad.handler. cbn [cuerpo evento_con_cuerpo].
    rewrite Hcu, Hob. reflexivity.
Qed.

Lemma ninguno_no_es_genero_valido_witness :
  CrearEntidad.handler
    (mundo_ejemplo (JObj [("nombre", JStr "Yoda"); ("genero", JStr "ninguno")]) [])
    (evento_con_cuerpo texto_genero_ninguno)
  = ([], Ok (buildResponse 400
               (JObj [ ("error", JStr "Bad Request");
                       ("mensaje", JStr "Errores de validación en los datos proporcionados");
                       ("errores", JArr [JStr CrearEntidad.mensaje_genero]) ]))).
Proof.
  exact (proj2 (proj2 (proj2 (proj2 (proj2 ninguno_no_es_genero_valido)))
                 (mundo_ejemplo (JObj [("nombre", JStr "Yoda"); ("genero", JStr "ninguno")]) [])
                 texto_genero_ninguno "Yoda"
                 ltac:(vm_compute; discriminate) ltac:(discriminate) eq_refl)).
Defined.

(** * Further properties of the code *)

(** ** The translator *)

Section Traductor.
Import Mapper.

Lemma own_VALUE_TRANSLATIONS k t :
  own VALUE_TRANSLATIONS k = Some t ->
  In t [ JStr "masculino"; JStr "femenino"; JStr "n/a"; JStr "ninguno";
         JStr "hermafrodita"; JStr "azul"; JStr "rubio (testt)"; JStr "desconocido" ].
Proof.
  simpl.
  repeat match goal with
  | |- (if ?c then _ else _) = _ -> _ => destruct c; [intros H; inversion H; tauto|]
  end.
  discriminate.
Qed.

Lemma own_PERSONAJE_FIELD_MAP k t :
  own PERSONAJE_FIELD_MAP k = Some t ->
  In t [ JStr "nombre"; JStr "altura"; JStr "masa"; JStr "color_de_cabello";
         JStr "color_de_piel"; JStr "color_de_ojos"; JStr "año_de_nacimiento";
         JStr "genero"; JStr "planeta_natal"; JStr "peliculas"; JStr "especies";
         JStr "vehiculos"; JStr "naves_espaciales"; JStr "creado"; JStr "editado";
         JStr "url" ].
Proof.
  simpl.
  repeat match goal with
  | |- (if ?c then _ else _) = _ -> _ => destruct c; [intros H; inversion H; tauto|]
  end.
  discriminate.
Qed.

Lemma lower_ascii_no_mayuscula c : entre 65 90 (lower_ascii c) = false.
Proof. destruct c as [[] [] [] [] [] [] [] []]; reflexivity. Qed.

Lemma sin_mayusculas_toLowerCase s : sin_mayusculas (toLowerCase s) = true.
Proof.
  unfold sin_mayusculas. induction s as [|c s IH]; [reflexivity|].
  cbn [toLowerCase todos]. rewrite lower_ascii_no_mayuscula. exact IH.
Qed.

Lemma Array_includes_In l x : Array_includes l x = true -> In x l.
Proof.
  unfold Array_includes. intros H. apply existsb_exists in H as [y [Hin Heq]].
  apply String.eqb_eq in Heq. now subst.
Qed.

(** A lower-cased string names an inherited member only if it is
    'constructor' or '__proto__': every other member of Object.prototype has
    an upper-case letter in its name. *)
Lemma heredado_minusculas s :
  toLowerCase s <> "constructor" -> toLowerCase s <> "__proto__" ->
  heredado (toLowerCase s) = JUndefined.
Proof.
  intros Hc Hp. unfold heredado.
  apply String.eqb_neq in Hc, Hp. rewrite Hp, Hc.
  destruct (Array_includes Object_prototype_metodos (toLowerCase s)) eqn:E; [|reflexivity].
  apply Array_includes_In in E. apply String.eqb_neq in Hc.
  pose proof (sin_mayusculas_toLowerCase s) as Hs.
  simpl in E.
  repeat (destruct E as [E|E]; [rewrite <- E in Hs; try discriminate Hs; congruence|]).
  destruct E.
Qed.

End Traductor.

(** X2: translateValue returns an ASCII string as it came whenever its
    lower-cased form is no key of VALUE_TRANSLATIONS and is neither
    'constructor' nor '__proto__'. *)
Theorem translateValue_sin_traduccion (s : string) :
  es_ascii s = true ->
  own Mapper.VALUE_TRANSLATIONS (toLowerCase s) = None ->
  toLowerCase s <> "constructor" ->
  toLowerCase s <> "__proto__" ->
  Mapper.translateValue (JStr s) = JStr s.
Proof.
  intros _ Hown Hc Hp. unfold Mapper.translateValue, js_get.
  now rewrite Hown, heredado_minusculas.
Qed.

Lemma translateValue_sin_traduccion_witness :
  Mapper.translateValue (JStr "Luke Skywalker") = JStr "Luke Skywalker".
Proof.
  apply translateValue_sin_traduccion; [reflexivity|reflexivity|discriminate|discriminate].
Defined.

(** What translateValue returns, it returns unchanged. *)
Lemma translateValue_traducido_fijo (v : JsValue) :
  Mapper.translateValue (Mapper.translateValue v) = Mapper.translateValue v.
Proof.
  destruct v; try reflexivity.
  remember (Mapper.translateValue (JStr s)) as r eqn:Hr.
  unfold Mapper.translateValue, js_get in Hr.
  destruct (own Mapper.VALUE_TRANSLATIONS (toLowerCase s)) as [t|] eqn:Hown.
  - apply own_VALUE_TRANSLATIONS in Hown. simpl in Hown.
    repeat (destruct Hown as [<-|Hown]; [subst r; reflexivity|]). destruct Hown.
  - destruct (heredado (toLowerCase s)) eqn:Hh; simpl in Hr; subst r;
      try reflexivity;
      try (unfold Mapper.translateValue, js_get; rewrite Hown, Hh; reflexivity).
    (* an inherited member is no number and no string *)
    all: exfalso; revert Hh; unfold heredado;
      repeat match goal with
      | |- context [if ?c then _ else _] => destruct c
      end; discriminate.
Qed.

(** X3: translateValue is idempotent: a translated value translates to
    itself. *)
Theorem translateValue_idempotente (v : JsValue) :
  Mapper.translateValue (Mapper.translateValue v) = Mapper.translateValue v.
Proof. exact (translateValue_traducido_fijo v). Qed.

(** X1: translateValue does not tell upper case from lower case: two
    strings with the same lower-cased form, when that form is a key of
    VALUE_TRANSLATIONS, are both translated to the value under that key. *)
Theorem translateValue_sin_distinguir_mayusculas (s s' : string) (t : JsValue) :
  toLowerCase s = toLowerCase s' ->
  own Mapper.VALUE_TRANSLATIONS (toLowerCase s) = Some t ->
  Mapper.translateValue (JStr s) = t /\ Mapper.translateValue (JStr s') = t.
Proof.
  intros Hl Hown. split.
  - exact (proj1 (translateValue_clave_conocida s t Hown)).
  - rewrite Hl in Hown. exact (proj1 (translateValue_clave_conocida s' t Hown)).
Qed.

Lemma translateValue_sin_distinguir_mayusculas_witness :
  Mapper.translateValue (JStr "Male") = JStr "masculino"
  /\ Mapper.translateValue (JStr "mALE") = JStr "masculino".
Proof.
  exact (translateValue_sin_distinguir_mayusculas "Male" "mALE" (JStr "masculino")
           eq_refl eq_refl).
Defined.

(** ** The translation of a record, twice *)

Section RegistroTraducido.
Import Mapper.

Lemma own_In {A} (o : list (string * A)) k v :
  own o k = Some v -> In (k, v) o.
Proof.
  induction o as [|[k0 v0] o IH]; simpl; [discriminate|].
  destruct (k0 =? k) eqn:E.
  - apply String.eqb_eq in E. intros H. inversion H. subst. now left.
  - auto.
Qed.

Lemma in_js_set (o : list (string * JsValue)) k v a b :
  In (a, b) (js_set o k v) -> In (a, b) o \/ (a = k /\ b = v).
Proof.
  induction o as [|[k0 v0] o IH]; simpl.
  - intros [H|[]]. inversion H. auto.
  - destruct (k0 =? k) eqn:E; simpl.
    + apply String.eqb_eq in E. subst k0.
      intros [H|H]; [inversion H; auto|auto].
    + intros [H|H]; [auto|]. destruct (IH H); auto.
Qed.

(** A translated field name translates to itself. *)
Lemma campoEspanol_fijo k :
  ToString (translateFieldName (ToString (translateFieldName k)))
  = ToString (translateFieldName k).
Proof.
  remember (translateFieldName k) as r eqn:Hr.
  unfold translateFieldName, js_get in Hr.
  destruct (own PERSONAJE_FIELD_MAP k) as [t|] eqn:Hown.
  - apply own_PERSONAJE_FIELD_MAP in Hown. simpl in Hown.
    repeat (destruct Hown as [<-|Hown]; [subst r; reflexivity|]). destruct Hown.
  - unfold heredado in Hr.
    destruct (k =? "__proto__") eqn:E1; [subst r; reflexivity|].
    destruct (k =? "constructor") eqn:E2; [subst r; reflexivity|].
    destruct (Array_includes Object_prototype_metodos k) eqn:E.
    + apply Array_includes_In in E. simpl in E.
      repeat (destruct E as [<-|E]; [subst r; reflexivity|]). destruct E.
    + cbn [truthy] in Hr. subst r. cbn [ToString].
      unfold translateFieldName, js_get, heredado. now rewrite Hown, E1, E2, E.
Qed.

Lemma translateValue_no_crea_array v l :
  translateValue v = JArr l -> v = JArr l.
Proof.
  destruct v; simpl; try discriminate; auto.
  unfold js_get.
  destruct (own VALUE_TRANSLATIONS (toLowerCase s)) as [t|] eqn:Hown.
  - apply own_VALUE_TRANSLATIONS in Hown. simpl in Hown.
    repeat (destruct Hown as [<-|Hown]; [discriminate|]). destruct Hown.
  - unfold heredado.
    repeat match goal with
    | |- context [if ?c then _ else _] => destruct c
    end; discriminate.
Qed.

Lemma valorTraducido_fijo x :
  (forall l, x <> JArr l) ->
  match translateValue x with
  | JArr l => JArr (map translateValue l)
  | v => translateValue v
  end = translateValue x.
Proof.
  intros Hx. destruct (translateValue x) eqn:E;
    try (rewrite <- E; apply translateValue_traducido_fijo).
  apply translateValue_no_crea_array in E. now destruct (Hx elementos).
Qed.

Lemma entradaTraducida_idempotente e :
  entradaTraducida (entradaTraducida e) = entradaTraducida e.
Proof.
  destruct e as [k v]. unfold entradaTraducida. cbn [fst snd].
  f_equal; [apply campoEspanol_fijo|].
  destruct v; try (apply valorTraducido_fijo; discriminate).
  (* an array: element by element *)
  f_equal. rewrite map_map. apply map_ext. intros a.
  apply translateValue_traducido_fijo.
Qed.

(** Every entry the loop has written is a translated entry, hence one that
    translates to itself. *)
Lemma fold_traducirCampo_fijas entradas : forall acc,
  (forall e, In e acc -> entradaTraducida e = e) ->
  forall e, In e (fold_left traducirCampo entradas acc) -> entradaTraducida e = e.
Proof.
  induction entradas as [|x xs IH]; intros acc Hacc e; simpl; [apply Hacc|].
  apply IH. intros [a b] Hin.
  rewrite traducirCampo_js_set in Hin.
  apply in_js_set in Hin as [Hin|[-> ->]]; [now apply Hacc|].
  rewrite <- surjective_pairing. apply entradaTraducida_idempotente.
Qed.

Lemma NoDup_fold_traducirCampo entradas : forall acc,
  NoDup (map fst acc) -> NoDup (map fst (fold_left traducirCampo entradas acc)).
Proof.
  induction entradas as [|x xs IH]; intros acc Hnd; simpl; [assumption|].
  apply IH. rewrite traducirCampo_js_set. now apply NoDup_js_set.
Qed.

Lemma map_fijas {A} (f : A -> A) l :
  (forall x, In x l -> f x = x) -> map f l = l.
Proof.
  induction l as [|a l IH]; simpl; intros H; [reflexivity|].
  rewrite H by now left. rewrite IH; auto.
Qed.

End RegistroTraducido.

(** X4: mapPersonajeToEspanol is idempotent: translating a translated record
    changes nothing, whatever the input (a record with colliding names, an
    array, a value that is no object). *)
Theorem mapPersonajeToEspanol_idempotente (v : JsValue) :
  Mapper.mapPersonajeToEspanol (Mapper.mapPersonajeToEspanol v)
  = Mapper.mapPersonajeToEspanol v.
Proof.
  remember (Mapper.mapPersonajeToEspanol v) as r eqn:Hr.
  unfold Mapper.mapPersonajeToEspanol in Hr.
  destruct (negb (truthy v) || negb (typeof v =? "object")); subst r; [reflexivity|].
  set (salida := fold_left Mapper.traducirCampo (Object_entries v) []).
  assert (Hfij : forall e, In e salida -> entradaTraducida e = e)
    by (apply fold_traducirCampo_fijas; intros e []).
  assert (Hnd : NoDup (map fst salida))
    by (apply NoDup_fold_traducirCampo; constructor).
  unfold Mapper.mapPersonajeToEspanol. cbn [truthy typeof negb orb Object_entries].
  change ("object" =? "object") with true. cbn [negb orb].
  f_equal.
  rewrite fold_traducirCampo_distintos.
  - cbn [app]. now apply map_fijas.
  - replace (map (fun e => fst (entradaTraducida e)) salida) with (map fst salida);
      [assumption|].
    apply map_ext_in. intros e He. now rewrite Hfij.
  - reflexivity.
Qed.

(** X6: a translated record holds no source-language field name: no key of
    the result is a key of PERSONAJE_FIELD_MAP, but for url, which the table
    maps to itself. *)
Theorem mapPersonajeToEspanol_sin_claves_de_origen (v : JsValue) (salida : list (string * JsValue)) (k : string) :
  Mapper.mapPersonajeToEspanol v = JObj salida ->
  In k (map fst salida) ->
  own Mapper.PERSONAJE_FIELD_MAP k = None \/ k = "url".
Proof.
  unfold Mapper.mapPersonajeToEspanol.
  destruct (negb (truthy v) || negb (typeof v =? "object")); [discriminate|].
  intros H Hin. injection H as <-.
  assert (Hfij : forall e, In e (fold_left Mapper.traducirCampo (Object_entries v) []) ->
                           entradaTraducida e = e)
    by (apply fold_traducirCampo_fijas; intros e []).
  apply in_map_iff in Hin as [[k' b] [<- Hin]].
  apply Hfij in Hin. unfold entradaTraducida in Hin. cbn [fst snd] in *.
  injection Hin as Hk _.
  destruct (own Mapper.PERSONAJE_FIELD_MAP k') as [t|] eqn:Hown; [|now left].
  right. revert Hk. unfold Mapper.translateFieldName, js_get. rewrite Hown.
  apply own_In in Hown. unfold Mapper.PERSONAJE_FIELD_MAP in Hown. simpl in Hown.
  repeat (destruct Hown as [Hown|Hown];
          [inversion Hown; subst; simpl; intros Hk; try discriminate Hk; reflexivity|]).
  destruct Hown.
Qed.

Lemma mapPersonajeToEspanol_sin_claves_de_origen_witness :
  own Mapper.PERSONAJE_FIELD_MAP "nombre" = None \/ "nombre" = "url".
Proof.
  apply (mapPersonajeToEspanol_sin_claves_de_origen
           (JObj [("name", JStr "Yoda"); ("url", JStr "https://host/api/people/20/")])
           [("nombre", JStr "Yoda"); ("url", JStr "https://host/api/people/20/")]
           "nombre" eq_refl).
  simpl. tauto.
Defined.

(** ** The translation of a list of records *)

Section ListaTraducida.
Import Mapper.

Lemma truthy_mapPersonajeToEspanol v :
  truthy (mapPersonajeToEspanol v) = es_objeto v.
Proof.
  unfold mapPersonajeToEspanol, es_objeto.
  destruct (truthy v); simpl; [|reflexivity].
  destruct (typeof v =? "object"); reflexivity.
Qed.

Lemma filter_map_comm {A B} (f : A -> B) (p : B -> bool) l :
  filter p (map f l) = map f (filter (fun x => p (f x)) l).
Proof.
  induction l as [|a l IH]; simpl; [reflexivity|].
  destruct (p (f a)); simpl; now rewrite IH.
Qed.

End ListaTraducida.

(** X5: mapPersonajesToEspanol gives, for an array, the translations of its
    elements that are non-null objects, in their order, and drops every
    other element, so the result holds no null and is no longer than the
    input; for a value that is no array it gives the empty array. *)
Theorem mapPersonajesToEspanol_filtra :
  (forall l,
      Mapper.mapPersonajesToEspanol (JArr l)
      = JArr (map Mapper.mapPersonajeToEspanol (filter es_objeto l))
      /\ (List.length (filter es_objeto l) <= List.length l)%nat
      /\ (forall x, In x (map Mapper.mapPersonajeToEspanol (filter es_objeto l)) ->
                    exists campos, x = JObj campos))
  /\ (forall v, Array_isArray v = false -> Mapper.mapPersonajesToEspanol v = JArr []).
Proof.
  split.
  - intros l. split; [|split].
    + unfold Mapper.mapPersonajesToEspanol. f_equal.
      rewrite filter_map_comm. f_equal. apply filter_ext.
      intros a. apply truthy_mapPersonajeToEspanol.
    + apply filter_length_le.
    + intros x Hin. apply in_map_iff in Hin as [v [<- Hv]].
      apply filter_In in Hv as [_ Hv]. unfold es_objeto in Hv.
      apply andb_prop in Hv as [Ht Ho]. apply String.eqb_eq in Ho.
      rewrite mapPersonaje_objeto by (split; assumption). eauto.
  - intros v Hv. destruct v; try reflexivity. discriminate.
Qed.

(** ** The create handler: what the type validation accepts *)

Section TiposCorrectos.
Import CrearEntidad.

Lemma filter_nil_si {A} (f : A -> bool) l :
  (forall x, In x l -> f x = false) -> filter f l = [].
Proof.
  induction l as [|a l IH]; simpl; intros H; [reflexivity|].
  rewrite H by now left. apply IH. auto.
Qed.

Lemma In_Array_includes l x : In x l -> Array_includes l x = true.
Proof.
  intros H. unfold Array_includes. apply existsb_exists. exists x.
  split; [assumption|apply String.eqb_refl].
Qed.

(** On a value that is undefined or a string, the numeric test needs no
    coercion of an object. *)
Lemma presente_y_no_numerico_string w v :
  v = JUndefined \/ (exists s, v = JStr s) ->
  presente_y_no_numerico w v
  = Ok (match v with JStr s => negb (s =? "") && isNaN_string s | _ => false end).
Proof.
  intros [-> | [s ->]]; [reflexivity|].
  unfold presente_y_no_numerico. simpl. destruct (s =? ""); reflexivity.
Qed.

Lemma tipos_validos_inv w personaje :
  validarTiposDeDatos w personaje = Ok TiposValidos -> tipos_correctos personaje.
Proof.
  unfold validarTiposDeDatos.
  set (F1 := filter _ camposString). set (F2 := filter _ camposArray).
  intros H.
  assert (H1 : F1 = [] /\ F2 = []
               /\ presente_y_no_numerico w (propiedad personaje "altura") = Ok false
               /\ presente_y_no_numerico w (propiedad personaje "masa") = Ok false
               /\ (truthy (propiedad personaje "genero") = true ->
                   exists g, propiedad personaje "genero" = JStr g
                             /\ Array_includes generosValidos (toLowerCase g) = true)).
  { destruct (presente_y_no_numerico w (propiedad personaje "altura")) as [a|];
      cbn [exc_bind] in H; [|discriminate].
    destruct (presente_y_no_numerico w (propiedad personaje "masa")) as [m|];
      cbn [exc_bind] in H; [|discriminate].
    destruct (truthy (propiedad personaje "genero")) eqn:Hg.
    - destruct (propiedad personaje "genero") as [| | | | | |g| | | |] eqn:Hp;
        cbn [llamar_toLowerCase exc_bind] in H; try discriminate.
      destruct (Array_includes generosValidos (toLowerCase g)) eqn:Hin; cbn [negb] in H.
      + rewrite app_nil_r in H.
        destruct (map mensaje_string F1 ++ map mensaje_array F2 ++
                  (if a then [mensaje_numerico "altura"] else []) ++
                  (if m then [mensaje_numerico "masa"] else []))%list eqn:Happ;
          [|discriminate].
        apply app_eq_nil in Happ as [E1 Happ]. apply app_eq_nil in Happ as [E2 Happ].
        apply app_eq_nil in Happ as [E3 E4].
        apply map_eq_nil in E1, E2.
        destruct a; [discriminate|]. destruct m; [discriminate|].
        repeat split; eauto.
      + exfalso. revert H.
        destruct (map mensaje_string F1); [|discriminate].
        destruct (map mensaje_array F2); [|discriminate].
        destruct a, m; discriminate.
    - cbn [exc_bind] in H. rewrite app_nil_r in H.
      destruct (map mensaje_string F1 ++ map mensaje_array F2 ++
                (if a then [mensaje_numerico "altura"] else []) ++
                (if m then [mensaje_numerico "masa"] else []))%list eqn:Happ;
        [|discriminate].
      apply app_eq_nil in Happ as [E1 Happ]. apply app_eq_nil in Happ as [E2 Happ].
      apply app_eq_nil in Happ as [E3 E4].
      apply map_eq_nil in E1, E2.
      destruct a; [discriminate|]. destruct m; [discriminate|].
      repeat split; auto. discriminate. }
  destruct H1 as [E1 [E2 [Ha [Hm Hg]]]]. subst F1 F2.
  assert (Hs : forall campo, In campo camposString ->
                 propiedad personaje campo = JUndefined
                 \/ exists s, propiedad personaje campo = JStr s).
  { intros campo Hin. apply (filter_nil_forall _ _ campo) in E1; [|assumption].
    cbv beta in E1. destruct (propiedad personaje campo); simpl in E1;
      try discriminate; eauto. }
  split; [exact Hs|]. split; [|split; [|split]].
  - intros campo Hin. apply (filter_nil_forall _ _ campo) in E2; [|assumption].
    cbv beta in E2. destruct (propiedad personaje campo); simpl in E2;
      try discriminate; eauto.
  - intros s Hp. rewrite Hp in Ha. unfold presente_y_no_numerico in Ha. simpl in Ha.
    destruct (s =? "") eqn:E; [apply String.eqb_eq in E; now left|].
    simpl in Ha. inversion Ha. now right.
  - intros s Hp. rewrite Hp in Hm. unfold presente_y_no_numerico in Hm. simpl in Hm.
    destruct (s =? "") eqn:E; [apply String.eqb_eq in E; now left|].
    simpl in Hm. inversion Hm. now right.
  - intros s Hp. rewrite Hp in Hg. simpl in Hg.
    destruct (s =? "") eqn:E; [apply String.eqb_eq in E; now left|].
    destruct (Hg eq_refl) as [g [Hgs Hin]]. inversion Hgs. subst g.
    right. now apply Array_includes_In.
Qed.

Lemma tipos_correctos_validos w personaje :
  tipos_correctos personaje -> validarTiposDeDatos w personaje = Ok TiposValidos.
Proof.
  intros [Hs [Harr [Ha [Hm Hg]]]]. unfold validarTiposDeDatos.
  rewrite (filter_nil_si _ camposString), (filter_nil_si _ camposArray).
  - rewrite (presente_y_no_numerico_string w (propiedad personaje "altura"))
      by (apply Hs; simpl; tauto).
    rewrite (presente_y_no_numerico_string w (propiedad personaje "masa"))
      by (apply Hs; simpl; tauto).
    cbn [exc_bind map app].
    assert (Ea : match propiedad personaje "altura" with
                 | JStr s => negb (s =? "") && isNaN_string s
                 | _ => false
                 end = false).
    { destruct (propiedad personaje "altura") eqn:E; try reflexivity.
      destruct (Ha s eq_refl) as [-> | ->]; [reflexivity|apply andb_false_r]. }
    assert (Em : match propiedad personaje "masa" with
                 | JStr s => negb (s =? "") && isNaN_string s
                 | _ => false
                 end = false).
    { destruct (propiedad personaje "masa") eqn:E; try reflexivity.
      destruct (Hm s eq_refl) as [-> | ->]; [reflexivity|apply andb_false_r]. }
    rewrite Ea, Em. cbn [app].
    destruct (Hs "genero" ltac:(simpl; tauto)) as [E | [s E]]; rewrite E.
    + reflexivity.
    + cbn [truthy]. destruct (s =? "") eqn:Es; [reflexivity|].
      destruct (Hg s E) as [-> | Hin]; [discriminate|].
      cbn [negb llamar_toLowerCase exc_bind].
      rewrite (In_Array_includes _ _ Hin). reflexivity.
  - intros campo Hin. destruct (Harr campo Hin) as [-> | [l ->]]; reflexivity.
  - intros campo Hin. destruct (Hs campo Hin) as [-> | [s ->]]; reflexivity.
Qed.

End TiposCorrectos.

(** X7: on a record (a value that is an object and not null),
    validarTiposDeDatos returns { valido: true } exactly when each string
    field is undefined or a string, each array field is undefined or an
    array, altura and masa, when strings, are empty or numeric, and genero,
    when a string, is empty or, lower-cased, one of the five genders. *)
Theorem validarTiposDeDatos_acepta (w : Mundo) (personaje : JsValue) :
  objeto_no_nulo personaje ->
  (CrearEntidad.validarTiposDeDatos w personaje = Ok CrearEntidad.TiposValidos
   <-> tipos_correctos personaje).
Proof.
  intros _. split; [apply tipos_validos_inv|apply tipos_correctos_validos].
Qed.

Lemma validarTiposDeDatos_acepta_witness :
  tipos_correctos cuerpo_leia.
Proof.
  destruct (validarTiposDeDatos_acepta (mundo_ejemplo JNull []) cuerpo_leia) as [H _].
  - split; reflexivity.
  - apply H. reflexivity.
Defined.

(** ** The create handler: what the sanitation stores *)

Section Saneado.
Import CrearEntidad.

(** The trimming loop, on a record with distinct names: each string is
    trimmed where it stands. *)
Lemma own_none_no_clave {A} (o : list (string * A)) k :
  ~ In k (map fst o) -> own o k = None.
Proof.
  induction o as [|[k' v'] o IH]; simpl; auto.
  intros H. destruct (k' =? k) eqn:E.
  - apply String.eqb_eq in E. tauto.
  - apply IH. tauto.
Qed.

Lemma own_fold_recortar_NoDup entradas : forall acc k,
  NoDup (map fst entradas) ->
  own (fold_left recortar entradas acc) k
  = match own entradas k with
    | Some (JStr s) => Some (JStr (trim s))
    | _ => own acc k
    end.
Proof.
  induction entradas as [|[k0 v0] es IH]; intros acc k Hnd; [reflexivity|].
  inversion Hnd as [|? ? Hnotin Hnd']; subst.
  cbn [fold_left own]. rewrite IH by assumption.
  destruct (k0 =? k) eqn:E.
  - apply String.eqb_eq in E. subst k0.
    rewrite (own_none_no_clave es k Hnotin).
    unfold recortar. cbn [fst snd].
    destruct v0; try reflexivity. apply own_js_set_same.
  - assert (Hr : own (recortar acc (k0, v0)) k = own acc k).
    { unfold recortar. cbn [fst snd]. destruct v0; try reflexivity.
      apply own_js_set_other. intros ->. now rewrite String.eqb_refl in E. }
    rewrite Hr. reflexivity.
Qed.

Lemma own_recortado campos k :
  NoDup (map fst campos) ->
  own (fold_left recortar campos campos) k = option_map recortado (own campos k).
Proof.
  intros Hnd. rewrite own_fold_recortar_NoDup by assumption.
  destruct (own campos k) as [v|]; [|reflexivity]. destruct v; reflexivity.
Qed.

(** The loop over the array fields: a field named in [campos] that is falsy
    becomes the empty array, and nothing else changes. *)
Lemma own_fold_asegurarArray campos : forall acc k,
  own (fold_left asegurarArray campos acc) k
  = if Array_includes campos k && negb (truthy (js_get acc k))
    then Some (JArr [])
    else own acc k.
Proof.
  induction campos as [|c cs IH]; intros acc k; [reflexivity|].
  cbn [fold_left]. rewrite IH. unfold Array_includes. cbn [existsb].
  fold (Array_includes cs k).
  unfold asegurarArray.
  destruct (k =? c) eqn:E.
  - apply String.eqb_eq in E. subst c. cbn [orb].
    destruct (truthy (js_get acc k)) eqn:Ht; cbn [negb andb].
    + rewrite Ht, andb_false_r. reflexivity.
    + unfold js_get at 1. rewrite own_js_set_same. cbn [truthy negb].
      rewrite andb_false_r. rewrite ?own_js_set_same. reflexivity.
  - cbn [orb].
    assert (Hne : k <> c) by (now apply String.eqb_neq).
    destruct (negb (truthy (js_get acc c))); [|reflexivity].
    unfold js_get. rewrite own_js_set_other by assumption. reflexivity.
Qed.

(** White space is no part of a string of ASCII characters that are none. *)
Lemma trim_sin_espacios s : todos sin_espacio_ascii s = true -> trim s = s.
Proof.
  intros H.
  assert (Hstart : forall r, todos sin_espacio_ascii r = true -> trimStart r = r).
  { intros [|c r] Hr; [reflexivity|].
    cbn [todos] in Hr. apply andb_prop in Hr as [Hc _].
    unfold sin_espacio_ascii in Hc. apply andb_prop in Hc as [Hlt Hws].
    apply trimStart_no_espacio; [now apply negb_true_iff in Hws|assumption]. }
  unfold trim. rewrite Hstart by assumption.
  induction s as [|c r IH]; [reflexivity|].
  cbn [trimEnd]. unfold solo_espacios. rewrite Hstart by assumption.
  cbn [String.eqb]. cbn [todos] in H. apply andb_prop in H as [_ Hr].
  now rewrite IH.
Qed.

Lemma sin_espacio_lower c :
  sin_espacio_ascii (lower_ascii c) = true -> sin_espacio_ascii c = true.
Proof. destruct c as [[] [] [] [] [] [] [] []]; vm_compute; auto. Qed.

Lemma todos_sin_espacio_lower s :
  todos sin_espacio_ascii (toLowerCase s) = true -> todos sin_espacio_ascii s = true.
Proof.
  induction s as [|c r IH]; [reflexivity|].
  cbn [toLowerCase todos]. intros H. apply andb_prop in H as [Hc Hr].
  rewrite (sin_espacio_lower c Hc). now apply IH.
Qed.

(** An accepted gender has no white space around it. *)
Lemma trim_genero_valido s :
  In (toLowerCase s) generosValidos -> trim s = s.
Proof.
  intros H. apply trim_sin_espacios, todos_sin_espacio_lower.
  simpl in H.
  repeat (destruct H as [<-|H]; [reflexivity|]). destruct H.
Qed.

(** The handler, once the three validations have passed: the sanitation
    returns and the only call is the write of the final record. *)
Lemma crear_almacena w event datos t :
  validarCuerpoRequest w (cuerpo event) = CuerpoValido datos ->
  validarCamposObligatorios datos = Completo ->
  validarTiposDeDatos w datos = Ok TiposValidos ->
  PERSONAJES_TABLE w = Some t -> t <> "" ->
  exists sanitizado,
    sanitizarPersonaje datos = Ok sanitizado
    /\ handler w event
       = try_catch
           (bind (llamar (DynamoPut t (JObj (registro_final w sanitizado)))
                    (dynamo_put w t (JObj (registro_final w sanitizado))))
              (fun _ => ret (buildResponse 201
                               (JObj [ ("exito", JBool true);
                                       ("mensaje", JStr "Personaje creado exitosamente");
                                       ("datos", JObj (registro_final w sanitizado)) ]))))
           (fun error =>
              try_catch
                (throw (if match code error with
                           | Some c => c =? "ConditionalCheckFailedException"
                           | None => false
                           end
                        then Error ("Ya existe un personaje con el ID "
                                    ++ ToString (propiedad (JObj (registro_final w sanitizado)) "id"))
                        else Error ("Error al guardar en DynamoDB: " ++ message error)))
                (fun error =>
                   if negb (message error =? "") && includes (message error) "Ya existe"
                   then ret (buildResponse 409 (JObj [ ("error", JStr "Conflict");
                                                       ("mensaje", JStr (message error)) ]))
                   else ret (buildResponse 500
                               (JObj [ ("error", JStr "Internal Server Error");
                                       ("mensaje", JStr "Ocurrió un error al crear el personaje");
                                       ("detalles", detalles_de w error "Error interno del servidor") ])))).
Proof.
  intros Hc Ho Hv Ht Hne.
  destruct (cuerpo_valido_objeto w _ _ Hc) as [Htr [Hty Ha]].
  destruct (sanitizar_no_lanza w datos Htr Hty Ha Hv) as [sanitizado Hs].
  exists sanitizado. split; [assumption|].
  unfold handler. rewrite Hc, Ho, Hv. cbn [lift bind]. rewrite Hs. cbn [app].
  unfold DynamoDBService.guardarPersonaje, DynamoDBService.tabla_configurada,
    DynamoDBService.TABLA_PERSONAJES.
  rewrite Ht. apply String.eqb_neq in Hne. rewrite Hne.
  fold (registro_final w sanitizado).
  unfold llamar, bind, ret, try_catch, throw.
  destruct (dynamo_put w t (JObj (registro_final w sanitizado))) as [u|e]; [reflexivity|].
  destruct (code e) as [cd|]; [destruct (cd =? "ConditionalCheckFailedException")|];
    cbn [app]; repeat match goal with
                      | |- context [if ?b then _ else _] => destruct b
                      end; reflexivity.
Qed.

Lemma toLowerCase_vacio s : s = "" -> toLowerCase s = s.
Proof. now intros ->. Qed.

(** After the trimming and the normalisation of the gender. *)
Lemma own_normalizado campos k :
  NoDup (map fst campos) ->
  (js_get campos "genero" = JUndefined \/ exists g, js_get campos "genero" = JStr g) ->
  exists normalizado,
    (if truthy (js_get (fold_left recortar campos campos) "genero")
     then
       g <-- llamar_toLowerCase "personajeSanitizado.genero"
               (js_get (fold_left recortar campos campos) "genero") ;;
       Ok (js_set (fold_left recortar campos campos) "genero" (JStr g))
     else Ok (fold_left recortar campos campos)) = Ok normalizado
    /\ own normalizado k = option_map (saneado k) (own campos k).
Proof.
  intros Hnd Hg.
  assert (Hr : forall k', own (fold_left recortar campos campos) k'
                          = option_map recortado (own campos k'))
    by (intros k'; now apply own_recortado).
  assert (Hquedan : own (fold_left recortar campos campos) k
                    = option_map (saneado k) (own campos k)
                    \/ (k = "genero" /\ exists g, own campos k = Some (JStr g))).
  { rewrite Hr. destruct (own campos k) as [v|] eqn:Ek; [|now left].
    destruct v; try (now left).
    destruct (k =? "genero") eqn:E.
    - right. apply String.eqb_eq in E. eauto.
    - left. cbn [option_map recortado saneado]. now rewrite E. }
  unfold js_get in *. rewrite (Hr "genero").
  destruct (own campos "genero") as [v|] eqn:Eg.
  - destruct Hg as [->|[g ->]].
    + cbn [option_map recortado truthy]. eexists. split; [reflexivity|].
      destruct Hquedan as [H|[-> [g Hk]]]; [exact H|congruence].
    + cbn [option_map recortado truthy].
      destruct (negb (trim g =? "")) eqn:Et.
      * cbn [llamar_toLowerCase exc_bind]. eexists. split; [reflexivity|].
        destruct (String.eqb_spec k "genero") as [->|Hne].
        -- rewrite own_js_set_same, Eg. reflexivity.
        -- rewrite own_js_set_other by assumption.
           destruct Hquedan as [H|[-> _]]; [exact H|congruence].
      * eexists. split; [reflexivity|].
        destruct Hquedan as [H|[-> [g' Hk]]]; [exact H|].
        rewrite Hr, Eg. cbn [option_map recortado saneado]. rewrite String.eqb_refl.
        apply negb_false_iff, String.eqb_eq in Et. now rewrite Et.
  - cbn [option_map]. change (heredado "genero") with JUndefined.
    cbn [truthy]. eexists. split; [reflexivity|].
    destruct Hquedan as [H|[-> [g Hk]]]; [exact H|congruence].
Qed.

Lemma heredado_campoArray k : In k camposArray -> heredado k = JUndefined.
Proof.
  intros H. simpl in H.
  repeat (destruct H as [<-|H]; [reflexivity|]). destruct H.
Qed.

Lemma campoArray_no_genero k : In k camposArray -> (k =? "genero") = false.
Proof.
  intros H. simpl in H.
  repeat (destruct H as [<-|H]; [reflexivity|]). destruct H.
Qed.

(** The sanitation of a record that has passed the validation of types,
    name by name. *)
Lemma own_sanitizado w datos sanitizado k :
  truthy datos = true -> typeof datos = "object" -> Array_isArray datos = false ->
  validarTiposDeDatos w datos = Ok TiposValidos ->
  NoDup (map fst (Object_entries datos)) ->
  sanitizarPersonaje datos = Ok sanitizado ->
  own sanitizado k
  = if Array_includes camposArray k
    then Some (array_o_vacio (propiedad datos k))
    else option_map (saneado k) (own (Object_entries datos) k).
Proof.
  intros Ht Hty Ha Hv Hnd Hs.
  pose proof (tipos_validos_inv w datos Hv) as [_ [Harr _]].
  pose proof (tipos_validos_genero w datos Hv) as Hg.
  assert (Hp : forall k', propiedad datos k' = js_get (Object_entries datos) k')
    by (intros k'; now apply propiedad_entries).
  rewrite Hp in Hg.
  destruct (own_normalizado (Object_entries datos) k Hnd Hg) as [normalizado [Hn Hk]].
  unfold sanitizarPersonaje in Hs. cbv zeta in Hs. rewrite Hn in Hs.
  cbn [exc_bind] in Hs. injection Hs as <-.
  change (own (fold_left asegurarArray camposArray normalizado) k
          = if Array_includes camposArray k
            then Some (array_o_vacio (propiedad datos k))
            else option_map (saneado k) (own (Object_entries datos) k)).
  rewrite own_fold_asegurarArray.
  destruct (Array_includes camposArray k) eqn:Ei; cbn [andb]; [|exact Hk].
  apply Array_includes_In in Ei.
  specialize (Harr k Ei). rewrite Hp in Harr. rewrite Hp.
  unfold js_get in *. rewrite Hk.
  rewrite (heredado_campoArray k Ei) in *.
  destruct (own (Object_entries datos) k) as [v|].
  - destruct Harr as [->|[l ->]]; reflexivity.
  - reflexivity.
Qed.

End Saneado.

Section RegistroAlmacenado.
Import CrearEntidad.

Lemma own_registro_final w sanitizado k :
  ~ In k camposDelServidor ->
  own (registro_final w sanitizado) k = own sanitizado k.
Proof.
  intros H. unfold registro_final.
  rewrite !own_js_set_other; [reflexivity| | |];
    intros ->; apply H; simpl; tauto.
Qed.

Lemma own_registro_final_id w sanitizado :
  own (registro_final w sanitizado) "id" = Some (JStr (uuidv4 w)).
Proof.
  unfold registro_final.
  rewrite !own_js_set_other by discriminate. apply own_js_set_same.
Qed.

(** The record written, name by name, whenever the three validations pass. *)
Lemma registro_almacenado w event datos t :
  validarCuerpoRequest w (cuerpo event) = CuerpoValido datos ->
  validarCamposObligatorios datos = Completo ->
  validarTiposDeDatos w datos = Ok TiposValidos ->
  NoDup (map fst (Object_entries datos)) ->
  PERSONAJES_TABLE w = Some t -> t <> "" ->
  exists registro,
    fst (handler w event) = [DynamoPut t (JObj registro)]
    /\ forall k, ~ In k camposDelServidor ->
         own registro k
         = if Array_includes camposArray k
           then Some (array_o_vacio (propiedad datos k))
           else option_map (saneado k) (own (Object_entries datos) k).
Proof.
  intros Hc Ho Hv Hnd Ht Hne.
  destruct (crear_almacena w event datos t Hc Ho Hv Ht Hne) as [sanitizado [Hs Hh]].
  destruct (cuerpo_valido_objeto w _ _ Hc) as [Htr [Hty Ha]].
  exists (registro_final w sanitizado). split.
  - rewrite Hh. unfold llamar, bind, ret, try_catch, throw.
    destruct (dynamo_put w t _) as [u|e]; [reflexivity|].
    repeat match goal with
           | |- context [if ?b then _ else _] => destruct b
           end; reflexivity.
  - intros k Hk. rewrite own_registro_final by assumption.
    now apply (own_sanitizado w datos).
Qed.

Lemma falta_nombre_inv datos :
  validarCamposObligatorios datos = Completo ->
  exists s, propiedad datos "nombre" = JStr s /\ trim s <> "".
Proof.
  unfold validarCamposObligatorios, camposObligatorios. cbn [filter].
  destruct (falta datos "nombre") eqn:E; [discriminate|]. intros _.
  unfold falta in E. cbv zeta in E.
  apply orb_false_elim in E as [E E3]. apply orb_false_elim in E as [_ E2].
  destruct (propiedad datos "nombre") as [| |b| |n|d|s|l|c|f|];
    try (vm_compute in E2; discriminate E2).
  exists s. split; [reflexivity|]. now apply String.eqb_neq.
Qed.

End RegistroAlmacenado.

(** X27: on a record (a value that is an object and not null),
    validarCamposObligatorios accepts exactly when nombre is a string that
    is not blank; otherwise it reports nombre, and only nombre, as
    missing. *)
Theorem validarCamposObligatorios_nombre (datos : JsValue) :
  objeto_no_nulo datos ->
  (CrearEntidad.validarCamposObligatorios datos = CrearEntidad.Completo
   <-> exists s, propiedad datos "nombre" = JStr s /\ trim s <> "")
  /\ (CrearEntidad.validarCamposObligatorios datos <> CrearEntidad.Completo ->
      CrearEntidad.validarCamposObligatorios datos
      = CrearEntidad.Faltan "Faltan campos obligatorios o están vacíos" ["nombre"]).
Proof.
  intros _. split; [split|].
  - apply falta_nombre_inv.
  - intros [s [Hs Hne]].
    unfold CrearEntidad.validarCamposObligatorios, CrearEntidad.camposObligatorios.
    cbn [filter]. unfold CrearEntidad.falta. cbv zeta. rewrite Hs.
    apply String.eqb_neq in Hne. rewrite Hne.
    destruct s as [|c r]; [discriminate Hne|]. reflexivity.
  - unfold CrearEntidad.validarCamposObligatorios, CrearEntidad.camposObligatorios.
    cbn [filter].
    destruct (CrearEntidad.falta datos "nombre"); [reflexivity|].
    intros H. now elim H.
Qed.

Lemma validarCamposObligatorios_nombre_witness :
  CrearEntidad.validarCamposObligatorios (JObj [("nombre", JStr "   "); ("altura", JStr "172")])
  = CrearEntidad.Faltan "Faltan campos obligatorios o están vacíos" ["nombre"].
Proof.
  destruct (validarCamposObligatorios_nombre
              (JObj [("nombre", JStr "   "); ("altura", JStr "172")])) as [_ H].
  - split; reflexivity.
  - apply H. discriminate.
Defined.

(** X8: when the body passes the three validations of the create handler and
    the table is configured, the handler writes exactly one record, and this
    is what the record holds under every name but id, creado and
    actualizado: under each of the four array fields, the array of the body,
    or the empty array when the body has none; under any other name, known
    or not, what the body has under it, a string trimmed (and the gender
    lower-cased), anything else untouched; and nothing under a name the body
    lacks. *)
Theorem crear_registro_almacenado (w : Mundo) (event : Evento) (datos : JsValue) (t : string) :
  CrearEntidad.validarCuerpoRequest w (cuerpo event) = CrearEntidad.CuerpoValido datos ->
  CrearEntidad.validarCamposObligatorios datos = CrearEntidad.Completo ->
  CrearEntidad.validarTiposDeDatos w datos = Ok CrearEntidad.TiposValidos ->
  NoDup (map fst (Object_entries datos)) ->
  PERSONAJES_TABLE w = Some t -> t <> "" ->
  exists registro,
    fst (CrearEntidad.handler w event) = [DynamoPut t (JObj registro)]
    /\ (forall k, In k CrearEntidad.camposArray ->
          own registro k = Some (array_o_vacio (propiedad datos k)))
    /\ (forall k, ~ In k CrearEntidad.camposArray -> ~ In k camposDelServidor ->
          own registro k = option_map (saneado k) (own (Object_entries datos) k)).
Proof.
  intros Hc Ho Hv Hnd Ht Hne.
  destruct (registro_almacenado w event datos t Hc Ho Hv Hnd Ht Hne) as [registro [H1 H2]].
  exists registro. split; [exact H1|split].
  - intros k Hk. rewrite H2.
    + now rewrite (In_Array_includes _ _ Hk).
    + intros Hs. simpl in Hk, Hs.
      repeat (destruct Hk as [<-|Hk]; [intuition discriminate|]). destruct Hk.
  - intros k Hk Hs. rewrite H2 by assumption.
    destruct (Array_includes CrearEntidad.camposArray k) eqn:E; [|reflexivity].
    apply Array_includes_In in E. contradiction.
Qed.

Lemma crear_registro_almacenado_witness :
  exists registro,
    fst (CrearEntidad.handler (mundo_ejemplo cuerpo_leia []) (evento_con_cuerpo texto_leia))
    = [DynamoPut "personajes-dev" (JObj registro)]
    /\ own registro "peliculas" = Some (JArr [JStr "A New Hope"])
    /\ own registro "naves_espaciales" = Some (JArr [])
    /\ own registro "apodo" = Some (JStr "princesa")
    /\ own registro "edad" = Some (JNum 19).
Proof.
  destruct (crear_registro_almacenado (mundo_ejemplo cuerpo_leia [])
              (evento_con_cuerpo texto_leia) cuerpo_leia "personajes-dev"
              eq_refl eq_refl eq_refl
              ltac:(simpl; repeat constructor; simpl; intuition discriminate)
              eq_refl ltac:(discriminate))
    as [registro [H1 [H2 H3]]].
  exists registro. split; [exact H1|].
  split; [exact (H2 "peliculas" ltac:(simpl; tauto))|].
  split; [exact (H2 "naves_espaciales" ltac:(simpl; tauto))|].
  split.
  - exact (H3 "apodo" ltac:(simpl; intuition discriminate)
              ltac:(simpl; intuition discriminate)).
  - exact (H3 "edad" ltac:(simpl; intuition discriminate)
              ltac:(simpl; intuition discriminate)).
Defined.

(** X9: the gender the create handler stores is normalised: whenever the
    record written holds a string under genero, it is the lower-cased gender
    of the body, and it is empty or one of masculino, femenino,
    hermafrodita, n/a, desconocido. *)
Theorem crear_genero_almacenado (w : Mundo) (event : Evento) (datos : JsValue) (t : string) :
  CrearEntidad.validarCuerpoRequest w (cuerpo event) = CrearEntidad.CuerpoValido datos ->
  CrearEntidad.validarCamposObligatorios datos = CrearEntidad.Completo ->
  CrearEntidad.validarTiposDeDatos w datos = Ok CrearEntidad.TiposValidos ->
  NoDup (map fst (Object_entries datos)) ->
  PERSONAJES_TABLE w = Some t -> t <> "" ->
  exists registro,
    fst (CrearEntidad.handler w event) = [DynamoPut t (JObj registro)]
    /\ (forall g, propiedad datos "genero" = JStr g ->
          own registro "genero" = Some (JStr (toLowerCase g)))
    /\ (forall g, own registro "genero" = Some (JStr g) ->
          g = "" \/ In g CrearEntidad.generosValidos).
Proof.
  intros Hc Ho Hv Hnd Ht Hne.
  destruct (registro_almacenado w event datos t Hc Ho Hv Hnd Ht Hne) as [registro [H1 H2]].
  destruct (cuerpo_valido_objeto w _ _ Hc) as [Htr [Hty Ha]].
  pose proof (tipos_validos_inv w datos Hv) as [_ [_ [_ [_ Hgen]]]].
  assert (Hg : own registro "genero"
               = option_map (saneado "genero") (own (Object_entries datos) "genero"))
    by (apply (H2 "genero"); simpl; intuition discriminate).
  assert (Hval : forall s, propiedad datos "genero" = JStr s -> trim s = s).
  { intros s Hs. destruct (Hgen s Hs) as [->|Hin]; [reflexivity|].
    now apply trim_genero_valido. }
  exists registro. split; [exact H1|]. rewrite Hg.
  rewrite (propiedad_entries datos "genero" Htr Hty Ha) in *.
  unfold js_get in *.
  destruct (own (Object_entries datos) "genero") as [v|]; cbn [option_map].
  - split.
    + intros g ->. cbn. now rewrite (Hval g eq_refl).
    + intros g Hs. destruct v; try discriminate. cbn in Hs. injection Hs as <-.
      rewrite (Hval s eq_refl).
      destruct (Hgen s eq_refl) as [->|Hin]; [now left|now right].
  - split; [|discriminate]. intros g Hs. discriminate Hs.
Qed.

Lemma crear_genero_almacenado_witness :
  exists registro,
    fst (CrearEntidad.handler (mundo_ejemplo cuerpo_leia []) (evento_con_cuerpo texto_leia))
    = [DynamoPut "personajes-dev" (JObj registro)]
    /\ own registro "genero" = Some (JStr "femenino").
Proof.
  destruct (crear_genero_almacenado (mundo_ejemplo cuerpo_leia [])
              (evento_con_cuerpo texto_leia) cuerpo_leia "personajes-dev"
              eq_refl eq_refl eq_refl
              ltac:(simpl; repeat constructor; simpl; intuition discriminate)
              eq_refl ltac:(discriminate))
    as [registro [H1 [H2 _]]].
  exists registro. split; [exact H1|]. exact (H2 "FEMENINO" eq_refl).
Defined.

(** X10: the name the create handler stores is the name of the body trimmed,
    and it is never empty. *)
Theorem crear_nombre_almacenado (w : Mundo) (event : Evento) (datos : JsValue) (t : string) :
  CrearEntidad.validarCuerpoRequest w (cuerpo event) = CrearEntidad.CuerpoValido datos ->
  CrearEntidad.validarCamposObligatorios datos = CrearEntidad.Completo ->
  CrearEntidad.validarTiposDeDatos w datos = Ok CrearEntidad.TiposValidos ->
  NoDup (map fst (Object_entries datos)) ->
  PERSONAJES_TABLE w = Some t -> t <> "" ->
  exists registro nombre,
    fst (CrearEntidad.handler w event) = [DynamoPut t (JObj registro)]
    /\ propiedad datos "nombre" = JStr nombre
    /\ own registro "nombre" = Some (JStr (trim nombre))
    /\ trim nombre <> "".
Proof.
  intros Hc Ho Hv Hnd Ht Hne.
  destruct (registro_almacenado w event datos t Hc Ho Hv Hnd Ht Hne) as [registro [H1 H2]].
  destruct (cuerpo_valido_objeto w _ _ Hc) as [Htr [Hty Ha]].
  destruct (falta_nombre_inv datos Ho) as [s [Hs Hne']].
  exists registro, s. repeat split; try assumption.
  rewrite (H2 "nombre") by (simpl; intuition discriminate).
  cbn [Array_includes existsb String.eqb Ascii.eqb Bool.eqb orb].
  rewrite (propiedad_entries datos "nombre" Htr Hty Ha) in Hs.
  unfold js_get in Hs.
  destruct (own (Object_entries datos) "nombre") as [v|]; [|discriminate Hs].
  subst v. reflexivity.
Qed.

Lemma crear_nombre_almacenado_witness :
  exists registro,
    fst (CrearEntidad.handler (mundo_ejemplo cuerpo_leia []) (evento_con_cuerpo texto_leia))
    = [DynamoPut "personajes-dev" (JObj registro)]
    /\ own registro "nombre" = Some (JStr "Leia Organa").
Proof.
  destruct (crear_nombre_almacenado (mundo_ejemplo cuerpo_leia [])
              (evento_con_cuerpo texto_leia) cuerpo_leia "personajes-dev"
              eq_refl eq_refl eq_refl
              ltac:(simpl; repeat constructor; simpl; intuition discriminate)
              eq_refl ltac:(discriminate))
    as [registro [nombre [H1 [H2 [H3 _]]]]].
  exists registro. split; [exact H1|].
  injection H2 as <-. exact H3.
Defined.

(** ** The create handler: when the write fails *)

Section ErroresAlGuardar.
Import CrearEntidad.

Lemma includes_error_guardar m :
  includes ("Error al guardar en DynamoDB: " ++ m) "Ya existe" = includes m "Ya existe".
Proof. reflexivity. Qed.

Lemma includes_ya_existe m :
  includes ("Ya existe un personaje con el ID " ++ m) "Ya existe" = true.
Proof. reflexivity. Qed.

Lemma no_vacio_error_guardar m : ("Error al guardar en DynamoDB: " ++ m =? "") = false.
Proof. reflexivity. Qed.

Lemma includes_no_configurada :
  includes "Error al guardar en DynamoDB: La variable de entorno PERSONAJES_TABLE no está configurada"
           "Ya existe" = false.
Proof. reflexivity. Qed.

End ErroresAlGuardar.

(** X11: when the body passes the three validations and the write fails with
    an error [e], the create handler answers 409 Conflict if the error is a
    ConditionalCheckFailedException, with a message that names the new UUID;
    409 as well if the message of the error happens to contain the words
    Ya existe; and 500 Internal Server Error in every other case. *)
Theorem crear_error_al_guardar (w : Mundo) (event : Evento) (datos : JsValue) (t : string) :
  CrearEntidad.validarCuerpoRequest w (cuerpo event) = CrearEntidad.CuerpoValido datos ->
  CrearEntidad.validarCamposObligatorios datos = CrearEntidad.Completo ->
  CrearEntidad.validarTiposDeDatos w datos = Ok CrearEntidad.TiposValidos ->
  PERSONAJES_TABLE w = Some t -> t <> "" ->
  exists registro,
    fst (CrearEntidad.handler w event) = [DynamoPut t (JObj registro)]
    /\ forall e, dynamo_put w t (JObj registro) = Throw e ->
         snd (CrearEntidad.handler w event)
         = Ok (if codigo_es e "ConditionalCheckFailedException"
               then buildResponse 409
                      (JObj [ ("error", JStr "Conflict");
                              ("mensaje", JStr ("Ya existe un personaje con el ID " ++ uuidv4 w)) ])
               else if includes (message e) "Ya existe"
               then buildResponse 409
                      (JObj [ ("error", JStr "Conflict");
                              ("mensaje", JStr ("Error al guardar en DynamoDB: " ++ message e)) ])
               else buildResponse 500
                      (JObj [ ("error", JStr "Internal Server Error");
                              ("mensaje", JStr "Ocurrió un error al crear el personaje");
                              ("detalles",
                               detalles_de w (Error ("Error al guardar en DynamoDB: " ++ message e))
                                 "Error interno del servidor") ])).
Proof.
  intros Hc Ho Hv Ht Hne.
  destruct (crear_almacena w event datos t Hc Ho Hv Ht Hne) as [sanitizado [Hs Hh]].
  exists (registro_final w sanitizado). rewrite Hh. split.
  - unfold llamar, bind, ret, try_catch, throw.
    destruct (dynamo_put w t _) as [u|e]; [reflexivity|].
    repeat match goal with
           | |- context [if ?b then _ else _] => destruct b
           end; reflexivity.
  - intros e He. rewrite He. unfold llamar, bind, try_catch, throw, codigo_es.
    cbn [propiedad]. unfold js_get. rewrite own_registro_final_id. cbn [ToString].
    destruct (match code e with
              | Some c => c =? "ConditionalCheckFailedException"
              | None => false
              end).
    + cbn [message Error]. rewrite includes_ya_existe. reflexivity.
    + cbn [message Error]. rewrite includes_error_guardar, no_vacio_error_guardar.
      cbn [negb andb].
      destruct (includes (message e) "Ya existe"); reflexivity.
Qed.

Lemma crear_error_al_guardar_witness :
  snd (CrearEntidad.handler
         (mundo_almacen_caido
            (mkError (Some "ConditionalCheckFailedException") "The conditional request failed")
            cuerpo_leia)
         (evento_con_cuerpo texto_leia))
  = Ok (buildResponse 409
          (JObj [ ("error", JStr "Conflict");
                  ("mensaje", JStr "Ya existe un personaje con el ID 3f1c9a52-7d1e-4c0b-9a61-2b8e5d0c4f77") ])).
Proof.
  destruct (crear_error_al_guardar
              (mundo_almacen_caido
                 (mkError (Some "ConditionalCheckFailedException") "The conditional request failed")
                 cuerpo_leia)
              (evento_con_cuerpo texto_leia) cuerpo_leia "personajes-dev"
              eq_refl eq_refl eq_refl eq_refl ltac:(discriminate))
    as [registro [_ H]].
  exact (H (mkError (Some "ConditionalCheckFailedException") "The conditional request failed")
           eq_refl).
Defined.

(** X12: with PERSONAJES_TABLE unset or empty, a body that passes the three
    validations is answered 500 Internal Server Error, and the store is not
    called. *)
Theorem crear_sin_tabla_responde_500 (w : Mundo) (event : Evento) (datos : JsValue) :
  CrearEntidad.validarCuerpoRequest w (cuerpo event) = CrearEntidad.CuerpoValido datos ->
  CrearEntidad.validarCamposObligatorios datos = CrearEntidad.Completo ->
  CrearEntidad.validarTiposDeDatos w datos = Ok CrearEntidad.TiposValidos ->
  PERSONAJES_TABLE w = None \/ PERSONAJES_TABLE w = Some "" ->
  CrearEntidad.handler w event
  = ([], Ok (buildResponse 500
               (JObj [ ("error", JStr "Internal Server Error");
                       ("mensaje", JStr "Ocurrió un error al crear el personaje");
                       ("detalles",
                        detalles_de w
                          (Error "Error al guardar en DynamoDB: La variable de entorno PERSONAJES_TABLE no está configurada")
                          "Error interno del servidor") ]))).
Proof.
  intros Hc Ho Hv Ht.
  destruct (cuerpo_valido_objeto w _ _ Hc) as [Htr [Hty Ha]].
  destruct (sanitizar_no_lanza w datos Htr Hty Ha Hv) as [sanitizado Hs].
  unfold CrearEntidad.handler. rewrite Hc, Ho, Hv. cbn [lift bind]. rewrite Hs. cbn [app].
  unfold DynamoDBService.guardarPersonaje, DynamoDBService.tabla_configurada,
    DynamoDBService.TABLA_PERSONAJES.
  destruct Ht as [->| ->]; reflexivity.
Qed.

Lemma crear_sin_tabla_responde_500_witness :
  CrearEntidad.handler (mundo_sin_tabla_con cuerpo_leia) (evento_con_cuerpo texto_leia)
  = ([], Ok (buildResponse 500
               (JObj [ ("error", JStr "Internal Server Error");
                       ("mensaje", JStr "Ocurrió un error al crear el personaje");
                       ("detalles", JStr "Error interno del servidor") ]))).
Proof.
  exact (crear_sin_tabla_responde_500 (mundo_sin_tabla_con cuerpo_leia)
           (evento_con_cuerpo texto_leia) cuerpo_leia
           eq_refl eq_refl eq_refl (or_introl eq_refl)).
Defined.

(** X13: the create handler never rejects: whatever the event and whatever
    its collaborators do, it returns a response, whose status is 201, 400,
    409 or 500.  It answers 400 only without having called the store, and
    201 only after a single write that the store accepted. *)
Theorem crear_siempre_responde (w : Mundo) (event : Evento) :
  exists r,
    snd (CrearEntidad.handler w event) = Ok r
    /\ In (statusCode r) [201; 400; 409; 500]%Z
    /\ (statusCode r = 400%Z -> fst (CrearEntidad.handler w event) = [])
    /\ (statusCode r = 201%Z ->
        exists t item,
          fst (CrearEntidad.handler w event) = [DynamoPut t item]
          /\ dynamo_put w t item = Ok tt).
Proof.
  unfold CrearEntidad.handler.
  destruct (CrearEntidad.validarCuerpoRequest w (cuerpo event)) as [datos|err];
    [|cbn; eexists; split; [reflexivity|]; cbn; intuition discriminate].
  destruct (CrearEntidad.validarCamposObligatorios datos) as [|err faltan];
    [|cbn; eexists; split; [reflexivity|]; cbn; intuition discriminate].
  destruct (CrearEntidad.validarTiposDeDatos w datos) as [[|errores]|e]; cbn [lift bind].
  - destruct (CrearEntidad.sanitizarPersonaje datos) as [sanitizado|e]; cbn [app].
    + unfold DynamoDBService.guardarPersonaje, DynamoDBService.tabla_configurada,
        DynamoDBService.TABLA_PERSONAJES.
      destruct (PERSONAJES_TABLE w) as [t|];
        [destruct (t =? "")|];
        try (cbn; eexists; split; [reflexivity|]; cbn; intuition discriminate).
      cbn [bind ret llamar].
      destruct (dynamo_put w t _) as [[]|e] eqn:Ep.
      * cbn. eexists. split; [reflexivity|]. cbn.
        split; [tauto|]. split; [discriminate|]. intros _. eauto.
      * cbn [try_catch].
        destruct (code e) as [cd|];
          [destruct (cd =? "ConditionalCheckFailedException")|];
          cbn;
          repeat match goal with
                 | |- context [if ?b then _ else _] => destruct b
                 end;
          cbn; eexists; (split; [reflexivity|]); cbn; intuition discriminate.
    + cbn [try_catch].
      match goal with
      | |- context [if ?b then _ else _] => destruct b
      end;
      cbn; eexists; (split; [reflexivity|]); cbn; intuition discriminate.
  - cbn. eexists. split; [reflexivity|]. cbn. intuition discriminate.
  - cbn [try_catch].
    match goal with
    | |- context [if ?b then _ else _] => destruct b
    end;
    cbn; eexists; (split; [reflexivity|]); cbn; intuition discriminate.
Qed.

(** ** The read handlers of the store *)

(** X14: given a path parameter id that is not blank and a configured table,
    the read handler looks up the id exactly as it received it, once, and
    answers 200 with the item when the store has one, 404 naming the id when
    it has none, and 503 when the lookup fails.  The item found is one whose
    nombre the service can print in its log: no object with a toString of
    its own. *)
Theorem obtener_una_consulta (w : Mundo) (event : Evento) (id t : string) :
  parametro (pathParameters event) "id" = Some id ->
  trim id <> "" ->
  PERSONAJES_TABLE w = Some t -> t <> "" ->
  (forall item, dynamo_get w t id = Ok item -> truthy item = true ->
                se_imprime (propiedad item "nombre") = true) ->
  ObtenerPersonaje.handler w event
  = ([DynamoGet t id],
     Ok (match dynamo_get w t id with
         | Ok item =>
             if truthy item
             then buildResponse 200
                    (JObj [ ("exito", JBool true);
                            ("mensaje", JStr "Personaje obtenido exitosamente");
                            ("datos", item) ])
             else buildResponse 404
                    (JObj [ ("error", JStr "Not Found");
                            ("mensaje", JStr ("No se encontró el personaje con ID " ++ id));
                            ("idBuscado", JStr id);
                            ("sugerencia", JStr "Verifique que el ID sea correcto o cree un nuevo personaje usando POST /personajes") ])
         | Throw _ =>
             buildResponse 503
               (JObj [ ("error", JStr "Service Unavailable");
                       ("mensaje", JStr "No se pudo acceder a la base de datos");
                       ("detalles", JStr "Error al consultar DynamoDB") ])
         end)).
Proof.
  intros Hid Htrim Ht Hne _.
  assert (Hne' : id <> "") by (intros ->; now apply Htrim).
  apply String.eqb_neq in Hne, Hne', Htrim.
  unfold ObtenerPersonaje.handler. rewrite Hid, Hne', Htrim.
  unfold DynamoDBService.obtenerPersonajePorId, DynamoDBService.tabla_configurada,
    DynamoDBService.TABLA_PERSONAJES.
  rewrite Ht, Hne. unfold bind, ret, llamar, try_catch. cbn [app].
  destruct (dynamo_get w t id) as [item|e].
  - destruct (truthy item) eqn:E; cbn [negb app]; rewrite ?E; reflexivity.
  - reflexivity.
Qed.

Lemma obtener_una_consulta_witness :
  ObtenerPersonaje.handler
    (mundo_con_item (JObj [("id", JStr " 7 "); ("nombre", JStr "Leia Organa")]))
    (evento_con_id " 7 ")
  = ([DynamoGet "personajes-dev" " 7 "],
     Ok (buildResponse 200
           (JObj [ ("exito", JBool true);
                   ("mensaje", JStr "Personaje obtenido exitosamente");
                   ("datos", JObj [("id", JStr " 7 "); ("nombre", JStr "Leia Organa")]) ]))).
Proof.
  apply (obtener_una_consulta
           (mundo_con_item (JObj [("id", JStr " 7 "); ("nombre", JStr "Leia Organa")]))
           (evento_con_id " 7 ") " 7 " "personajes-dev").
  - reflexivity.
  - discriminate.
  - reflexivity.
  - discriminate.
  - intros item H _. injection H as <-. reflexivity.
Defined.

(** X15: a request without path parameter id, or with an id that is empty or
    only white space, is answered 400 Bad Request by the read handler, and
    the store is not called. *)
Theorem obtener_id_en_blanco (w : Mundo) (event : Evento) :
  (forall id, parametro (pathParameters event) "id" = Some id -> trim id = "") ->
  fst (ObtenerPersonaje.handler w event) = []
  /\ exists r, snd (ObtenerPersonaje.handler w event) = Ok r /\ statusCode r = 400%Z.
Proof.
  intros H. unfold ObtenerPersonaje.handler.
  destruct (parametro (pathParameters event) "id") as [id|].
  - specialize (H id eq_refl).
    destruct (id =? ""); [split; [reflexivity|eexists; split; reflexivity]|].
    rewrite H. split; [reflexivity|eexists; split; reflexivity].
  - split; [reflexivity|eexists; split; reflexivity].
Qed.

Lemma obtener_id_en_blanco_witness :
  fst (ObtenerPersonaje.handler (mundo_ejemplo JNull []) (evento_con_id "   ")) = []
  /\ exists r,
       snd (ObtenerPersonaje.handler (mundo_ejemplo JNull []) (evento_con_id "   ")) = Ok r
       /\ statusCode r = 400%Z.
Proof.
  apply (obtener_id_en_blanco (mundo_ejemplo JNull []) (evento_con_id "   ")).
  intros id H. injection H as <-. reflexivity.
Defined.

(** X16: the read handler never rejects: whatever the event and whatever the
    store does, it returns a response, whose status is 200, 400, 404 or 503
    (its two 500 answers are out of reach behind the service), after at most
    one call, a lookup. *)
Theorem obtener_siempre_responde (w : Mundo) (event : Evento) :
  exists r,
    snd (ObtenerPersonaje.handler w event) = Ok r
    /\ In (statusCode r) [200; 400; 404; 503]%Z
    /\ (fst (ObtenerPersonaje.handler w event) = []
        \/ exists t id, fst (ObtenerPersonaje.handler w event) = [DynamoGet t id]
                        /\ parametro (pathParameters event) "id" = Some id).
Proof.
  unfold ObtenerPersonaje.handler.
  destruct (parametro (pathParameters event) "id") as [id|];
    [|eexists; split; [reflexivity|]; cbn; tauto].
  destruct (id =? ""); [eexists; split; [reflexivity|]; cbn; tauto|].
  destruct (trim id =? ""); [eexists; split; [reflexivity|]; cbn; tauto|].
  unfold DynamoDBService.obtenerPersonajePorId, DynamoDBService.tabla_configurada,
    DynamoDBService.TABLA_PERSONAJES.
  destruct (PERSONAJES_TABLE w) as [t|];
    [destruct (t =? "")|];
    try (eexists; split; [reflexivity|]; cbn; tauto).
  unfold bind, ret, llamar, try_catch. cbn [app].
  destruct (dynamo_get w t id) as [item|e].
  - destruct (truthy item) eqn:E; cbn [negb app]; rewrite ?E;
      (eexists; split; [reflexivity|]; cbn; split; [tauto|right; eauto]).
  - eexists; split; [reflexivity|]; cbn; split; [tauto|right; eauto].
Qed.

(** X17: the list handler never rejects, and never answers 400: an invalid
    limit is replaced, not refused.  Its status is 200, 500 or 503: 503
    whenever the service fails (table not configured, or scan failed), and
    500 only when the store answered and the sorting threw. *)
Theorem listar_siempre_responde (w : Mundo) (event : Evento) :
  exists r,
    snd (ListarPersonajes.handler w event) = Ok r
    /\ In (statusCode r) [200; 500; 503]%Z
    /\ (forall e,
          snd (DynamoDBService.listarPersonajes w (ListarPersonajes.limite_resuelto event))
          = Throw e ->
          statusCode r = 503%Z)
    /\ (statusCode r = 500%Z ->
        exists personajes e,
          snd (DynamoDBService.listarPersonajes w (ListarPersonajes.limite_resuelto event))
          = Ok personajes
          /\ sort_por_creado w personajes = Throw e).
Proof.
  unfold ListarPersonajes.handler. cbv zeta.
  unfold DynamoDBService.listarPersonajes, DynamoDBService.tabla_configurada,
    DynamoDBService.TABLA_PERSONAJES.
  destruct (PERSONAJES_TABLE w) as [t|];
    [destruct (t =? "")|];
    try (eexists; split; [reflexivity|]; cbn;
         split; [tauto|split; [reflexivity|intros H; discriminate H]]).
  unfold bind, ret, llamar, try_catch, lift. cbn [app].
  destruct (dynamo_scan w t (ListarPersonajes.limite_resuelto event)) as [ps|e].
  - destruct ps as [|p ps]; cbn [List.length Nat.eqb app].
    + eexists. split; [reflexivity|]. cbn.
      split; [tauto|split; [intros e H; discriminate H|intros H; discriminate H]].
    + destruct (sort_por_creado w (p :: ps)) as [ord|e] eqn:Es.
      * eexists. split; [reflexivity|]. cbn.
        split; [tauto|split; [intros e H; discriminate H|intros H; discriminate H]].
      * unfold ErroresDynamo.responder_error.
        repeat match goal with
               | |- context [if ?b then _ else _] => destruct b
               end;
          (eexists; split; [reflexivity|]); cbn;
          (split; [tauto|split; [intros e' H; discriminate H|intros _; eauto]]).
  - eexists. split; [reflexivity|]. cbn.
    split; [tauto|split; [reflexivity|intros H; discriminate H]].
Qed.

(** ** The SWAPI handler: identifiers written in digits *)

Section IdDeDigitos.

Lemma es_digito_sin_espacio c : es_digito c = true -> sin_espacio_ascii c = true.
Proof. destruct c as [[] [] [] [] [] [] [] []]; vm_compute; auto. Qed.

Lemma todos_impl (p q : ascii -> bool) s :
  (forall c, p c = true -> q c = true) -> todos p s = true -> todos q s = true.
Proof.
  intros H. induction s as [|c r IH]; [reflexivity|].
  cbn [todos]. intros Hs. apply andb_prop in Hs as [Hc Hr].
  now rewrite (H c Hc), IH.
Qed.

Lemma trim_digitos d : todos es_digito d = true -> trim d = d.
Proof.
  intros H. apply trim_sin_espacios.
  now apply (todos_impl es_digito sin_espacio_ascii d es_digito_sin_espacio).
Qed.

Lemma trim_menos_digitos d : todos es_digito d = true -> trim ("-" ++ d) = "-" ++ d.
Proof.
  intros H. apply trim_sin_espacios.
  change ("-" ++ d) with (String "-" d). cbn [todos].
  rewrite (todos_impl es_digito sin_espacio_ascii d es_digito_sin_espacio H).
  reflexivity.
Qed.

Lemma trimStart_digitos d : digitos d -> trimStart d = d.
Proof.
  intros [Hne H]. destruct d as [|c r]; [congruence|].
  cbn [todos] in H. apply andb_prop in H as [Hc _].
  apply es_digito_sin_espacio in Hc. unfold sin_espacio_ascii in Hc.
  apply andb_prop in Hc as [Hlt Hws].
  apply trimStart_no_espacio; [now apply negb_true_iff in Hws|assumption].
Qed.

Lemma quitar_digitos_todos d : todos es_digito d = true -> quitar_digitos d = "".
Proof.
  induction d as [|c r IH]; [reflexivity|].
  cbn [todos quitar_digitos]. intros H. apply andb_prop in H as [-> Hr]. now apply IH.
Qed.

Lemma empieza_digitos d : digitos d -> empieza_con_digito d = true.
Proof.
  intros [Hne H]. destruct d as [|c r]; [congruence|].
  cbn [todos] in H. now apply andb_prop in H as [Hc _].
Qed.

Lemma quitar_signo_digitos d : digitos d -> quitar_signo d = d.
Proof.
  intros [Hne H]. destruct d as [|c r]; [congruence|].
  cbn [todos] in H. apply andb_prop in H as [Hc _].
  destruct c as [[] [] [] [] [] [] [] []]; try discriminate Hc; reflexivity.
Qed.

Lemma quitar_0x_digitos d : todos es_digito d = true -> quitar_0x d = None.
Proof.
  destruct d as [|c [|p r]]; try reflexivity.
  - destruct c as [[] [] [] [] [] [] [] []]; reflexivity.
  - cbn [todos]. intros H. apply andb_prop in H as [_ H]. apply andb_prop in H as [Hp _].
    destruct c as [[] [] [] [] [] [] [] []]; try reflexivity.
    destruct p as [[] [] [] [] [] [] [] []]; try discriminate Hp; reflexivity.
Qed.

Lemma no_es_Infinity d : digitos d -> (d =? "Infinity") = false.
Proof.
  intros [Hne H]. destruct d as [|c r]; [congruence|].
  cbn [todos] in H. apply andb_prop in H as [Hc _].
  destruct c as [[] [] [] [] [] [] [] []]; try discriminate Hc; reflexivity.
Qed.

Lemma StrUnsignedDecimalLiteral_digitos d :
  digitos d -> StrUnsignedDecimalLiteral d = true.
Proof.
  intros Hd. unfold StrUnsignedDecimalLiteral.
  rewrite (no_es_Infinity d Hd), (quitar_digitos_todos d (proj2 Hd)).
  now rewrite (empieza_digitos d Hd).
Qed.

(** A run of digits, with or without a minus sign before it, is a number. *)
Lemma isNaN_digitos d : digitos d -> isNaN_string d = false.
Proof.
  intros Hd. unfold isNaN_string. cbv zeta.
  rewrite (trim_digitos d (proj2 Hd)).
  unfold StrNumericLiteral.
  rewrite (quitar_signo_digitos d Hd), (StrUnsignedDecimalLiteral_digitos d Hd).
  now rewrite orb_true_r.
Qed.

Lemma isNaN_menos_digitos d : digitos d -> isNaN_string ("-" ++ d) = false.
Proof.
  intros Hd. unfold isNaN_string. cbv zeta.
  rewrite (trim_menos_digitos d (proj2 Hd)).
  unfold StrNumericLiteral.
  change (quitar_signo ("-" ++ d)) with d.
  rewrite (StrUnsignedDecimalLiteral_digitos d Hd).
  now rewrite orb_true_r.
Qed.

(** The one-argument parseInt reads such a string in base ten. *)
Lemma parseInt_digitos d :
  digitos d -> parseInt d None = leer_digitos 10 d None.
Proof.
  intros Hd. unfold parseInt. cbv zeta.
  rewrite (trimStart_digitos d Hd), (quitar_signo_digitos d Hd).
  cbn [Z.eqb negb andb orb].
  rewrite (quitar_0x_digitos d (proj2 Hd)).
  assert (Hneg : match d with String "-" _ => true | _ => false end = false).
  { destruct Hd as [Hne H]. destruct d as [|c r]; [reflexivity|].
    cbn [todos] in H. apply andb_prop in H as [Hc _].
    destruct c as [[] [] [] [] [] [] [] []]; try discriminate Hc; reflexivity. }
  rewrite Hneg. destruct (leer_digitos 10 d None); reflexivity.
Qed.

Lemma parseInt_menos_digitos d :
  digitos d -> parseInt ("-" ++ d) None = option_map Z.opp (leer_digitos 10 d None).
Proof.
  intros Hd. unfold parseInt. cbv zeta.
  change ("-" ++ d) with (String "-" d).
  rewrite trimStart_no_espacio by reflexivity.
  change (quitar_signo (String "-" d)) with d.
  cbn [Z.eqb negb andb orb].
  rewrite (quitar_0x_digitos d (proj2 Hd)).
  destruct (leer_digitos 10 d None); reflexivity.
Qed.

Lemma valor_de_digito c :
  es_digito c = true ->
  exists v, valor_digito c = Some v /\ (0 <= v < 10)%Z
            /\ (v = 0%Z <-> (c =? "0")%char = true).
Proof.
  destruct c as [[] [] [] [] [] [] [] []]; try discriminate; intros _;
    eexists; (split; [vm_compute; reflexivity|]); (split; [lia|]);
    (split; [intros H; try discriminate H; reflexivity
            |intros H; try discriminate H; reflexivity]).
Qed.

(** What the digits amount to: never negative, and zero only when every
    digit is 0. *)
Lemma leer_digitos_valor d : forall a,
  todos es_digito d = true -> (0 <= a)%Z ->
  exists v, leer_digitos 10 d (Some a) = Some v
            /\ (0 <= v)%Z
            /\ (v = 0%Z <-> a = 0%Z /\ solo_ceros d = true).
Proof.
  induction d as [|c r IH]; intros a H Ha.
  - exists a. cbn. intuition.
  - cbn [todos] in H. apply andb_prop in H as [Hc Hr].
    destruct (valor_de_digito c Hc) as [v [Hv [Hrange Hz]]].
    cbn [leer_digitos]. rewrite Hv.
    assert (Hlt : (v <? 10)%Z = true) by (apply Z.ltb_lt; lia).
    rewrite Hlt.
    destruct (IH (a * 10 + v)%Z Hr ltac:(lia)) as [v' [Hv' [Hpos Hz']]].
    exists v'. split; [exact Hv'|]. split; [exact Hpos|].
    unfold solo_ceros in *. cbn [todos].
    rewrite Hz'. rewrite andb_true_iff. rewrite <- Hz.
    split.
    + intros [Hs Hc0]. repeat split; try assumption; lia.
    + intros [Ha0 [Hv0 Hc0]]. split; [lia|assumption].
Qed.

Lemma leer_digitos_inicio d :
  digitos d ->
  exists v, leer_digitos 10 d None = Some v
            /\ (0 <= v)%Z /\ (v = 0%Z <-> solo_ceros d = true).
Proof.
  intros [Hne H]. destruct d as [|c r]; [congruence|].
  cbn [todos] in H. apply andb_prop in H as [Hc Hr].
  destruct (valor_de_digito c Hc) as [v [Hv [Hrange Hz]]].
  cbn [leer_digitos]. rewrite Hv.
  assert (Hlt : (v <? 10)%Z = true) by (apply Z.ltb_lt; lia).
  rewrite Hlt.
  destruct (leer_digitos_valor r v Hr ltac:(lia)) as [v' [Hv' [Hpos Hz']]].
  exists v'. split; [exact Hv'|]. split; [exact Hpos|].
  unfold solo_ceros in *. cbn [todos].
  rewrite Hz', andb_true_iff, <- Hz. tauto.
Qed.

(** The test of the handler on an identifier written in digits. *)
Lemma id_invalido_digitos d :
  digitos d -> GetPersonaje.id_invalido d = solo_ceros d.
Proof.
  intros Hd. unfold GetPersonaje.id_invalido.
  rewrite (isNaN_digitos d Hd), (parseInt_digitos d Hd). cbn [orb].
  destruct (leer_digitos_inicio d Hd) as [v [-> [Hpos Hz]]].
  destruct (solo_ceros d).
  - apply Z.leb_le. assert (v = 0%Z) by now apply Hz. lia.
  - apply Z.leb_gt. destruct (Z.eq_dec v 0) as [E|E]; [|lia].
    apply Hz in E. discriminate.
Qed.

Lemma id_invalido_menos_digitos d :
  digitos d -> GetPersonaje.id_invalido ("-" ++ d) = true.
Proof.
  intros Hd. unfold GetPersonaje.id_invalido.
  rewrite (isNaN_menos_digitos d Hd), (parseInt_menos_digitos d Hd). cbn [orb].
  destruct (leer_digitos_inicio d Hd) as [v [-> [Hpos _]]].
  cbn [option_map]. apply Z.leb_le. lia.
Qed.

Lemma digitos_no_vacio d : digitos d -> (d =? "") = false.
Proof. intros [Hne _]. now apply String.eqb_neq. Qed.

Lemma getPersonaje_llama w event id :
  parametro (pathParameters event) "id" = Some id ->
  (id =? "") = false ->
  GetPersonaje.id_invalido id = false ->
  fst (GetPersonaje.handler w event) = [SwapiGetPersonajeById id].
Proof.
  intros Hid Hne Hinv. unfold GetPersonaje.handler. rewrite Hid, Hne, Hinv.
  unfold llamar, try_catch, bind.
  destruct (swapi_getPersonajeById w id) as [personaje|error]; simpl.
  - destruct (negb (truthy personaje)); reflexivity.
  - destruct (negb (message error =? "") && includes (message error) "no encontrado");
      [reflexivity|].
    destruct (negb (message error =? "") && includes (message error) "conectar");
      reflexivity.
Qed.

Lemma getPersonaje_rechaza w event id :
  parametro (pathParameters event) "id" = Some id ->
  (id =? "") = false ->
  GetPersonaje.id_invalido id = true ->
  GetPersonaje.handler w event
  = ([], Ok (buildResponse 400
               (JObj [ ("error", JStr "Bad Request");
                       ("mensaje", JStr "El ID del personaje debe ser un número positivo");
                       ("idRecibido", JStr id) ]))).
Proof.
  intros Hid Hne Hinv. unfold GetPersonaje.handler. now rewrite Hid, Hne, Hinv.
Qed.

End IdDeDigitos.

(** X18: for an identifier written in decimal digits, the SWAPI handler does
    what its message says: when one of the digits is not 0 it calls
    getPersonajeById once, with the identifier as received (leading zeros
    included); when all are 0 it answers 400 Bad Request without calling. *)
Theorem getPersonaje_id_de_digitos (w : Mundo) (event : Evento) (d : string) :
  parametro (pathParameters event) "id" = Some d ->
  digitos d ->
  (solo_ceros d = false ->
   fst (GetPersonaje.handler w event) = [SwapiGetPersonajeById d])
  /\ (solo_ceros d = true ->
      GetPersonaje.handler w event
      = ([], Ok (buildResponse 400
                   (JObj [ ("error", JStr "Bad Request");
                           ("mensaje", JStr "El ID del personaje debe ser un número positivo");
                           ("idRecibido", JStr d) ])))).
Proof.
  intros Hid Hd. split; intros Hc.
  - apply getPersonaje_llama; [assumption|now apply digitos_no_vacio|].
    now rewrite id_invalido_digitos.
  - apply getPersonaje_rechaza; [assumption|now apply digitos_no_vacio|].
    now rewrite id_invalido_digitos.
Qed.

Lemma getPersonaje_id_de_digitos_witness :
  fst (GetPersonaje.handler (mundo_ejemplo JNull []) (evento_con_id "007"))
  = [SwapiGetPersonajeById "007"].
Proof.
  assert (Hd : digitos "007") by (split; [discriminate|reflexivity]).
  destruct (getPersonaje_id_de_digitos (mundo_ejemplo JNull []) (evento_con_id "007") "007"
              eq_refl Hd) as [H _].
  apply H. reflexivity.
Defined.

(** X19: an identifier that is a minus sign followed by decimal digits is
    answered 400 Bad Request by the SWAPI handler, without a call. *)
Theorem getPersonaje_id_entero_negativo (w : Mundo) (event : Evento) (d : string) :
  parametro (pathParameters event) "id" = Some ("-" ++ d) ->
  digitos d ->
  GetPersonaje.handler w event
  = ([], Ok (buildResponse 400
               (JObj [ ("error", JStr "Bad Request");
                       ("mensaje", JStr "El ID del personaje debe ser un número positivo");
                       ("idRecibido", JStr ("-" ++ d)) ]))).
Proof.
  intros Hid Hd.
  apply getPersonaje_rechaza; [assumption|reflexivity|].
  now apply id_invalido_menos_digitos.
Qed.

Lemma getPersonaje_id_entero_negativo_witness :
  GetPersonaje.handler (mundo_ejemplo JNull []) (evento_con_id "-5")
  = ([], Ok (buildResponse 400
               (JObj [ ("error", JStr "Bad Request");
                       ("mensaje", JStr "El ID del personaje debe ser un número positivo");
                       ("idRecibido", JStr "-5") ]))).
Proof.
  apply (getPersonaje_id_entero_negativo (mundo_ejemplo JNull []) (evento_con_id "-5") "5").
  - reflexivity.
  - split; [discriminate|reflexivity].
Defined.

(** ** services/swapiService and the handler in front of it *)

Section Swapi.

Lemma includes_app_r a b sub : includes b sub = true -> includes (a ++ b) sub = true.
Proof.
  intros H. induction a as [|c a IH]; [exact H|].
  change (String c a ++ b) with (String c (a ++ b)). cbn [includes].
  rewrite IH. now destruct (String.prefix sub (String c (a ++ b))).
Qed.

Lemma includes_no_encontrado id :
  includes ("Personaje con ID " ++ id ++ " no encontrado en SWAPI") "no encontrado" = true.
Proof.
  apply includes_app_r. apply includes_app_r. reflexivity.
Qed.

Lemma id_valido_es_numero id :
  GetPersonaje.id_invalido id = false -> isNaN_string id = false.
Proof.
  unfold GetPersonaje.id_invalido. intros H. now apply orb_false_elim in H as [H _].
Qed.

Lemma url_de_persona id :
  SwapiService.SWAPI_BASE_URL ++ "/people/" ++ id ++ "/"
  = "https://swapi.py4e.com/api/people" ++ "/" ++ id ++ "/".
Proof. reflexivity. Qed.

(** The handler, past its validation, on what the service makes of the
    outcome of the request. *)
Lemma getPersonaje_tras_validar w event id :
  parametro (pathParameters event) "id" = Some id ->
  (id =? "") = false ->
  GetPersonaje.id_invalido id = false ->
  snd (GetPersonaje.handler w event)
  = match swapi_getPersonajeById w id with
    | Ok personaje =>
        if truthy personaje
        then Ok (buildResponse 200
                   (JObj [ ("exito", JBool true);
                           ("mensaje", JStr "Personaje obtenido exitosamente desde SWAPI");
                           ("datos", personaje) ]))
        else Ok (buildResponse 404
                   (JObj [ ("error", JStr "Not Found");
                           ("mensaje", JStr ("No se encontró el personaje con ID " ++ id ++ " en SWAPI"));
                           ("idBuscado", JStr id) ]))
    | Throw error =>
        if negb (message error =? "") && includes (message error) "no encontrado"
        then Ok (buildResponse 404
                   (JObj [ ("error", JStr "Not Found");
                           ("mensaje", JStr (message error));
                           ("idBuscado", JStr id) ]))
        else if negb (message error =? "") && includes (message error) "conectar"
        then Ok (buildResponse 503
                   (JObj [ ("error", JStr "Service Unavailable");
                           ("mensaje", JStr "No se pudo conectar con el servicio de Star Wars");
                           ("detalles", JStr (message error)) ]))
        else Ok (buildResponse 500
                   (JObj [ ("error", JStr "Internal Server Error");
                           ("mensaje", JStr "Ocurrió un error al procesar la solicitud");
                           ("detalles", detalles_de w error "Error interno del servidor") ]))
    end.
Proof.
  intros Hid Hne Hinv. unfold GetPersonaje.handler. rewrite Hid, Hne, Hinv.
  unfold llamar, try_catch, bind, ret.
  destruct (swapi_getPersonajeById w id) as [personaje|error].
  - destruct (truthy personaje); reflexivity.
  - destruct (negb (message error =? "") && includes (message error) "no encontrado");
      [reflexivity|].
    destruct (negb (message error =? "") && includes (message error) "conectar");
      reflexivity.
Qed.

End Swapi.

(** X20: getPersonajeById makes no request for an identifier that is empty
    or not a number, and the error it throws then is not its own message but
    the one of its catch clause, Error al procesar la petición, around it. *)
Theorem getPersonajeById_id_no_numerico
    (axios_get : string -> SwapiService.AxiosResponse + SwapiService.ErrorCapturado)
    (TypeError_de_lectura : JsValue -> string -> string) (id : string) :
  id = "" \/ isNaN_string id = true ->
  SwapiService.getPersonajeById axios_get TypeError_de_lectura id
  = ([], Throw (Error "Error al procesar la petición: El ID del personaje debe ser un número válido")).
Proof.
  intros H. unfold SwapiService.getPersonajeById, SwapiService.intento.
  assert (Hc : (id =? "") || isNaN_string id = true).
  { destruct H as [->|H]; [reflexivity|]. rewrite H. apply orb_true_r. }
  rewrite Hc. reflexivity.
Qed.

Lemma getPersonajeById_id_no_numerico_witness :
  SwapiService.getPersonajeById axios_de_ejemplo TypeError_V8 "uno"
  = ([], Throw (Error "Error al procesar la petición: El ID del personaje debe ser un número válido")).
Proof.
  exact (getPersonajeById_id_no_numerico axios_de_ejemplo TypeError_V8 "uno"
           (or_intror eq_refl)).
Defined.

(** X21: for an identifier written in decimal digits, getPersonajeById makes
    one request, to the URL of that person, and extractIdFromUrl reads the
    identifier back from that URL. *)
Theorem getPersonajeById_url_ida_y_vuelta
    (axios_get : string -> SwapiService.AxiosResponse + SwapiService.ErrorCapturado)
    (TypeError_de_lectura : JsValue -> string -> string) (d : string) :
  digitos d ->
  fst (SwapiService.getPersonajeById axios_get TypeError_de_lectura d)
  = [SwapiService.SWAPI_BASE_URL ++ "/people/" ++ d ++ "/"]
  /\ Mapper.extractIdFromUrl (JStr (SwapiService.SWAPI_BASE_URL ++ "/people/" ++ d ++ "/"))
     = JStr d.
Proof.
  intros Hd. split.
  - unfold SwapiService.getPersonajeById, SwapiService.intento.
    rewrite (digitos_no_vacio d Hd), (isNaN_digitos d Hd). cbn [orb]. cbv zeta.
    destruct (axios_get _) as [r|e]; [|reflexivity].
    destruct (negb (SwapiService.status r =? 200)%Z); [reflexivity|].
    destruct (SwapiService.data r); reflexivity.
  - assert (Hb : Mapper.buscar_coincidencia
                   (SwapiService.SWAPI_BASE_URL ++ "/people/" ++ d ++ "/") = Some d).
    { apply buscar_coincidencia_spec. split; [assumption|].
      exists "https://swapi.py4e.com/api/people", "/".
      split; [now right|apply url_de_persona]. }
    unfold Mapper.extractIdFromUrl. rewrite Hb. reflexivity.
Qed.

Lemma getPersonajeById_url_ida_y_vuelta_witness :
  fst (SwapiService.getPersonajeById axios_de_ejemplo TypeError_V8 "42")
  = ["https://swapi.py4e.com/api/people/42/"]
  /\ Mapper.extractIdFromUrl (JStr "https://swapi.py4e.com/api/people/42/") = JStr "42".
Proof.
  apply (getPersonajeById_url_ida_y_vuelta axios_de_ejemplo TypeError_V8 "42").
  split; [discriminate|reflexivity].
Defined.

(** X22: end to end, when SWAPI answers the request for a valid identifier
    with status 200 and an object whose name the service can print in its
    log (no object with a toString of its own), the handler answers 200 and
    datos is that object translated by mapPersonajeToEspanol. *)
Theorem getPersonaje_swapi_responde_200 (w : Mundo)
    (axios_get : string -> SwapiService.AxiosResponse + SwapiService.ErrorCapturado)
    (TypeError_de_lectura : JsValue -> string -> string)
    (event : Evento) (id : string) (datos : JsValue) :
  (forall i, swapi_getPersonajeById w i
             = snd (SwapiService.getPersonajeById axios_get TypeError_de_lectura i)) ->
  parametro (pathParameters event) "id" = Some id ->
  id <> "" ->
  GetPersonaje.id_invalido id = false ->
  axios_get (SwapiService.SWAPI_BASE_URL ++ "/people/" ++ id ++ "/")
  = inl {| SwapiService.status := 200; SwapiService.data := datos |} ->
  es_objeto datos = true ->
  se_imprime (propiedad datos "name") = true ->
  snd (GetPersonaje.handler w event)
  = Ok (buildResponse 200
          (JObj [ ("exito", JBool true);
                  ("mensaje", JStr "Personaje obtenido exitosamente desde SWAPI");
                  ("datos", Mapper.mapPersonajeToEspanol datos) ])).
Proof.
  intros Hw Hid Hne Hinv Hax Hobj _.
  apply String.eqb_neq in Hne.
  rewrite (getPersonaje_tras_validar w event id Hid Hne Hinv), Hw.
  unfold SwapiService.getPersonajeById, SwapiService.intento.
  rewrite Hne, (id_valido_es_numero id Hinv). cbn [orb]. cbv zeta. rewrite Hax.
  cbn [SwapiService.status SwapiService.data Z.eqb Pos.eqb negb].
  assert (Ht : truthy (Mapper.mapPersonajeToEspanol datos) = true)
    by now rewrite truthy_mapPersonajeToEspanol.
  unfold es_objeto in Hobj. apply andb_prop in Hobj as [Htr _].
  destruct datos; try discriminate Htr; cbn [snd]; rewrite Ht; reflexivity.
Qed.

Lemma getPersonaje_swapi_responde_200_witness :
  snd (GetPersonaje.handler (mundo_con_swapi axios_de_ejemplo TypeError_V8) (evento_con_id "1"))
  = Ok (buildResponse 200
          (JObj [ ("exito", JBool true);
                  ("mensaje", JStr "Personaje obtenido exitosamente desde SWAPI");
                  ("datos", JObj [ ("nombre", JStr "Luke Skywalker");
                                   ("genero", JStr "masculino");
                                   ("peliculas", JArr [JStr "https://swapi.py4e.com/api/films/1/"]) ]) ])).
Proof.
  exact (getPersonaje_swapi_responde_200 (mundo_con_swapi axios_de_ejemplo TypeError_V8)
           axios_de_ejemplo TypeError_V8 (evento_con_id "1") "1"
           (JObj [ ("name", JStr "Luke Skywalker");
                   ("gender", JStr "male");
                   ("films", JArr [JStr "https://swapi.py4e.com/api/films/1/"]) ])
           (fun _ => eq_refl) eq_refl ltac:(discriminate) eq_refl eq_refl eq_refl eq_refl).
Defined.

(** X23: end to end, when SWAPI answers the request for a valid identifier
    with status 404, the handler answers 404 Not Found with the message of
    the service, which names the identifier. *)
Theorem getPersonaje_swapi_responde_404 (w : Mundo)
    (axios_get : string -> SwapiService.AxiosResponse + SwapiService.ErrorCapturado)
    (TypeError_de_lectura : JsValue -> string -> string)
    (event : Evento) (id : string) (error : SwapiService.ErrorCapturado) (statusText : string) :
  (forall i, swapi_getPersonajeById w i
             = snd (SwapiService.getPersonajeById axios_get TypeError_de_lectura i)) ->
  parametro (pathParameters event) "id" = Some id ->
  id <> "" ->
  GetPersonaje.id_invalido id = false ->
  axios_get (SwapiService.SWAPI_BASE_URL ++ "/people/" ++ id ++ "/") = inr error ->
  SwapiService.response error = Some (404%Z, statusText) ->
  snd (GetPersonaje.handler w event)
  = Ok (buildResponse 404
          (JObj [ ("error", JStr "Not Found");
                  ("mensaje", JStr ("Personaje con ID " ++ id ++ " no encontrado en SWAPI"));
                  ("idBuscado", JStr id) ])).
Proof.
  intros Hw Hid Hne Hinv Hax Hresp.
  apply String.eqb_neq in Hne.
  rewrite (getPersonaje_tras_validar w event id Hid Hne Hinv), Hw.
  unfold SwapiService.getPersonajeById, SwapiService.intento.
  rewrite Hne, (id_valido_es_numero id Hinv). cbn [orb]. cbv zeta. rewrite Hax.
  cbn [snd]. unfold SwapiService.mensaje_relanzado. rewrite Hresp.
  cbn [Z.eqb Pos.eqb message Error].
  rewrite includes_no_encontrado. reflexivity.
Qed.

Lemma getPersonaje_swapi_responde_404_witness :
  snd (GetPersonaje.handler (mundo_con_swapi axios_de_ejemplo TypeError_V8) (evento_con_id "999"))
  = Ok (buildResponse 404
          (JObj [ ("error", JStr "Not Found");
                  ("mensaje", JStr "Personaje con ID 999 no encontrado en SWAPI");
                  ("idBuscado", JStr "999") ])).
Proof.
  exact (getPersonaje_swapi_responde_404 (mundo_con_swapi axios_de_ejemplo TypeError_V8)
           axios_de_ejemplo TypeError_V8 (evento_con_id "999") "999"
           {| SwapiService.response := Some (404%Z, "NOT FOUND");
              SwapiService.request := true;
              SwapiService.message := "Request failed with status code 404" |}
           "NOT FOUND"
           (fun _ => eq_refl) eq_refl ltac:(discriminate) eq_refl eq_refl eq_refl).
Defined.

(** X24: end to end, when the request for a valid identifier was sent and no
    response came, the handler answers 503 Service Unavailable. *)
Theorem getPersonaje_swapi_sin_respuesta_503 (w : Mundo)
    (axios_get : string -> SwapiService.AxiosResponse + SwapiService.ErrorCapturado)
    (TypeError_de_lectura : JsValue -> string -> string)
    (event : Evento) (id : string) (error : SwapiService.ErrorCapturado) :
  (forall i, swapi_getPersonajeById w i
             = snd (SwapiService.getPersonajeById axios_get TypeError_de_lectura i)) ->
  parametro (pathParameters event) "id" = Some id ->
  id <> "" ->
  GetPersonaje.id_invalido id = false ->
  axios_get (SwapiService.SWAPI_BASE_URL ++ "/people/" ++ id ++ "/") = inr error ->
  SwapiService.response error = None ->
  SwapiService.request error = true ->
  snd (GetPersonaje.handler w event)
  = Ok (buildResponse 503
          (JObj [ ("error", JStr "Service Unavailable");
                  ("mensaje", JStr "No se pudo conectar con el servicio de Star Wars");
                  ("detalles", JStr "No se pudo conectar con SWAPI. Verifica tu conexión a internet") ])).
Proof.
  intros Hw Hid Hne Hinv Hax Hresp Hreq.
  apply String.eqb_neq in Hne.
  rewrite (getPersonaje_tras_validar w event id Hid Hne Hinv), Hw.
  unfold SwapiService.getPersonajeById, SwapiService.intento.
  rewrite Hne, (id_valido_es_numero id Hinv). cbn [orb]. cbv zeta. rewrite Hax.
  cbn [snd]. unfold SwapiService.mensaje_relanzado. rewrite Hresp, Hreq.
  reflexivity.
Qed.

Lemma getPersonaje_swapi_sin_respuesta_503_witness :
  snd (GetPersonaje.handler (mundo_con_swapi axios_sin_red TypeError_V8) (evento_con_id "1"))
  = Ok (buildResponse 503
          (JObj [ ("error", JStr "Service Unavailable");
                  ("mensaje", JStr "No se pudo conectar con el servicio de Star Wars");
                  ("detalles", JStr "No se pudo conectar con SWAPI. Verifica tu conexión a internet") ])).
Proof.
  exact (getPersonaje_swapi_sin_respuesta_503 (mundo_con_swapi axios_sin_red TypeError_V8)
           axios_sin_red TypeError_V8 (evento_con_id "1") "1"
           {| SwapiService.response := None;
              SwapiService.request := true;
              SwapiService.message := "timeout of 10000ms exceeded" |}
           (fun _ => eq_refl) eq_refl ltac:(discriminate) eq_refl eq_refl eq_refl eq_refl).
Defined.

(** ** services/dynamoDBService: the update expression *)

Section Actualizar.
Import ActualizarPersonaje.

Lemma decimal_inyectiva a b : decimal a = decimal b -> a = b.
Proof.
  intros H. assert (Hp : parseInt (decimal a) (Some 10%Z) = parseInt (decimal b) (Some 10%Z))
    by now rewrite H.
  rewrite !parseInt_decimal in Hp. now inversion Hp.
Qed.

Lemma marcador_nombre_inyectivo i j : marcador_nombre i = marcador_nombre j -> i = j.
Proof.
  unfold marcador_nombre. intros H. cbn in H. injection H as H.
  apply decimal_inyectiva in H. lia.
Qed.

Lemma marcador_valor_inyectivo i j : marcador_valor i = marcador_valor j -> i = j.
Proof.
  unfold marcador_valor. intros H. cbn in H. injection H as H.
  apply decimal_inyectiva in H. lia.
Qed.

(** The later turns of the loop leave the placeholders of the earlier
    ones alone. *)
Lemma fold_paso_conserva datos keys : forall i acc n,
  (n < i)%nat ->
  own (expressionAttributeNames (fold_left (paso datos) (enumerar keys i) acc))
      (marcador_nombre n)
  = own (expressionAttributeNames acc) (marcador_nombre n)
  /\ own (expressionAttributeValues (fold_left (paso datos) (enumerar keys i) acc))
         (marcador_valor n)
     = own (expressionAttributeValues acc) (marcador_valor n).
Proof.
  induction keys as [|k ks IH]; intros i acc n Hn; [split; reflexivity|].
  cbn [enumerar fold_left].
  destruct (IH (S i) (paso datos acc (k, i)) n ltac:(lia)) as [H1 H2].
  rewrite H1, H2. unfold paso. cbn [fst snd].
  destruct (negb (k =? "id")); [|split; reflexivity].
  cbn [expressionAttributeNames expressionAttributeValues].
  fold (marcador_nombre i). fold (marcador_valor i).
  split; apply own_js_set_other; intros E;
    [apply marcador_nombre_inyectivo in E|apply marcador_valor_inyectivo in E]; lia.
Qed.

(** Each key but id is bound under the placeholders of its index. *)
Lemma fold_paso_liga datos keys : forall i acc j key,
  nth_error keys j = Some key -> key <> "id" ->
  own (expressionAttributeNames (fold_left (paso datos) (enumerar keys i) acc))
      (marcador_nombre (i + j))
  = Some (JStr key)
  /\ own (expressionAttributeValues (fold_left (paso datos) (enumerar keys i) acc))
         (marcador_valor (i + j))
     = Some (js_get datos key).
Proof.
  induction keys as [|k ks IH]; intros i acc j key Hj Hne.
  - destruct j; discriminate Hj.
  - cbn [enumerar fold_left]. destruct j as [|j].
    + cbn in Hj. injection Hj as ->. rewrite Nat.add_0_r.
      destruct (fold_paso_conserva datos ks (S i) (paso datos acc (key, i)) i ltac:(lia))
        as [H1 H2].
      rewrite H1, H2. unfold paso. cbn [fst snd].
      apply String.eqb_neq in Hne. rewrite Hne. cbn [negb].
      cbn [expressionAttributeNames expressionAttributeValues].
      split; apply own_js_set_same.
    + cbn in Hj. replace (i + S j)%nat with (S i + j)%nat by lia.
      now apply IH.
Qed.

(** No placeholder is ever bound to the name id, and each is bound to a key
    of the update. *)
Lemma fold_paso_sin_id datos keys : forall i acc,
  (forall n v, In (n, v) (expressionAttributeNames acc) ->
     exists key, v = JStr key /\ key <> "id") ->
  forall n v,
    In (n, v) (expressionAttributeNames (fold_left (paso datos) (enumerar keys i) acc)) ->
    exists key, v = JStr key /\ key <> "id".
Proof.
  induction keys as [|k ks IH]; intros i acc Hacc; [exact Hacc|].
  cbn [enumerar fold_left]. apply IH.
  intros n v. unfold paso. cbn [fst snd].
  destruct (k =? "id") eqn:E; cbn [negb]; [apply Hacc|].
  cbn [expressionAttributeNames]. intros Hin.
  apply in_js_set in Hin as [Hin|[_ ->]]; [now apply (Hacc n)|].
  exists k. split; [reflexivity|now apply String.eqb_neq].
Qed.

(** The terms of the expression: one for each key but id, in order. *)
Lemma fold_paso_expresiones datos keys : forall i acc,
  updateExpressions (fold_left (paso datos) (enumerar keys i) acc)
  = (updateExpressions acc
     ++ map (fun entrada => (marcador_nombre (snd entrada) ++ " = " ++ marcador_valor (snd entrada))%string)
            (filter (fun entrada => negb (fst entrada =? "id")) (enumerar keys i)))%list.
Proof.
  induction keys as [|k ks IH]; intros i acc.
  - cbn. now rewrite app_nil_r.
  - cbn [enumerar fold_left filter]. rewrite IH. unfold paso. cbn [fst snd].
    destruct (negb (k =? "id")); [|reflexivity].
    cbn [updateExpressions map]. now rewrite <- app_assoc.
Qed.

End Actualizar.

(** X25: with the table configured, actualizarPersonaje, given an id that is
    a string, makes one request, for the given table and id, in which every key of the update but id, at
    its index i among the keys, is bound under the placeholder #attr<i> and
    its value under :val<i>; no placeholder is bound to the name id; and the
    expression is SET followed by one term #attr<i> = :val<i> for each of
    these keys, in order, separated by commas: the id is never rewritten. *)
Theorem actualizarPersonaje_marcadores (w : Mundo)
    (dynamo_update : ActualizarPersonaje.UpdateParams -> Exc JsValue)
    (id : string) (datos : list (string * JsValue)) (t : string) :
  PERSONAJES_TABLE w = Some t -> t <> "" ->
  exists params,
    fst (ActualizarPersonaje.actualizarPersonaje w dynamo_update id datos) = [params]
    /\ ActualizarPersonaje.TableName params = t
    /\ ActualizarPersonaje.Key params = id
    /\ (forall index key,
          nth_error (map fst datos) index = Some key -> key <> "id" ->
          own (ActualizarPersonaje.ExpressionAttributeNames params) (marcador_nombre index)
          = Some (JStr key)
          /\ own (ActualizarPersonaje.ExpressionAttributeValues params) (marcador_valor index)
             = Some (js_get datos key))
    /\ (forall nombre v,
          In (nombre, v) (ActualizarPersonaje.ExpressionAttributeNames params) ->
          v <> JStr "id")
    /\ ActualizarPersonaje.UpdateExpression params
       = "SET " ++ join ", "
                     (map (fun entrada => marcador_nombre (snd entrada) ++ " = "
                                          ++ marcador_valor (snd entrada))
                          (campos_actualizables datos)).
Proof.
  intros Ht Hne. apply String.eqb_neq in Hne.
  unfold ActualizarPersonaje.actualizarPersonaje, DynamoDBService.tabla_configurada,
    DynamoDBService.TABLA_PERSONAJES.
  rewrite Ht, Hne. cbn [snd ret]. cbv zeta.
  eexists. split.
  - destruct (dynamo_update _); reflexivity.
  - cbn [ActualizarPersonaje.TableName ActualizarPersonaje.Key
         ActualizarPersonaje.ExpressionAttributeNames
         ActualizarPersonaje.ExpressionAttributeValues
         ActualizarPersonaje.UpdateExpression].
    split; [reflexivity|]. split; [reflexivity|].
    unfold ActualizarPersonaje.construir. split; [|split].
    + intros index key Hk Hid.
      exact (fold_paso_liga datos (map fst datos) 0 _ index key Hk Hid).
    + intros nombre v Hin.
      apply fold_paso_sin_id in Hin as [key [-> Hkey]]; [congruence|].
      cbn. intros ? ? [].
    + now rewrite fold_paso_expresiones.
Qed.

Lemma actualizarPersonaje_marcadores_witness :
  exists params,
    fst (ActualizarPersonaje.actualizarPersonaje (mundo_ejemplo JNull []) update_de_ejemplo
           "abc-123"
           [("id", JStr "otro"); ("nombre", JStr "Leia"); ("masa", JStr "49")])
    = [params]
    /\ ActualizarPersonaje.UpdateExpression params = "SET #attr1 = :val1, #attr2 = :val2"
    /\ own (ActualizarPersonaje.ExpressionAttributeNames params) "#attr1" = Some (JStr "nombre")
    /\ own (ActualizarPersonaje.ExpressionAttributeValues params) ":val2" = Some (JStr "49").
Proof.
  destruct (actualizarPersonaje_marcadores (mundo_ejemplo JNull []) update_de_ejemplo
              "abc-123"
              [("id", JStr "otro"); ("nombre", JStr "Leia"); ("masa", JStr "49")]
              "personajes-dev" eq_refl ltac:(discriminate))
    as [params [H1 [_ [_ [H2 [_ H3]]]]]].
  exists params. split; [exact H1|]. split; [exact H3|]. split.
  - exact (proj1 (H2 1%nat "nombre" eq_refl ltac:(discriminate))).
  - exact (proj2 (H2 2%nat "masa" eq_refl ltac:(discriminate))).
Defined.

(** X26: when the update holds no key but id (or none at all),
    actualizarPersonaje, given an id that is a string, still calls the store, with the expression SET and
    nothing after it, and no placeholder bound. *)
Theorem actualizarPersonaje_sin_campos (w : Mundo)
    (dynamo_update : ActualizarPersonaje.UpdateParams -> Exc JsValue)
    (id : string) (datos : list (string * JsValue)) (t : string) :
  PERSONAJES_TABLE w = Some t -> t <> "" ->
  (forall key, In key (map fst datos) -> key = "id") ->
  fst (ActualizarPersonaje.actualizarPersonaje w dynamo_update id datos)
  = [ {| ActualizarPersonaje.TableName := t;
         ActualizarPersonaje.Key := id;
         ActualizarPersonaje.UpdateExpression := "SET ";
         ActualizarPersonaje.ExpressionAttributeNames := [];
         ActualizarPersonaje.ExpressionAttributeValues := [];
         ActualizarPersonaje.ReturnValues := "ALL_NEW" |} ].
Proof.
  intros Ht Hne Hkeys. apply String.eqb_neq in Hne.
  unfold ActualizarPersonaje.actualizarPersonaje, DynamoDBService.tabla_configurada,
    DynamoDBService.TABLA_PERSONAJES.
  rewrite Ht, Hne. cbn [snd ret]. cbv zeta.
  assert (Hc : forall keys i acc,
             (forall key, In key keys -> key = "id") ->
             fold_left (ActualizarPersonaje.paso datos) (ActualizarPersonaje.enumerar keys i) acc
             = acc).
  { induction keys as [|k ks IH]; intros i acc Hk; [reflexivity|].
    cbn [ActualizarPersonaje.enumerar fold_left].
    rewrite IH by (intros key Hin; apply Hk; now right).
    unfold ActualizarPersonaje.paso. cbn [fst snd].
    now rewrite (Hk k (or_introl eq_refl)). }
  unfold ActualizarPersonaje.construir. rewrite (Hc _ _ _ Hkeys).
  cbn [ActualizarPersonaje.updateExpressions ActualizarPersonaje.expressionAttributeNames
       ActualizarPersonaje.expressionAttributeValues join].
  destruct (dynamo_update _); reflexivity.
Qed.

Lemma actualizarPersonaje_sin_campos_witness :
  fst (ActualizarPersonaje.actualizarPersonaje (mundo_ejemplo JNull []) update_de_ejemplo
         "abc-123" [("id", JStr "otro")])
  = [ {| ActualizarPersonaje.TableName := "personajes-dev";
         ActualizarPersonaje.Key := "abc-123";
         ActualizarPersonaje.UpdateExpression := "SET ";
         ActualizarPersonaje.ExpressionAttributeNames := [];
         ActualizarPersonaje.ExpressionAttributeValues := [];
         ActualizarPersonaje.ReturnValues := "ALL_NEW" |} ].
Proof.
  apply (actualizarPersonaje_sin_campos (mundo_ejemplo JNull []) update_de_ejemplo
           "abc-123" [("id", JStr "otro")] "personajes-dev").
  - reflexivity.
  - discriminate.
  - intros key [<-|[]]. reflexivity.
Defined.

(** ** The SWAPI handler: every outcome *)

(** X28: the SWAPI handler never rejects: whatever the event and whatever
    the service does, it returns a response, whose status is 200, 400, 404,
    500 or 503, after at most one call of getPersonajeById; and it answers
    400 only without having called the service. *)
Theorem getPersonaje_siempre_responde (w : Mundo) (event : Evento) :
  exists r,
    snd (GetPersonaje.handler w event) = Ok r
    /\ In (statusCode r) [200; 400; 404; 500; 503]%Z
    /\ (fst (GetPersonaje.handler w event) = []
        \/ exists id, fst (GetPersonaje.handler w event) = [SwapiGetPersonajeById id]
                      /\ parametro (pathParameters event) "id" = Some id)
    /\ (statusCode r = 400%Z -> fst (GetPersonaje.handler w event) = []).
Proof.
  unfold GetPersonaje.handler.
  destruct (parametro (pathParameters event) "id") as [id|];
    [|eexists; split; [reflexivity|]; cbn; tauto].
  destruct (id =? ""); [eexists; split; [reflexivity|]; cbn; tauto|].
  destruct (GetPersonaje.id_invalido id); [eexists; split; [reflexivity|]; cbn; tauto|].
  unfold bind, ret, llamar, try_catch. cbn [app].
  destruct (swapi_getPersonajeById w id) as [personaje|error].
  - destruct (negb (truthy personaje));
      (eexists; split; [reflexivity|]); cbn;
      (split; [tauto|split; [right; eauto|intros H; discriminate H]]).
  - destruct (negb (message error =? "") && includes (message error) "no encontrado");
      [|destruct (negb (message error =? "") && includes (message error) "conectar")];
      (eexists; split; [reflexivity|]); cbn;
      (split; [tauto|split; [right; eauto|intros H; discriminate H]]).
Qed.
